(** * todolist: the item model, the two storage backends and the service

    A shallow embedding of [todolist/app/backends/base.py],
    [todolist/app/backends/sqlite.py], [todolist/app/backends/azure_table.py]
    and [todolist/app/todo_service.py], with the parts of Python's [datetime],
    [sqlite3] and the Azure Tables client that this code calls.

    Python objects are records, [dict]s are finite maps of dynamically typed
    values, and every method is a function in a state-and-exception monad over
    the process environment (wall clock, uuid source, [os.environ], outcome of
    storage calls) and the backend object. *)

From Stdlib Require Import ZArith Lia Bool String Ascii List Permutation Sorted.
From stdpp Require Import base option gmap strings list fin_maps.

Local Open Scope string_scope.
Local Open Scope Z_scope.

(** ** Naive [datetime] values and their ISO-8601 text *)

Module Datetime.

(** [is_leap] and [days_in_month] are the calendar rules the [datetime]
    constructor validates a date against. *)
Definition is_leap (y : Z) : bool :=
  (y mod 4 =? 0) && (negb (y mod 100 =? 0) || (y mod 400 =? 0)).

Definition days_in_month (y m : Z) : Z :=
  if m =? 2 then (if is_leap y then 29 else 28)
  else if (m =? 4) || (m =? 6) || (m =? 9) || (m =? 11) then 30
  else 31.

Definition between (lo x hi : Z) : bool := (lo <=? x) && (x <=? hi).

(** The range checks of [datetime(year, month, day, hour, minute, second,
    microsecond)]; outside them the constructor raises [ValueError]. *)
Definition valid_fields (y mo d h mi s us : Z) : bool :=
  between 1 y 9999 && between 1 mo 12 && between 1 d (days_in_month y mo)
  && between 0 h 23 && between 0 mi 59 && between 0 s 59
  && between 0 us 999999.

(** A naive [datetime] object (no [tzinfo]), as [datetime.now()] returns it.
    Python cannot build an out-of-range [datetime], so the record carries the
    range check. *)
Record datetime : Type := mk_datetime {
  year : Z; month : Z; day : Z;
  hour : Z; minute : Z; second : Z; microsecond : Z;
  in_range : valid_fields year month day hour minute second microsecond = true
}.

(** [datetime(...)]: the checked constructor. *)
Definition make_datetime (y mo d h mi s us : Z) : option datetime :=
  match bool_dec (valid_fields y mo d h mi s us) true with
  | left H => Some (mk_datetime y mo d h mi s us H)
  | right _ => None
  end.

(** Comparison of naive datetimes: lexicographic on the seven fields. *)
Definition lex (c1 c2 : comparison) : comparison :=
  match c1 with Eq => c2 | _ => c1 end.

Definition dt_compare (a b : datetime) : comparison :=
  lex (year a ?= year b)
  (lex (month a ?= month b)
  (lex (day a ?= day b)
  (lex (hour a ?= hour b)
  (lex (minute a ?= minute b)
  (lex (second a ?= second b)
       (microsecond a ?= microsecond b)))))).

(** [a <= b] on datetimes. *)
Definition dt_le (a b : datetime) : Prop := dt_compare a b <> Gt.
Definition dt_leb (a b : datetime) : bool :=
  match dt_compare a b with Gt => false | _ => true end.

(** *** Printing: [datetime.isoformat()] *)

Definition digit_char (d : Z) : ascii := ascii_of_N (Z.to_N (48 + d)).

(** [dec k n] is ["%0kd" % n] for [0 <= n < 10^k] (every field of a
    [datetime] is in that range for its width): [k] decimal digits, most
    significant first. *)
Fixpoint dec (k : nat) (n : Z) : string :=
  match k with
  | O => EmptyString
  | S k' => String (digit_char (n / 10 ^ Z.of_nat k'))
                   (dec k' (n mod 10 ^ Z.of_nat k'))
  end.

(** The fraction of [isoformat]: nothing when the microsecond is zero. *)
Definition fraction (us : Z) : string :=
  if us =? 0 then "" else "." ++ dec 6 us.

(** [isoformat()] of a naive datetime: [YYYY-MM-DDTHH:MM:SS], followed by
    [.ffffff] when the microsecond is not zero. *)
Definition isoformat (d : datetime) : string :=
  dec 4 (year d) ++ "-" ++ dec 2 (month d) ++ "-" ++ dec 2 (day d) ++ "T"
  ++ dec 2 (hour d) ++ ":" ++ dec 2 (minute d) ++ ":" ++ dec 2 (second d)
  ++ fraction (microsecond d).

(** *** Parsing: [datetime.fromisoformat] *)

Definition digit_val (c : ascii) : option Z :=
  let n := Z.of_N (N_of_ascii c) in
  if between 48 n 57 then Some (n - 48) else None.

(** Read exactly [k] decimal digits. *)
Fixpoint read_digits (k : nat) (acc : Z) (s : string) : option (Z * string) :=
  match k with
  | O => Some (acc, s)
  | S k' =>
      match s with
      | String c s' =>
          match digit_val c with
          | Some d => read_digits k' (10 * acc + d) s'
          | None => None
          end
      | EmptyString => None
      end
  end.

Definition expect (c : ascii) (s : string) : option string :=
  match s with
  | String c' s' => if Ascii.eqb c c' then Some s' else None
  | EmptyString => None
  end.

(** [.fff] or [.ffffff] after the seconds. *)
Definition parse_fraction (s : string) : option Z :=
  match read_digits 6 0 s with
  | Some (us, EmptyString) => Some us
  | _ =>
      match read_digits 3 0 s with
      | Some (ms, EmptyString) => Some (ms * 1000)
      | _ => None
      end
  end.

(** [HH[:MM[:SS[.fff[fff]]]]]: hour, minute, second, microsecond. *)
Definition parse_time (s : string) : option (Z * Z * Z * Z) :=
  '(h, s) ← read_digits 2 0 s;
  match s with
  | EmptyString => Some (h, 0, 0, 0)
  | _ =>
      s ← expect ":" s;
      '(mi, s) ← read_digits 2 0 s;
      match s with
      | EmptyString => Some (h, mi, 0, 0)
      | _ =>
          s ← expect ":" s;
          '(sec, s) ← read_digits 2 0 s;
          match s with
          | EmptyString => Some (h, mi, sec, 0)
          | _ =>
              s ← expect "." s;
              us ← parse_fraction s;
              Some (h, mi, sec, us)
          end
      end
  end.

(** [datetime.fromisoformat] on the text of a naive datetime, by the grammar
    of its documentation: [YYYY-MM-DD], then nothing, or one separator
    character of any kind followed by [HH[:MM[:SS[.fff[fff]]]]].  [None] is
    the [ValueError] of the original.  Text with a UTC offset would give an
    aware datetime, which this program never produces; it is rejected here. *)
Definition fromisoformat (s : string) : option datetime :=
  '(y, s) ← read_digits 4 0 s;
  s ← expect "-" s;
  '(mo, s) ← read_digits 2 0 s;
  s ← expect "-" s;
  '(d, s) ← read_digits 2 0 s;
  match s with
  | EmptyString => make_datetime y mo d 0 0 0 0
  | String _sep s =>
      '(h, mi, sec, us) ← parse_time s;
      make_datetime y mo d h mi sec us
  end.

End Datetime.
Import Datetime.


(** ** Python values, exceptions, and the world outside the objects *)

(** The dynamically typed values that appear in the item's [dict] form, in
    database rows and in table entities. *)
Inductive pyval : Type :=
| VNone
| VBool (b : bool)
| VInt (n : Z)
| VStr (s : string)
| VDatetime (d : datetime).

(** [dict] with string keys. *)
Abbreviation dict := (gmap string pyval).

(** The exceptions this code can meet: Python's own, those of [sqlite3], and
    those of [azure.core.exceptions]. *)
Inductive exn : Type :=
| AttributeError | ImportError | ValueError | TypeError | KeyError
| IntegrityError | OperationalError
| ResourceExistsError | ResourceNotFoundError
| ClientAuthenticationError | ServiceRequestError | HttpResponseError.

Inductive result (A : Type) : Type :=
| Ok (a : A)
| Raise (e : exn).
Arguments Ok {A} a.
Arguments Raise {A} e.

Definition is_ok {A} (r : result A) : bool :=
  match r with Ok _ => true | Raise _ => false end.

(** A row of the [todos] table of sqlite.py:
    [id TEXT PRIMARY KEY, title TEXT, completed INTEGER, created_at TEXT,
    updated_at TEXT]. *)
Record DbRow : Type := mkRow {
  row_id : string;
  row_title : string;
  row_completed : Z;
  row_created_at : string;
  row_updated_at : string
}.

(** Everything the objects of the program act on: the wall clock read by
    [datetime.now()] (its successive readings, and how many were taken), the
    source of [uuid.uuid4()], [os.environ], whether the Azure packages could
    be imported, the outcome of the coming calls to a storage engine or
    service ([None]: the call goes through; [Some e]: it fails with [e];
    an empty list: no call fails), the [todos] table in the database file,
    and the remote table, keyed by [(PartitionKey, RowKey)].
    [delete_missing_raises] says whether the installed azure-data-tables
    reports the deletion of a missing entity as [ResourceNotFoundError]
    (its first releases) or returns silently (later ones). *)
Record World : Type := mkWorld {
  clock : nat -> datetime;
  ticks : nat;
  uuids : nat -> string;
  drawn : nat;
  environ : gmap string string;
  AZURE_AVAILABLE : bool;
  faults : list (option exn);
  disk : list DbRow;
  cloud : gmap (string * string) dict;
  delete_missing_raises : bool
}.

Definition set_ticks (n : nat) (w : World) : World :=
  mkWorld (clock w) n (uuids w) (drawn w) (environ w) (AZURE_AVAILABLE w)
          (faults w) (disk w) (cloud w) (delete_missing_raises w).
Definition set_drawn (n : nat) (w : World) : World :=
  mkWorld (clock w) (ticks w) (uuids w) n (environ w) (AZURE_AVAILABLE w)
          (faults w) (disk w) (cloud w) (delete_missing_raises w).
Definition set_faults (f : list (option exn)) (w : World) : World :=
  mkWorld (clock w) (ticks w) (uuids w) (drawn w) (environ w) (AZURE_AVAILABLE w)
          f (disk w) (cloud w) (delete_missing_raises w).
Definition set_disk (d : list DbRow) (w : World) : World :=
  mkWorld (clock w) (ticks w) (uuids w) (drawn w) (environ w) (AZURE_AVAILABLE w)
          (faults w) d (cloud w) (delete_missing_raises w).
Definition set_cloud (c : gmap (string * string) dict) (w : World) : World :=
  mkWorld (clock w) (ticks w) (uuids w) (drawn w) (environ w) (AZURE_AVAILABLE w)
          (faults w) (disk w) c (delete_missing_raises w).

(** A backend object [self : B] in its world. *)
Record Sys (B : Type) : Type := mkSys { world : World; self : B }.
Arguments mkSys {B} world self.
Arguments world {B} s.
Arguments self {B} s.

(** ** The monad of methods: state, and exceptions that keep the state *)

Definition M (S A : Type) : Type := S -> result A * S.

Definition ret {S A} (a : A) : M S A := fun s => (Ok a, s).
Definition raise {S A} (e : exn) : M S A := fun s => (Raise e, s).
Definition bind {S A B} (m : M S A) (k : A -> M S B) : M S B :=
  fun s => match m s with
           | (Ok a, s') => k a s'
           | (Raise e, s') => (Raise e, s')
           end.
(** [try: body / except Exception: handler]. *)
Definition try_except {S A} (body : M S A) (handler : exn -> M S A) : M S A :=
  fun s => match body s with
           | (Ok a, s') => (Ok a, s')
           | (Raise e, s') => handler e s'
           end.

Notation "x <- c1 ;; c2" := (bind c1 (fun x => c2))
  (at level 100, c1 at next level, right associativity).
Notation "c1 ;;; c2" := (bind c1 (fun _ => c2))
  (at level 100, right associativity).

(** [for x in l: out.append(f(x))]. *)
Fixpoint for_each {S A B} (f : A -> M S B) (l : list A) : M S (list B) :=
  match l with
  | [] => ret []
  | x :: l' => y <- f x ;; ys <- for_each f l' ;; ret (y :: ys)
  end.

Section Environment.
Context {B : Type}.

Definition get_world : M (Sys B) World := fun s => (Ok (world s), s).
Definition get_self : M (Sys B) B := fun s => (Ok (self s), s).
Definition update_world (f : World -> World) : M (Sys B) unit :=
  fun s => (Ok tt, mkSys (f (world s)) (self s)).
Definition set_self (b : B) : M (Sys B) unit :=
  fun s => (Ok tt, mkSys (world s) b).

(** [datetime.now()]: the next reading of the clock. *)
Definition datetime_now : M (Sys B) datetime :=
  w <- get_world ;;
  update_world (set_ticks (S (ticks w))) ;;;
  ret (clock w (ticks w)).

(** [str(uuid.uuid4())]. *)
Definition uuid4_str : M (Sys B) string :=
  w <- get_world ;;
  update_world (set_drawn (S (drawn w))) ;;;
  ret (uuids w (drawn w)).

(** One call into a storage engine or a remote service: it goes through, or
    fails the way the environment decides. *)
Definition storage_call : M (Sys B) unit :=
  w <- get_world ;;
  match faults w with
  | [] => ret tt
  | None :: rest => update_world (set_faults rest)
  | Some e :: rest => update_world (set_faults rest) ;;; raise e
  end.

End Environment.

(** ** base.py: the item model *)

(** [class TodoItem].  The fields have the types of the annotations of
    [__init__]. *)
Record TodoItem : Type := mkTodoItem {
  id : string;
  title : string;
  completed : bool;
  created_at : datetime;
  updated_at : datetime
}.

Definition set_id (i : string) (it : TodoItem) : TodoItem :=
  mkTodoItem i (title it) (completed it) (created_at it) (updated_at it).
Definition set_title (t : string) (it : TodoItem) : TodoItem :=
  mkTodoItem (id it) t (completed it) (created_at it) (updated_at it).
Definition set_completed (c : bool) (it : TodoItem) : TodoItem :=
  mkTodoItem (id it) (title it) c (created_at it) (updated_at it).
Definition set_updated_at (d : datetime) (it : TodoItem) : TodoItem :=
  mkTodoItem (id it) (title it) (completed it) (created_at it) d.

(** The mapping with the five keys of the model, timestamps as text. *)
Definition five (i t : string) (c : bool) (ca ua : string) : dict :=
  <[ "id" := VStr i ]> (<[ "title" := VStr t ]> (<[ "completed" := VBool c ]>
  (<[ "created_at" := VStr ca ]> (<[ "updated_at" := VStr ua ]> ∅)))).

Section ItemModel.
Context {B : Type}.

(** [x or datetime.now()]: a [datetime] is always true, so the clock is read
    exactly when [x] is [None]. *)
Definition or_now (x : option datetime) : M (Sys B) datetime :=
  match x with
  | Some d => ret d
  | None => datetime_now
  end.

(** [TodoItem.__init__]: [created_at] is settled first, then [updated_at],
    each by its own [datetime.now()] when absent. *)
Definition TodoItem_init (id title : string) (completed : bool)
    (created_at updated_at : option datetime) : M (Sys B) TodoItem :=
  c <- or_now created_at ;;
  u <- or_now updated_at ;;
  ret (mkTodoItem id title completed c u).

(** [TodoItem.to_dict]. *)
Definition to_dict (it : TodoItem) : dict :=
  <[ "id" := VStr (id it) ]>
  (<[ "title" := VStr (title it) ]>
  (<[ "completed" := VBool (completed it) ]>
  (<[ "created_at" := VStr (isoformat (created_at it)) ]>
  (<[ "updated_at" := VStr (isoformat (updated_at it)) ]> ∅)))).

(** [if isinstance(data.get(key), str): data[key] =
    datetime.fromisoformat(data[key])]. *)
Definition parse_timestamp (key : string) (data : dict) : M (Sys B) dict :=
  match data !! key with
  | Some (VStr s) =>
      match fromisoformat s with
      | Some d => ret (<[ key := VDatetime d ]> data)
      | None => raise ValueError
      end
  | _ => ret data
  end.

Definition parameters : gset string :=
  {[ "id"; "title"; "completed"; "created_at"; "updated_at" ]}.

(** An optional [completed] argument (default [False]). *)
Definition completed_arg (v : option pyval) : option bool :=
  match v with
  | None => Some false
  | Some (VBool b) => Some b
  | Some _ => None
  end.

(** An optional timestamp argument (default [None]). *)
Definition timestamp_arg (v : option pyval) : option (option datetime) :=
  match v with
  | None | Some VNone => Some None
  | Some (VDatetime d) => Some (Some d)
  | Some _ => None
  end.

(** [cls] called with [data] as its keyword arguments: a key that is no
    parameter of [__init__], or a missing [id] or [title], is a [TypeError].
    Python would accept an argument of any type; the model is typed by the
    annotations, and refuses the others. *)
Definition TodoItem_call (data : dict) : M (Sys B) TodoItem :=
  if decide (dom data ⊆ parameters) then
    match data !! "id", data !! "title",
          completed_arg (data !! "completed"),
          timestamp_arg (data !! "created_at"),
          timestamp_arg (data !! "updated_at") with
    | Some (VStr i), Some (VStr t), Some c, Some ca, Some ua =>
        TodoItem_init i t c ca ua
    | _, _, _, _, _ => raise TypeError
    end
  else raise TypeError.

(** [TodoItem.from_dict]. *)
Definition from_dict (data : dict) : M (Sys B) TodoItem :=
  data <- parse_timestamp "created_at" data ;;
  data <- parse_timestamp "updated_at" data ;;
  TodoItem_call data.

End ItemModel.

(** [class TodoBackend(ABC)]: the six abstract methods. *)
Class TodoBackend (B : Type) : Type := {
  initialize : M (Sys B) unit;
  add_item : TodoItem -> M (Sys B) TodoItem;
  get_item : string -> M (Sys B) (option TodoItem);
  get_all_items : M (Sys B) (list TodoItem);
  update_item : TodoItem -> M (Sys B) TodoItem;
  delete_item : string -> M (Sys B) bool
}.

(** ** sqlite.py: the file-store backend *)

Module SQLite.

(** [class SQLiteTodoBackend]: the path, and whether [initialize] has opened
    the connection and its cursor ([conn] and [cursor] are [None] before). *)
Record SQLiteTodoBackend : Type := mkBackend {
  db_path : string;
  conn : bool;
  cursor : bool
}.

(** The statements of sqlite.py. *)
Inductive Stmt : Type :=
| CREATE_TABLE_IF_NOT_EXISTS
| INSERT (r : DbRow)
| SELECT_WHERE_ID (i : string)
| SELECT_ORDER_BY_CREATED_AT_DESC
| UPDATE_WHERE_ID (title : string) (completed : Z) (updated_at : string) (i : string)
| DELETE_WHERE_ID (i : string).

(** What the cursor holds after a statement: the rows to fetch, and
    [rowcount]. *)
Record Fetched : Type := mkFetched { rows : list DbRow; rowcount : Z }.

Definition has_id (i : string) (r : DbRow) : bool := String.eqb (row_id r) i.

(** TEXT values compare byte by byte (the BINARY collation). *)
Definition text_leb (a b : string) : bool :=
  match String.compare a b with Gt => false | _ => true end.

(** [ORDER BY created_at DESC].  SQLite leaves the order of rows with equal
    keys open; this sort keeps them in table order. *)
Fixpoint insert_desc (r : DbRow) (l : list DbRow) : list DbRow :=
  match l with
  | [] => [r]
  | x :: l' =>
      if text_leb (row_created_at x) (row_created_at r) then r :: x :: l'
      else x :: insert_desc r l'
  end.

Definition order_by_created_at_desc (l : list DbRow) : list DbRow :=
  foldr insert_desc [] l.

Definition update_row (title : string) (completed : Z) (updated_at : string)
    (i : string) (r : DbRow) : DbRow :=
  if has_id i r then mkRow (row_id r) title completed (row_created_at r) updated_at
  else r.

(** The effect of a statement on the table and on the cursor; [None] is the
    PRIMARY KEY violation of an INSERT, which changes nothing. *)
Definition run_stmt (q : Stmt) (tbl : list DbRow) : option (list DbRow * Fetched) :=
  match q with
  | CREATE_TABLE_IF_NOT_EXISTS => Some (tbl, mkFetched [] (-1))
  | INSERT r =>
      if existsb (has_id (row_id r)) tbl then None
      else Some ((tbl ++ [r])%list, mkFetched [] 1)
  | SELECT_WHERE_ID i => Some (tbl, mkFetched (filter (fun r => has_id i r = true) tbl) (-1))
  | SELECT_ORDER_BY_CREATED_AT_DESC =>
      Some (tbl, mkFetched (order_by_created_at_desc tbl) (-1))
  | UPDATE_WHERE_ID t c u i =>
      Some (map (update_row t c u i) tbl,
            mkFetched [] (Z.of_nat (length (filter (fun r => has_id i r = true) tbl))))
  | DELETE_WHERE_ID i =>
      Some (filter (fun r => has_id i r = false) tbl,
            mkFetched [] (Z.of_nat (length (filter (fun r => has_id i r = true) tbl))))
  end.

Abbreviation St := (Sys SQLiteTodoBackend).

(** [self.cursor.execute(...)]: [AttributeError] while the cursor is [None];
    otherwise the engine runs the statement, unless it fails. *)
Definition execute (q : Stmt) : M St Fetched :=
  be <- get_self ;;
  if negb (cursor be) then raise AttributeError
  else
    storage_call ;;;
    w <- get_world ;;
    match run_stmt q (disk w) with
    | Some (tbl, res) => update_world (set_disk tbl) ;;; ret res
    | None => raise IntegrityError
    end.

(** [self.conn.commit()]: a statement that ran is already in the table. *)
Definition commit : M St unit :=
  be <- get_self ;;
  if negb (conn be) then raise AttributeError else ret tt.

(** The mapping that [get_item] and [get_all_items] build from a row. *)
Definition row_dict (row : DbRow) : dict :=
  <[ "id" := VStr (row_id row) ]>
  (<[ "title" := VStr (row_title row) ]>
  (<[ "completed" := VBool (negb (row_completed row =? 0)) ]>
  (<[ "created_at" := VStr (row_created_at row) ]>
  (<[ "updated_at" := VStr (row_updated_at row) ]> ∅)))).

Definition item_row (item : TodoItem) : DbRow :=
  mkRow (id item) (title item) (if completed item then 1 else 0)
        (isoformat (created_at item)) (isoformat (updated_at item)).

(** [initialize]: opens the connection and the cursor, and creates the table
    if it is not there (the directory of the file is not modelled). *)
Definition initialize : M St unit :=
  be <- get_self ;;
  set_self (mkBackend (db_path be) true true) ;;;
  execute CREATE_TABLE_IF_NOT_EXISTS ;;;
  commit.

(** [add_item]: [if not item.id] gives the item a uuid; then INSERT and
    commit. *)
Definition add_item (item : TodoItem) : M St TodoItem :=
  item <- (if String.eqb (id item) "" then
             i <- uuid4_str ;; ret (set_id i item)
           else ret item) ;;
  execute (INSERT (item_row item)) ;;;
  commit ;;;
  ret item.

(** [get_item]: [fetchone] after the SELECT; [None] without a row. *)
Definition get_item (item_id : string) : M St (option TodoItem) :=
  res <- execute (SELECT_WHERE_ID item_id) ;;
  match rows res with
  | [] => ret None
  | row :: _ => item <- from_dict (row_dict row) ;; ret (Some item)
  end.

(** [get_all_items]: [fetchall] after the ordered SELECT. *)
Definition get_all_items : M St (list TodoItem) :=
  res <- execute SELECT_ORDER_BY_CREATED_AT_DESC ;;
  for_each (fun row => from_dict (row_dict row)) (rows res).

(** [update_item]: stamps the object with [datetime.now()], then UPDATE and
    commit. *)
Definition update_item (item : TodoItem) : M St TodoItem :=
  now <- datetime_now ;;
  let item := set_updated_at now item in
  execute (UPDATE_WHERE_ID (title item) (if completed item then 1 else 0)
                           (isoformat (updated_at item)) (id item)) ;;;
  commit ;;;
  ret item.

(** [delete_item]: [rowcount > 0] after the DELETE and the commit. *)
Definition delete_item (item_id : string) : M St bool :=
  res <- execute (DELETE_WHERE_ID item_id) ;;
  commit ;;;
  ret (0 <? rowcount res).

#[global] Instance backend : TodoBackend SQLiteTodoBackend :=
  Build_TodoBackend SQLiteTodoBackend
    initialize add_item get_item get_all_items update_item delete_item.

End SQLite.

(** ** azure_table.py: the table-store backend *)

Module AzureTable.

(** [class AzureTableTodoBackend]: the attributes [__init__] sets;
    [table_client] is [None] ([false]) until [initialize] binds it. *)
Record AzureTableTodoBackend : Type := mkBackend {
  table_name : string;
  account_name : option string;
  account_url : option string;
  connection_string : option string;
  use_workload_identity : bool;
  table_client : bool
}.

(** Truth value of an [Optional[str]]: [None] and the empty string are
    false. *)
Definition truthy (x : option string) : bool :=
  match x with
  | Some s => negb (String.eqb s "")
  | None => false
  end.

(** [x or y] on [Optional[str]]. *)
Definition or_else (x y : option string) : option string :=
  if truthy x then x else y.

(** [str.lower()] on ASCII text, enough to decide [.lower() == "true"]. *)
Definition lower_char (c : ascii) : ascii :=
  let n := N_of_ascii c in
  if (65 <=? n)%N && (n <=? 90)%N then ascii_of_N (n + 32) else c.

Fixpoint lower (s : string) : string :=
  match s with
  | EmptyString => EmptyString
  | String c s' => String (lower_char c) (lower s')
  end.

(** [AzureTableTodoBackend.__init__]: reads [AZURE_AVAILABLE] and
    [os.environ], and changes nothing. *)
Definition init (connection_string : option string) (table_name : string)
    (account_name account_url : option string) (use_workload_identity : bool)
    (w : World) : result AzureTableTodoBackend :=
  if negb (AZURE_AVAILABLE w) then Raise ImportError
  else
    let table_name :=
      if negb (String.eqb table_name "") then table_name
      else default "todos" (environ w !! "AZURE_TABLE_NAME") in
    let account_name := or_else account_name (environ w !! "AZURE_STORAGE_ACCOUNT_NAME") in
    let account_url := or_else account_url (environ w !! "AZURE_STORAGE_ACCOUNT_URL") in
    let connection_string :=
      or_else connection_string (environ w !! "AZURE_STORAGE_CONNECTION_STRING") in
    let use_workload_identity :=
      use_workload_identity
      || String.eqb (lower (default "false" (environ w !! "USE_WORKLOAD_IDENTITY"))) "true" in
    let this := mkBackend table_name account_name account_url connection_string
                          use_workload_identity false in
    if negb use_workload_identity && negb (truthy connection_string) then
      if negb (truthy connection_string) then Raise ValueError else Ok this
    else if use_workload_identity && negb (truthy account_url)
            && negb (truthy account_name) then
      Raise ValueError
    else Ok this.

Abbreviation St := (Sys AzureTableTodoBackend).

(** *** The table client of azure-data-tables *)

(** The [(PartitionKey, RowKey)] of an entity; [ValueError] without them. *)
Definition entity_key (e : dict) : M St (string * string) :=
  match e !! "PartitionKey", e !! "RowKey" with
  | Some (VStr pk), Some (VStr rk) => ret (pk, rk)
  | _, _ => raise ValueError
  end.

(** A method of [self.table_client]: [AttributeError] while it is [None];
    then the request reaches the service, unless the transport fails. *)
Definition request : M St World :=
  be <- get_self ;;
  if negb (table_client be) then raise AttributeError
  else storage_call ;;; get_world.

Definition create_entity (e : dict) : M St unit :=
  w <- request ;;
  k <- entity_key e ;;
  match cloud w !! k with
  | Some _ => raise ResourceExistsError
  | None => update_world (set_cloud (<[ k := e ]> (cloud w)))
  end.

(** The entity comes back with its two keys. *)
Definition get_entity (partition_key row_key : string) : M St dict :=
  w <- request ;;
  match cloud w !! (partition_key, row_key) with
  | Some e =>
      ret (<[ "PartitionKey" := VStr partition_key ]> (<[ "RowKey" := VStr row_key ]> e))
  | None => raise ResourceNotFoundError
  end.

(** [update_entity(entity, mode=UpdateMode.MERGE)]: the properties given
    replace the stored ones, the others stay. *)
Definition update_entity_merge (e : dict) : M St unit :=
  w <- request ;;
  k <- entity_key e ;;
  match cloud w !! k with
  | Some old => update_world (set_cloud (<[ k := e ∪ old ]> (cloud w)))
  | None => raise ResourceNotFoundError
  end.

Definition delete_entity (partition_key row_key : string) : M St unit :=
  w <- request ;;
  match cloud w !! (partition_key, row_key) with
  | Some _ => update_world (set_cloud (delete (partition_key, row_key) (cloud w)))
  | None => if delete_missing_raises w then raise ResourceNotFoundError else ret tt
  end.

(** [query_entities(query_filter="PartitionKey eq 'todos'")]. *)
Definition query_entities_todos : M St (list dict) :=
  w <- request ;;
  ret (snd <$> map_to_list (filter (fun kv => fst (fst kv) = "todos") (cloud w))).

(** *** The backend *)

(** [entity[key]]: [KeyError] when the property is missing. *)
Definition item_of (e : dict) (key : string) : M St pyval :=
  match e !! key with
  | Some v => ret v
  | None => raise KeyError
  end.

(** The mapping that [get_item] and [get_all_items] build from an entity. *)
Definition entity_dict (e : dict) : M St dict :=
  i <- item_of e "RowKey" ;;
  t <- item_of e "title" ;;
  c <- item_of e "completed" ;;
  ca <- item_of e "created_at" ;;
  ua <- item_of e "updated_at" ;;
  ret (<[ "id" := i ]> (<[ "title" := t ]> (<[ "completed" := c ]>
      (<[ "created_at" := ca ]> (<[ "updated_at" := ua ]> ∅))))).

(** [initialize]: a failure of [create_table] is logged and ignored; the
    client is bound either way.  (Building the credential and the service
    client is taken to succeed.) *)
Definition initialize : M St unit :=
  try_except storage_call (fun _ => ret tt) ;;;
  be <- get_self ;;
  set_self (mkBackend (table_name be) (account_name be) (account_url be)
                      (connection_string be) (use_workload_identity be) true).

(** [add_item]: [if not item.id] gives the item a uuid; then
    [create_entity], with no handler around it. *)
Definition add_item (item : TodoItem) : M St TodoItem :=
  item <- (if String.eqb (id item) "" then
             i <- uuid4_str ;; ret (set_id i item)
           else ret item) ;;
  let entity : dict :=
    <[ "PartitionKey" := VStr "todos" ]>
    (<[ "RowKey" := VStr (id item) ]>
    (<[ "title" := VStr (title item) ]>
    (<[ "completed" := VBool (completed item) ]>
    (<[ "created_at" := VStr (isoformat (created_at item)) ]>
    (<[ "updated_at" := VStr (isoformat (updated_at item)) ]> ∅))))) in
  create_entity entity ;;;
  ret item.

(** [get_item]: any exception of the [try] block gives [None]. *)
Definition get_item (item_id : string) : M St (option TodoItem) :=
  try_except
    (entity <- get_entity "todos" item_id ;;
     data <- entity_dict entity ;;
     item <- from_dict data ;;
     ret (Some item))
    (fun _ => ret None).

(** [get_all_items]: the entities of the partition, in the order the
    service lists them. *)
Definition get_all_items : M St (list TodoItem) :=
  entities <- query_entities_todos ;;
  for_each (fun entity => data <- entity_dict entity ;; from_dict data) entities.

(** [update_item]: stamps the object with [datetime.now()], then merges
    title, flag and [updated_at] into the stored entity. *)
Definition update_item (item : TodoItem) : M St TodoItem :=
  now <- datetime_now ;;
  let item := set_updated_at now item in
  let entity : dict :=
    <[ "PartitionKey" := VStr "todos" ]>
    (<[ "RowKey" := VStr (id item) ]>
    (<[ "title" := VStr (title item) ]>
    (<[ "completed" := VBool (completed item) ]>
    (<[ "updated_at" := VStr (isoformat (updated_at item)) ]> ∅)))) in
  update_entity_merge entity ;;;
  ret item.

(** [delete_item]: [True] when [delete_entity] returns, [False] on any
    exception. *)
Definition delete_item (item_id : string) : M St bool :=
  try_except
    (delete_entity "todos" item_id ;;; ret true)
    (fun _ => ret false).

#[global] Instance backend : TodoBackend AzureTableTodoBackend :=
  Build_TodoBackend AzureTableTodoBackend
    initialize add_item get_item get_all_items update_item delete_item.

End AzureTable.

(** ** todo_service.py: the service *)

Section TodoService.
Context {B : Type} `{TodoBackend B}.

(** [TodoService.__init__]: keeps the backend and initializes it. *)
Definition TodoService_init : M (Sys B) unit := initialize.

(** [add_task]: a new uuid, an item without timestamps, [add_item]. *)
Definition add_task (title : string) (completed : bool) : M (Sys B) TodoItem :=
  i <- uuid4_str ;;
  item <- TodoItem_init i title completed None None ;;
  add_item item.

Definition get_task (task_id : string) : M (Sys B) (option TodoItem) :=
  get_item task_id.

Definition get_all_tasks : M (Sys B) (list TodoItem) :=
  get_all_items.

(** [update_task]: [None] for an option is the argument left at its
    default; [if not item] returns [None]. *)
Definition update_task (task_id : string) (title : option string)
    (completed : option bool) : M (Sys B) (option TodoItem) :=
  item <- get_item task_id ;;
  match item with
  | None => ret None
  | Some item =>
      let item := match title with Some t => set_title t item | None => item end in
      let item := match completed with Some c => set_completed c item | None => item end in
      r <- update_item item ;; ret (Some r)
  end.

Definition toggle_task (task_id : string) : M (Sys B) (option TodoItem) :=
  item <- get_item task_id ;;
  match item with
  | None => ret None
  | Some item =>
      let item := set_completed (negb (completed item)) item in
      r <- update_item item ;; ret (Some r)
  end.

Definition delete_task (task_id : string) : M (Sys B) bool :=
  delete_item task_id.

End TodoService.


(** ** Vocabulary of the statements *)

(** The clock never runs backwards. *)
Definition clock_monotone (w : World) : Prop :=
  forall i j : nat, (i <= j)%nat -> dt_le (clock w i) (clock w j).

(** The failure, if any, that awaits the next storage call, and the system
    once that call has been answered. *)
Definition next_fault (w : World) : option exn :=
  match faults w with
  | Some e :: _ => Some e
  | _ => None
  end.

Definition after_call {B} (s : Sys B) : Sys B :=
  mkSys (set_faults (tail (faults (world s))) (world s)) (self s).

(** The system once [datetime.now()] has been read. *)
Definition after_now {B} (s : Sys B) : Sys B :=
  mkSys (set_ticks (S (ticks (world s))) (world s)) (self s).

(** The partial update of [update_task]: only the fields given change. *)
Definition patched (title : option string) (completed : option bool)
    (item : TodoItem) : TodoItem :=
  let item := match title with Some t => set_title t item | None => item end in
  match completed with Some c => set_completed c item | None => item end.

(** The flip of [toggle_task]. *)
Definition toggled (item : TodoItem) : TodoItem :=
  set_completed (negb (completed item)) item.

(** The shape [update_task] and [toggle_task] share: fetch, change the
    object, write it back. *)
Definition fetch_change_write {B} `{TodoBackend B} (change : TodoItem -> TodoItem)
    (task_id : string) : M (Sys B) (option TodoItem) :=
  item <- get_item task_id ;;
  match item with
  | None => ret None
  | Some item => r <- update_item (change item) ;; ret (Some r)
  end.

(** The item [add_task] constructs, and the system once it has: one uuid
    drawn, the clock read twice. *)
Definition fresh_item {B} (title : string) (completed : bool) (s : Sys B) : TodoItem :=
  mkTodoItem (uuids (world s) (drawn (world s))) title completed
             (clock (world s) (ticks (world s)))
             (clock (world s) (S (ticks (world s)))).

Definition after_fresh {B} (s : Sys B) : Sys B :=
  mkSys (set_ticks (S (S (ticks (world s))))
                   (set_drawn (S (drawn (world s))) (world s)))
        (self s).

(** The timestamps of an item that [add_task] built in [s]: the reading of
    the clock at construction and the one after it; in that order when the
    clock never runs backwards, and equal exactly when the two readings
    are. *)
Definition fresh_stamps {B} (it : TodoItem) (s : Sys B) : Prop :=
  let w := world s in
  created_at it = clock w (ticks w) /\
  updated_at it = clock w (S (ticks w)) /\
  (clock_monotone w -> dt_le (created_at it) (updated_at it)) /\
  (created_at it = updated_at it <-> clock w (ticks w) = clock w (S (ticks w))).

(** [s'] is [s] after some more readings of the clock, and nothing else. *)
Definition reads_clock {B} (s s' : Sys B) : Prop :=
  s' = mkSys (set_ticks (ticks (world s')) (world s)) (self s) /\
  (ticks (world s) <= ticks (world s'))%nat.

(** The calls of the service. *)
Inductive call : Type :=
| Add (title : string) (completed : bool)
| Get (task_id : string)
| GetAll
| Update (task_id : string) (title : option string) (completed : option bool)
| Toggle (task_id : string)
| Delete (task_id : string).

(** The system after a call, whatever it returned or raised. *)
Definition after {B} `{TodoBackend B} (c : call) (s : Sys B) : Sys B :=
  match c with
  | Add t c => snd (add_task t c s)
  | Get i => snd (get_task i s)
  | GetAll => snd (get_all_tasks s)
  | Update i t c => snd (update_task i t c s)
  | Toggle i => snd (toggle_task i s)
  | Delete i => snd (delete_task i s)
  end.

Module TableStore.
Import AzureTable.

(** The entity stored under an id, in the one partition of the backend. *)
Definition stored (i : string) (s : St) : option dict :=
  cloud (world s) !! ("todos", i).

(** The entity [update_item] sends. *)
Definition update_entity_of (item : TodoItem) (now : datetime) : dict :=
  <[ "PartitionKey" := VStr "todos" ]>
  (<[ "RowKey" := VStr (id item) ]>
  (<[ "title" := VStr (title item) ]>
  (<[ "completed" := VBool (completed item) ]>
  (<[ "updated_at" := VStr (isoformat now) ]> ∅)))).

(** The entity [add_item] sends. *)
Definition create_entity_of (item : TodoItem) : dict :=
  <[ "PartitionKey" := VStr "todos" ]>
  (<[ "RowKey" := VStr (id item) ]>
  (<[ "title" := VStr (title item) ]>
  (<[ "completed" := VBool (completed item) ]>
  (<[ "created_at" := VStr (isoformat (created_at item)) ]>
  (<[ "updated_at" := VStr (isoformat (updated_at item)) ]> ∅))))).

(** The item [add_item] sends, and the system when it does. *)
Definition identified (item : TodoItem) (s : St) : TodoItem * St :=
  if String.eqb (id item) "" then
    (set_id (uuids (world s) (drawn (world s))) item,
     mkSys (set_drawn (S (drawn (world s))) (world s)) (self s))
  else (item, s).

(** Every stored entity carries both timestamps as text, and was last
    written at a reading of the clock that is not later than any reading
    still to come. *)
Definition stamped_before (s : St) : Prop :=
  forall (k : string * string) (e : dict),
    cloud (world s) !! k = Some e ->
    (exists a, e !! "created_at" = Some (VStr a)) /\
    (exists b, e !! "updated_at" = Some (VStr b) /\
       forall d, fromisoformat b = Some d ->
       forall j : nat, (ticks (world s) <= j)%nat -> dt_le d (clock (world s) j)).

(** The states of a service that was constructed over an empty remote
    table and has answered any sequence of calls. *)
Inductive reachable : St -> Prop :=
| reach_new (s : St) :
    cloud (world s) = ∅ -> reachable (snd (TodoService_init s))
| reach_call (c : call) (s : St) :
    reachable s -> reachable (after c s).

(** How a call can move the system: the clock is the same and has been read
    some more, and every entity now stored was there before, or was written
    at one of the readings taken so far, with a creation time that is text
    or that an entity had before. *)
Definition evolves (s s' : St) : Prop :=
  clock (world s') = clock (world s) /\
  (ticks (world s) <= ticks (world s'))%nat /\
  forall (k : string * string) (e : dict), cloud (world s') !! k = Some e ->
    cloud (world s) !! k = Some e \/
    (exists n : nat, (n < ticks (world s'))%nat /\
       e !! "updated_at" = Some (VStr (isoformat (clock (world s) n)))) /\
    ((exists a, e !! "created_at" = Some (VStr a)) \/
     exists e0, cloud (world s) !! k = Some e0 /\
                e !! "created_at" = e0 !! "created_at").

End TableStore.

Module FileStore.
Import SQLite.

(** The backend is initialized. *)
Definition opened (s : St) : Prop :=
  cursor (self s) = true /\ conn (self s) = true.

(** The backend is initialized and the engine will not fail. *)
Definition ready (s : St) : Prop :=
  cursor (self s) = true /\ conn (self s) = true /\ faults (world s) = [].

(** The record stored under an id: what [SELECT ... WHERE id = ?] and
    [fetchone] give. *)
Definition stored (i : string) (s : St) : option DbRow :=
  head (filter (fun r => has_id i r = true) (disk (world s))).

(** The completed flag of a row, as [bool(row["completed"])] reads it. *)
Definition flag (r : DbRow) : bool := negb (row_completed r =? 0).

(** The item a row stands for, when its timestamps parse. *)
Definition parse_row (r : DbRow) : option TodoItem :=
  match fromisoformat (row_created_at r), fromisoformat (row_updated_at r) with
  | Some dc, Some du => Some (mkTodoItem (row_id r) (row_title r) (flag r) dc du)
  | _, _ => None
  end.

(** Text that [isoformat] can have written. *)
Definition canonical_text (t : string) : bool :=
  match fromisoformat t with
  | Some d => String.eqb (isoformat d) t
  | None => false
  end.

(** A row as [add_item] and [update_item] write them: both timestamps are
    [isoformat] text. *)
Definition canonical (r : DbRow) : Prop :=
  canonical_text (row_created_at r) = true /\
  canonical_text (row_updated_at r) = true.

(** What [update_item] leaves in the table. *)
Definition updated_table (item : TodoItem) (now : datetime) (tbl : list DbRow) : list DbRow :=
  map (update_row (title item) (if completed item then 1 else 0) (isoformat now) (id item)) tbl.

(** Every stored record was last written at a reading of the clock that is
    not later than any reading still to come. *)
Definition stamped_before (s : St) : Prop :=
  forall (r : DbRow) (d : datetime),
    r ∈ disk (world s) -> fromisoformat (row_updated_at r) = Some d ->
    forall j : nat, (ticks (world s) <= j)%nat -> dt_le d (clock (world s) j).

(** The states of a service that was constructed over an empty [todos]
    table and has answered any sequence of calls. *)
Inductive reachable : St -> Prop :=
| reach_new (s : St) :
    disk (world s) = [] -> reachable (snd (TodoService_init s))
| reach_call (c : call) (s : St) :
    reachable s -> reachable (after c s).

(** How a call can move the system: the clock is the same and has been read
    some more, and every record now stored was there before, or was written at
    one of the readings taken so far, with a creation time that [isoformat]
    wrote or that a record had before. *)
Definition evolves (s s' : St) : Prop :=
  clock (world s') = clock (world s) /\
  (ticks (world s) <= ticks (world s'))%nat /\
  forall r : DbRow, r ∈ disk (world s') ->
    r ∈ disk (world s) \/
    (exists k : nat, (k < ticks (world s'))%nat /\
                     row_updated_at r = isoformat (clock (world s) k)) /\
    (canonical_text (row_created_at r) = true \/
     exists r0 : DbRow, r0 ∈ disk (world s) /\ row_created_at r = row_created_at r0).

(** The item [add_item] inserts, and the system when it does: an empty id is
    replaced by a fresh uuid. *)
Definition identified (item : TodoItem) (s : St) : TodoItem * St :=
  if String.eqb (id item) "" then
    (set_id (uuids (world s) (drawn (world s))) item,
     mkSys (set_drawn (S (drawn (world s))) (world s)) (self s))
  else (item, s).

(** The order of [ORDER BY created_at DESC] on rows. *)
Definition text_newest_first (a b : DbRow) : Prop :=
  text_leb (row_created_at b) (row_created_at a) = true.

(** Most recent first. *)
Definition newest_first (a b : TodoItem) : Prop :=
  dt_le (created_at b) (created_at a).

End FileStore.

(** *** The settings of the table-store backend, in the words of the
    specification *)

Module Settings.
Import AzureTable.

(** Each setting in force is the argument, or else its environment
    variable; a setting is present when it is a non-empty string. *)
Definition connection_string_in_force (arg : option string) (w : World) : option string :=
  or_else arg (environ w !! "AZURE_STORAGE_CONNECTION_STRING").
Definition account_url_in_force (arg : option string) (w : World) : option string :=
  or_else arg (environ w !! "AZURE_STORAGE_ACCOUNT_URL").
Definition account_name_in_force (arg : option string) (w : World) : option string :=
  or_else arg (environ w !! "AZURE_STORAGE_ACCOUNT_NAME").
Definition table_name_in_force (arg : string) (w : World) : string :=
  if String.eqb arg "" then default "todos" (environ w !! "AZURE_TABLE_NAME") else arg.
Definition workload_identity_on (arg : bool) (w : World) : bool :=
  arg || String.eqb (lower (default "false" (environ w !! "USE_WORKLOAD_IDENTITY"))) "true".
Definition present (x : option string) : bool := truthy x.

(** Workload identity is off and no connection string is present, or it is
    on and neither an account URL nor an account name is present. *)
Definition misconfigured (connection_string account_name account_url : option string)
    (use_workload_identity : bool) (w : World) : bool :=
  let on := workload_identity_on use_workload_identity w in
  (negb on && negb (present (connection_string_in_force connection_string w)))
  || (on && negb (present (account_url_in_force account_url w)
                  || present (account_name_in_force account_name w))).

(** The object a successful construction leaves. *)
Definition configured (connection_string : option string) (table_name : string)
    (account_name account_url : option string) (use_workload_identity : bool)
    (w : World) : AzureTableTodoBackend :=
  mkBackend (table_name_in_force table_name w)
            (account_name_in_force account_name w)
            (account_url_in_force account_url w)
            (connection_string_in_force connection_string w)
            (workload_identity_on use_workload_identity w)
            false.

End Settings.

(** *** Sample systems *)

Definition epoch : datetime := mk_datetime 2024 1 1 0 0 0 0 eq_refl.

(** A clock that advances by a microsecond at each reading. *)
Definition tick_clock (n : nat) : datetime :=
  default epoch (make_datetime 2024 1 1 0 0 0 (Z.min (Z.of_nat n) 999999)).

Definition sample_uuids (n : nat) : string := "task-" ++ dec 4 (Z.of_nat n).

Definition sample_world : World :=
  mkWorld tick_clock 0 sample_uuids 0 ∅ true [] [] ∅ true.

(** A service over an empty database file, and the same after two tasks
    were added. *)
Definition sample_file : SQLite.St :=
  snd (TodoService_init (mkSys sample_world (SQLite.mkBackend "todo.db" false false))).

Definition sample_file_two : SQLite.St :=
  after (Add "Walk the dog" true) (after (Add "Buy milk" false) sample_file).

Definition sample_file_three : SQLite.St :=
  after (Add "Call home" false) sample_file_two.

(** A service over an empty remote table, and the same after two tasks were
    added. *)
Definition sample_table : AzureTable.St :=
  snd (TodoService_init
         (mkSys sample_world
                (AzureTable.mkBackend "todos" None None
                   (Some "UseDevelopmentStorage=true") false false))).

Definition sample_table_two : AzureTable.St :=
  after (Add "Walk the dog" true) (after (Add "Buy milk" false) sample_table).

(** The same table when the next request fails to authenticate. *)
Definition sample_table_denied : AzureTable.St :=
  mkSys (set_faults [Some ClientAuthenticationError] (world sample_table_two))
        (self sample_table_two).

(** A process in which the Azure packages are not installed. *)
Definition sample_world_without_sdk : World :=
  mkWorld tick_clock 0 sample_uuids 0 ∅ false [] [] ∅ true.

(** ** The rest of the program: construction of the file store, the HTTP
    API and the command line *)

(** [SQLiteTodoBackend.__init__]: the path is kept, and neither the
    connection nor the cursor exists yet. *)
Definition SQLiteTodoBackend_init (db_path : string) : SQLite.SQLiteTodoBackend :=
  SQLite.mkBackend db_path false false.

(** *** Code that runs in the process, outside any backend object *)

(** [os.environ.get(key)]. *)
Definition getenv (key : string) : M World (option string) :=
  fun w => (Ok (environ w !! key), w).

(** The module constant [AZURE_AVAILABLE]. *)
Definition azure_available : M World bool :=
  fun w => (Ok (AZURE_AVAILABLE w), w).

(** A constructor that reads the process and changes nothing. *)
Definition construct {A : Type} (new : World -> result A) : M World A :=
  fun w => (new w, w).

(** A method called on an object: the object it leaves comes back with the
    result. *)
Definition call_on {B A : Type} (obj : B) (method : M (Sys B) A) : M World (A * B) :=
  fun w => match method (mkSys w obj) with
           | (Ok a, s) => (Ok (a, self s), world s)
           | (Raise e, s) => (Raise e, world s)
           end.

(** ** api.py: the HTTP API *)

Module Api.
Import AzureTable.

(** The [TodoService] a request works with: over the file store or over the
    table store. *)
Inductive Service : Type :=
| FileService (backend : SQLite.SQLiteTodoBackend)
| TableService (backend : AzureTableTodoBackend).

(** [get_todo_service]: the backend is chosen from [TODO_BACKEND], built from
    the environment, and initialized by the constructor of the service.  (The
    log lines are left out; the handler of the last [try] re-raises what it
    caught.) *)
Definition get_todo_service : M World Service :=
  backend_type <- getenv "TODO_BACKEND" ;;
  let backend_type := lower (default "sqlite" backend_type) in
  available <- azure_available ;;
  service <-
    (if String.eqb backend_type "azure" && available then
       flag <- getenv "USE_WORKLOAD_IDENTITY" ;;
       let use_workload_identity := String.eqb (lower (default "false" flag)) "true" in
       if use_workload_identity then
         account_name <- getenv "AZURE_STORAGE_ACCOUNT_NAME" ;;
         account_url <- getenv "AZURE_STORAGE_ACCOUNT_URL" ;;
         table_name <- getenv "AZURE_TABLE_NAME" ;;
         backend <- construct (init None (default "todos" table_name)
                                    account_name account_url true) ;;
         ret (TableService backend)
       else
         connection_string <- getenv "AZURE_STORAGE_CONNECTION_STRING" ;;
         table_name <- getenv "AZURE_TABLE_NAME" ;;
         if negb (truthy connection_string) then raise ValueError
         else
           backend <- construct (init connection_string (default "todos" table_name)
                                      None None false) ;;
           ret (TableService backend)
     else
       db_path <- getenv "SQLITE_DB_PATH" ;;
       ret (FileService (SQLiteTodoBackend_init (default "todo.db" db_path)))) ;;
  match service with
  | FileService backend =>
      p <- call_on backend TodoService_init ;; ret (FileService (snd p))
  | TableService backend =>
      p <- call_on backend TodoService_init ;; ret (TableService (snd p))
  end.

(** The request bodies [TodoItemCreate] and [TodoItemUpdate]. *)
Record TodoItemCreate : Type := mkCreate {
  create_title : string;
  create_completed : bool
}.

Record TodoItemUpdate : Type := mkUpdate {
  update_title : option string;
  update_completed : option bool
}.

(** What a handler hands to the framework: the value it returns, or the
    [HTTPException] it raises (any other exception goes through as it
    is). *)
Inductive reply (A : Type) : Type :=
| Return (a : A)
| HTTPException (status_code : Z) (detail : string).
Arguments Return {A} a.
Arguments HTTPException {A} status_code detail.

Definition not_found {A : Type} : reply A := HTTPException 404 "Todo not found".

Section Handlers.
Context {B : Type} `{TodoBackend B}.

(** [POST /todos]. *)
Definition create_todo (todo : TodoItemCreate) : M (Sys B) (reply dict) :=
  item <- add_task (create_title todo) (create_completed todo) ;;
  ret (Return (to_dict item)).

(** [GET /todos]. *)
Definition get_todos : M (Sys B) (reply (list dict)) :=
  items <- get_all_tasks ;;
  ret (Return (to_dict <$> items)).

(** [GET /todos/{todo_id}]. *)
Definition get_todo (todo_id : string) : M (Sys B) (reply dict) :=
  item <- get_task todo_id ;;
  match item with
  | None => ret not_found
  | Some item => ret (Return (to_dict item))
  end.

(** [PATCH /todos/{todo_id}]. *)
Definition update_todo (todo_id : string) (todo : TodoItemUpdate) : M (Sys B) (reply dict) :=
  item <- update_task todo_id (update_title todo) (update_completed todo) ;;
  match item with
  | None => ret not_found
  | Some item => ret (Return (to_dict item))
  end.

(** [POST /todos/{todo_id}/toggle]. *)
Definition toggle_todo (todo_id : string) : M (Sys B) (reply dict) :=
  item <- toggle_task todo_id ;;
  match item with
  | None => ret not_found
  | Some item => ret (Return (to_dict item))
  end.

(** [DELETE /todos/{todo_id}]. *)
Definition delete_todo (todo_id : string) : M (Sys B) (reply unit) :=
  success <- delete_task todo_id ;;
  if negb success then ret not_found else ret (Return tt).

End Handlers.

(** The requests of the API. *)
Inductive endpoint : Type -> Type :=
| POST_todos (todo : TodoItemCreate) : endpoint dict
| GET_todos : endpoint (list dict)
| GET_todo (todo_id : string) : endpoint dict
| PATCH_todo (todo_id : string) (todo : TodoItemUpdate) : endpoint dict
| POST_toggle (todo_id : string) : endpoint dict
| DELETE_todo (todo_id : string) : endpoint unit.

Definition handler {B : Type} `{TodoBackend B} {A : Type} (r : endpoint A) : M (Sys B) (reply A) :=
  match r with
  | POST_todos todo => create_todo todo
  | GET_todos => get_todos
  | GET_todo todo_id => get_todo todo_id
  | PATCH_todo todo_id todo => update_todo todo_id todo
  | POST_toggle todo_id => toggle_todo todo_id
  | DELETE_todo todo_id => delete_todo todo_id
  end.


(** What [get_todo_service] reads in the environment: whether the table
    store is asked for and can be had, whether workload identity is asked
    for, and whether the setting that the chosen way of signing in needs is
    there. *)
Definition azure_selected (w : World) : bool :=
  String.eqb (lower (default "sqlite" (environ w !! "TODO_BACKEND"))) "azure"
  && AZURE_AVAILABLE w.



End Api.

(** ** cli.py: the command line *)

Module Cli.

(** The line feed of ["\nTasks:"]. *)
Definition LF : string := String (ascii_of_N 10) "".

(** The commands print; each is modelled by the texts it hands to [print],
    in order. *)
Section Commands.
Context {B : Type} `{TodoBackend B}.

(** [print_task]. *)
Definition print_task (task : TodoItem) : list string :=
  let status := if completed task then "✓" else "☐" in
  [id task ++ ": [" ++ status ++ "] " ++ title task].

(** [list_tasks]. *)
Definition list_tasks : M (Sys B) (list string) :=
  tasks <- get_all_tasks ;;
  match tasks with
  | [] => ret ["No tasks found."]
  | _ => ret ((LF ++ "Tasks:") :: "------" :: flat_map print_task tasks)
  end.

(** [add_task]. *)
Definition add_task (title : string) : M (Sys B) (list string) :=
  task <- add_task title false ;;
  ret (("Task added: " ++ id task) :: print_task task).

(** [complete_task]. *)
Definition complete_task (task_id : string) : M (Sys B) (list string) :=
  task <- update_task task_id None (Some true) ;;
  match task with
  | Some task => ret (("Task completed: " ++ id task) :: print_task task)
  | None => ret ["Task not found: " ++ task_id]
  end.

(** [toggle_task]. *)
Definition toggle_task (task_id : string) : M (Sys B) (list string) :=
  task <- toggle_task task_id ;;
  match task with
  | Some task =>
      let status := if completed task then "completed" else "incomplete" in
      ret (("Task " ++ id task ++ " marked as " ++ status) :: print_task task)
  | None => ret ["Task not found: " ++ task_id]
  end.

(** [delete_task]. *)
Definition delete_task (task_id : string) : M (Sys B) (list string) :=
  success <- delete_task task_id ;;
  if success then ret ["Task deleted: " ++ task_id]
  else ret ["Task not found: " ++ task_id].

End Commands.

End Cli.

(** ** __main__.py: the command line of the server *)

Module Main.
Import AzureTable.

(** [--backend], which [choices] restricts to these two. *)
Inductive backend_choice : Type := sqlite | azure.

Definition backend_name (b : backend_choice) : string :=
  match b with sqlite => "sqlite" | azure => "azure" end.

(** The parsed arguments that [main] hands on through the environment
    ([--host] and [--port] go to the server only). *)
Record Args : Type := mkArgs {
  backend : backend_choice;
  db_path : option string;
  azure_table : option string;
  log_level : option string;
  log_to_file : bool;
  log_file : option string
}.

Definition set_environ (e : gmap string string) (w : World) : World :=
  mkWorld (clock w) (ticks w) (uuids w) (drawn w) e (AZURE_AVAILABLE w)
          (faults w) (disk w) (cloud w) (delete_missing_raises w).

(** [os.environ[key] = value]. *)
Definition putenv (key value : string) : M World unit :=
  fun w => (Ok tt, set_environ (<[ key := value ]> (environ w)) w).

(** [if value: os.environ[key] = value], for an optional argument. *)
Definition putenv_if (given : bool) (key : string) (value : option string) : M World unit :=
  if given && truthy value then putenv key (default "" value) else ret tt.

(** The first part of [main]: the arguments are exported to the
    environment.  (What follows, the configuration of the logging and the
    start of the server, is not modelled.) *)
Definition export_arguments (args : Args) : M World unit :=
  putenv "TODO_BACKEND" (backend_name (backend args)) ;;;
  putenv_if (match backend args with sqlite => true | azure => false end)
            "SQLITE_DB_PATH" (db_path args) ;;;
  putenv_if (match backend args with azure => true | sqlite => false end)
            "AZURE_TABLE_NAME" (azure_table args) ;;;
  putenv_if true "LOG_LEVEL" (log_level args) ;;;
  (if log_to_file args then putenv "LOG_TO_FILE" "true" else ret tt) ;;;
  putenv_if true "LOG_FILE_PATH" (log_file args).

End Main.

(** *** Sample processes *)

Definition sample_environment (settings : gmap string string) (sdk : bool) : World :=
  mkWorld tick_clock 0 sample_uuids 0 settings sdk [] [] ∅ true.


Definition sample_world_azure_without_sdk : World :=
  sample_environment (<[ "TODO_BACKEND" := "azure" ]> ∅) false.

Definition sample_world_azure : World :=
  sample_environment
    (<[ "TODO_BACKEND" := "Azure" ]>
       (<[ "AZURE_STORAGE_CONNECTION_STRING" := "UseDevelopmentStorage=true" ]> ∅))
    true.

(** ** More vocabulary of the statements *)

Module FileRecords.
Import SQLite FileStore.

(** No two rows of the table have the same id. *)
Definition unique_ids (s : St) : Prop := NoDup (row_id <$> disk (world s)).

(** Every stored row reads back as an item that was created no later than it
    was last updated, and last updated no later than any reading of the clock
    still to come. *)
Definition ordered_stamps (s : St) : Prop :=
  forall r : DbRow, r ∈ disk (world s) ->
    exists it, parse_row r = Some it /\
               dt_le (created_at it) (updated_at it) /\
               forall j : nat, (ticks (world s) <= j)%nat ->
                               dt_le (updated_at it) (clock (world s) j).

End FileRecords.

Module TableRecords.
Import AzureTable TableStore.

(** Every stored entity is the entity of an item, under the key of that
    item in the one partition of the backend. *)
Definition well_formed (s : St) : Prop :=
  forall (k : string * string) (e : dict), cloud (world s) !! k = Some e ->
    exists item, k = ("todos", id item) /\ e = create_entity_of item.

(** Every stored entity is the entity of an item that was created no later
    than it was last updated, and last updated no later than any reading of
    the clock still to come. *)
Definition ordered_stamps (s : St) : Prop :=
  forall (k : string * string) (e : dict), cloud (world s) !! k = Some e ->
    exists item, e = create_entity_of item /\
                 dt_le (created_at item) (updated_at item) /\
                 forall j : nat, (ticks (world s) <= j)%nat ->
                                 dt_le (updated_at item) (clock (world s) j).

(** The entities the service lists for the partition, in its order. *)
Definition listed (s : St) : list dict :=
  snd <$> map_to_list (filter (fun kv => fst (fst kv) = "todos") (cloud (world s))).

End TableRecords.

(** * Facts *)

Module DatetimeFacts.

Lemma datetime_ext (a b : datetime) :
  year a = year b -> month a = month b -> day a = day b ->
  hour a = hour b -> minute a = minute b -> second a = second b ->
  microsecond a = microsecond b -> a = b.
Proof.
  destruct a as [y1 mo1 dd1 h1 mi1 s1 us1 Ha], b as [y2 mo2 dd2 h2 mi2 s2 us2 Hb].
  simpl. intros -> -> -> -> -> -> ->.
  f_equal. apply (proof_irrel Ha Hb).
Qed.

Lemma make_datetime_fields (d : datetime) :
  make_datetime (year d) (month d) (day d) (hour d) (minute d) (second d)
                (microsecond d) = Some d.
Proof.
  unfold make_datetime.
  destruct (bool_dec _ true) as [H | H].
  - f_equal. now apply datetime_ext.
  - destruct H. apply in_range.
Qed.

Lemma fields_bounds (d : datetime) :
  1 <= year d <= 9999 /\ 1 <= month d <= 12 /\ 1 <= day d <= 31 /\
  0 <= hour d <= 23 /\ 0 <= minute d <= 59 /\ 0 <= second d <= 59 /\
  0 <= microsecond d <= 999999.
Proof.
  pose proof (in_range d) as H. unfold valid_fields, between in H.
  repeat (apply andb_prop in H; destruct H as [H ?]).
  assert (days_in_month (year d) (month d) <= 31).
  { unfold days_in_month. repeat (case_match; try lia). }
  lia.
Qed.

Lemma digit_cases (d : Z) :
  0 <= d < 10 ->
  d = 0 \/ d = 1 \/ d = 2 \/ d = 3 \/ d = 4 \/ d = 5 \/ d = 6 \/ d = 7 \/ d = 8 \/ d = 9.
Proof. lia. Qed.

Lemma digit_val_char (d : Z) : 0 <= d < 10 -> digit_val (digit_char d) = Some d.
Proof.
  intros H. destruct (digit_cases d H) as [-> | [-> | [-> | [-> | [-> | [-> | [-> | [-> | [-> | ->]]]]]]]]];
    reflexivity.
Qed.

Lemma digit_char_compare (a b : Z) :
  0 <= a < 10 -> 0 <= b < 10 ->
  Ascii.compare (digit_char a) (digit_char b) = (a ?= b).
Proof.
  intros Ha Hb.
  destruct (digit_cases a Ha) as [-> | [-> | [-> | [-> | [-> | [-> | [-> | [-> | [-> | ->]]]]]]]]];
  destruct (digit_cases b Hb) as [-> | [-> | [-> | [-> | [-> | [-> | [-> | [-> | [-> | ->]]]]]]]]];
    reflexivity.
Qed.

Lemma pow10_pos (k : nat) : 0 < 10 ^ Z.of_nat k.
Proof. apply Z.pow_pos_nonneg; lia. Qed.

Lemma pow10_succ (k : nat) : 10 ^ Z.of_nat (S k) = 10 * 10 ^ Z.of_nat k.
Proof. rewrite Nat2Z.inj_succ, Z.pow_succ_r; lia. Qed.

(** The leading digit and the remainder of a [S k]-digit number. *)
Lemma split_digits (k : nat) (n : Z) :
  0 <= n < 10 ^ Z.of_nat (S k) ->
  0 <= n / 10 ^ Z.of_nat k < 10 /\
  0 <= n mod 10 ^ Z.of_nat k < 10 ^ Z.of_nat k /\
  n = (n / 10 ^ Z.of_nat k) * 10 ^ Z.of_nat k + n mod 10 ^ Z.of_nat k.
Proof.
  rewrite pow10_succ. pose proof (pow10_pos k) as Hp.
  set (p := 10 ^ Z.of_nat k) in *. intros Hn.
  pose proof (Z.div_mod n p ltac:(lia)) as Hdm.
  pose proof (Z.mod_pos_bound n p Hp) as Hm.
  repeat split; try lia.
  - apply Z.div_pos; lia.
  - apply Z.div_lt_upper_bound; lia.
Qed.

Lemma append_cons (c : ascii) (s t : string) :
  String c s ++ t = String c (s ++ t).
Proof. reflexivity. Qed.

Lemma append_empty_r (s : string) : s ++ "" = s.
Proof. induction s as [| c s IH]; [reflexivity |]. now rewrite append_cons, IH. Qed.

Lemma read_digits_dec (k : nat) : forall (n acc : Z) (rest : string),
  0 <= n < 10 ^ Z.of_nat k ->
  read_digits k acc (dec k n ++ rest) = Some (acc * 10 ^ Z.of_nat k + n, rest).
Proof.
  induction k as [| k IH]; intros n acc rest Hn.
  - simpl in *. f_equal. f_equal. lia.
  - destruct (split_digits k n Hn) as (Hq & Hr & Hsplit).
    cbn [dec]. rewrite append_cons. cbn [read_digits].
    rewrite (digit_val_char _ Hq), (IH _ _ _ Hr).
    f_equal. f_equal. rewrite pow10_succ. lia.
Qed.

Lemma lex_compare_split (p n m : Z) :
  0 < p ->
  (n ?= m) = lex (n / p ?= m / p) (n mod p ?= m mod p).
Proof.
  intros Hp.
  pose proof (Z.div_mod n p ltac:(lia)) as Hn.
  pose proof (Z.div_mod m p ltac:(lia)) as Hm.
  pose proof (Z.mod_pos_bound n p Hp) as Bn.
  pose proof (Z.mod_pos_bound m p Hp) as Bm.
  unfold lex.
  destruct (Z.compare_spec (n / p) (m / p)) as [E | L | G].
  - rewrite Hn, Hm at 1. rewrite E.
    destruct (Z.compare_spec (n mod p) (m mod p)).
    + apply Z.compare_eq_iff. lia.
    + apply Z.compare_lt_iff. lia.
    + apply Z.compare_gt_iff. lia.
  - apply Z.compare_lt_iff. nia.
  - apply Z.compare_gt_iff. nia.
Qed.

(** Fixed-width decimal text compares as the numbers do, and the comparison
    goes on into what follows when the numbers are equal. *)
Lemma compare_dec (k : nat) : forall (n m : Z) (s t : string),
  0 <= n < 10 ^ Z.of_nat k -> 0 <= m < 10 ^ Z.of_nat k ->
  String.compare (dec k n ++ s) (dec k m ++ t) = lex (n ?= m) (String.compare s t).
Proof.
  induction k as [| k IH]; intros n m s t Hn Hm.
  - simpl in *. replace n with 0 by lia. replace m with 0 by lia. reflexivity.
  - destruct (split_digits k n Hn) as (Hqn & Hrn & _).
    destruct (split_digits k m Hm) as (Hqm & Hrm & _).
    cbn [dec]. rewrite !append_cons. cbn [String.compare].
    rewrite (digit_char_compare _ _ Hqn Hqm), (IH _ _ _ _ Hrn Hrm).
    rewrite (lex_compare_split (10 ^ Z.of_nat k) n m (pow10_pos k)).
    destruct (_ / _ ?= _ / _); reflexivity.
Qed.

Lemma compare_sep (c : ascii) (s t : string) :
  String.compare (String c s) (String c t) = String.compare s t.
Proof.
  simpl. replace (Ascii.compare c c) with Eq; [reflexivity |].
  symmetry. unfold Ascii.compare. apply N.compare_refl.
Qed.

Lemma compare_fraction (a b : Z) :
  0 <= a <= 999999 -> 0 <= b <= 999999 ->
  String.compare (fraction a) (fraction b) = (a ?= b).
Proof.
  intros Ha Hb. unfold fraction.
  destruct (Z.eqb_spec a 0) as [-> | Na], (Z.eqb_spec b 0) as [-> | Nb].
  - reflexivity.
  - transitivity Lt; [reflexivity | symmetry; apply Z.compare_lt_iff; lia].
  - transitivity Gt; [reflexivity | symmetry; apply Z.compare_gt_iff; lia].
  - change ("." ++ dec 6 a) with (String "." (dec 6 a ++ "")).
    change ("." ++ dec 6 b) with (String "." (dec 6 b ++ "")).
    rewrite compare_sep, compare_dec by (simpl; lia).
    simpl. destruct (a ?= b); reflexivity.
Qed.

Lemma isoformat_shape (d : datetime) :
  isoformat d =
  dec 4 (year d) ++ String "-" (dec 2 (month d) ++ String "-" (dec 2 (day d) ++
  String "T" (dec 2 (hour d) ++ String ":" (dec 2 (minute d) ++
  String ":" (dec 2 (second d) ++ fraction (microsecond d)))))).
Proof. reflexivity. Qed.

(** The text order of [isoformat] is the order of the datetimes. *)
Lemma compare_isoformat (a b : datetime) :
  String.compare (isoformat a) (isoformat b) = dt_compare a b.
Proof.
  pose proof (fields_bounds a) as Ba. pose proof (fields_bounds b) as Bb.
  rewrite !isoformat_shape. unfold dt_compare.
  do 6 (rewrite compare_dec by (simpl; lia); f_equal; rewrite ?compare_sep).
  apply compare_fraction; lia.
Qed.

Lemma parse_fraction_dec (us : Z) :
  0 <= us <= 999999 -> parse_fraction (dec 6 us) = Some us.
Proof.
  intros H. unfold parse_fraction.
  rewrite <- (append_empty_r (dec 6 us)).
  rewrite read_digits_dec by (simpl; lia). now rewrite Z.mul_0_l.
Qed.

Lemma parse_time_isoformat (h mi s us : Z) :
  0 <= h <= 23 -> 0 <= mi <= 59 -> 0 <= s <= 59 -> 0 <= us <= 999999 ->
  parse_time (dec 2 h ++ String ":" (dec 2 mi ++ String ":" (dec 2 s ++ fraction us)))
  = Some (h, mi, s, us).
Proof.
  intros Hh Hmi Hs Hus. unfold parse_time.
  rewrite read_digits_dec by (simpl; lia). cbn [mbind option_bind expect Ascii.eqb Bool.eqb].
  rewrite read_digits_dec by (simpl; lia). cbn [mbind option_bind expect Ascii.eqb Bool.eqb].
  rewrite read_digits_dec by (simpl; lia). cbn [mbind option_bind].
  rewrite !Z.mul_0_l, !Z.add_0_l.
  unfold fraction. destruct (Z.eqb_spec us 0) as [-> | Hne]; [reflexivity |].
  change ("." ++ dec 6 us) with (String "." (dec 6 us)).
  cbn [mbind option_bind expect Ascii.eqb Bool.eqb].
  now rewrite parse_fraction_dec by lia.
Qed.

(** Parsing the text of a datetime gives the datetime back. *)
Lemma fromisoformat_isoformat (d : datetime) :
  fromisoformat (isoformat d) = Some d.
Proof.
  pose proof (fields_bounds d) as B.
  rewrite isoformat_shape. unfold fromisoformat.
  rewrite read_digits_dec by (simpl; lia). cbn [mbind option_bind expect Ascii.eqb Bool.eqb].
  rewrite read_digits_dec by (simpl; lia). cbn [mbind option_bind expect Ascii.eqb Bool.eqb].
  rewrite read_digits_dec by (simpl; lia). cbn [mbind option_bind].
  rewrite parse_time_isoformat by lia. cbn [mbind option_bind].
  rewrite !Z.mul_0_l, !Z.add_0_l. apply make_datetime_fields.
Qed.

End DatetimeFacts.



(** ** The item model: serialization *)

Module ItemFacts.
Import DatetimeFacts.

Lemma to_dict_five (it : TodoItem) :
  to_dict it = five (id it) (title it) (completed it)
                    (isoformat (created_at it)) (isoformat (updated_at it)).
Proof. reflexivity. Qed.

Lemma row_dict_five (r : DbRow) :
  SQLite.row_dict r = five (row_id r) (row_title r) (negb (row_completed r =? 0))
                           (row_created_at r) (row_updated_at r).
Proof. reflexivity. Qed.

(** What [from_dict] makes of such a mapping: the item, when both texts
    parse; [ValueError] otherwise.  The clock is not read. *)
Lemma from_dict_five {B} (i t : string) (c : bool) (ca ua : string) (s : Sys B) :
  from_dict (five i t c ca ua) s =
  match fromisoformat ca, fromisoformat ua with
  | Some dc, Some du => (Ok (mkTodoItem i t c dc du), s)
  | _, _ => (Raise ValueError, s)
  end.
Proof.
  unfold from_dict, bind, parse_timestamp at 1, five.
  rewrite !lookup_insert_ne by done. rewrite lookup_insert_eq.
  destruct (fromisoformat ca) as [dc |]; [| reflexivity].
  unfold ret at 1. unfold parse_timestamp.
  rewrite !lookup_insert_ne by done. rewrite lookup_insert_eq.
  destruct (fromisoformat ua) as [du |]; [| reflexivity].
  unfold ret at 1. unfold TodoItem_call.
  rewrite decide_True.
  - rewrite !lookup_insert_ne by done. rewrite lookup_insert_eq.
    rewrite !lookup_insert_ne by done. rewrite lookup_insert_eq.
    rewrite !lookup_insert_ne by done. rewrite lookup_insert_eq.
    rewrite !lookup_insert_ne by done. rewrite lookup_insert_eq.
    rewrite lookup_insert_eq.
    reflexivity.
  - rewrite !dom_insert_L, dom_empty_L. unfold parameters. set_solver.
Qed.


(** The constructor changes nothing but the number of readings of the
    clock, and reads it only for a missing timestamp. *)
Lemma or_now_inv {B} (x : option datetime) (s s' : Sys B) (d : datetime) :
  or_now x s = (Ok d, s') ->
  (forall d0, x = Some d0 -> d = d0 /\ s' = s) /\
  (x = None -> d = clock (world s) (ticks (world s))) /\
  s' = mkSys (set_ticks (ticks (world s')) (world s)) (self s) /\
  (ticks (world s) <= ticks (world s'))%nat.
Proof.
  destruct x as [d0 |]; cbv [or_now ret datetime_now bind get_world update_world];
    intros [= <- <-]; cbn.
  - split; [now intros ? [= ->] |]. split; [discriminate |]. split; [| lia].
    destruct s as [w b]. now destruct w.
  - split; [discriminate |]. split; [done |]. split; [done | lia].
Qed.

Lemma TodoItem_init_inv {B} (i t : string) (c : bool) (oca oua : option datetime)
    (s s' : Sys B) (it : TodoItem) :
  TodoItem_init i t c oca oua s = (Ok it, s') ->
  id it = i /\ title it = t /\ completed it = c /\
  (forall d, oca = Some d -> created_at it = d) /\
  (forall d, oua = Some d -> updated_at it = d) /\
  s' = mkSys (set_ticks (ticks (world s')) (world s)) (self s) /\
  (ticks (world s) <= ticks (world s'))%nat.
Proof.
  unfold TodoItem_init, bind.
  destruct (or_now oca s) as [[dc | e] s1] eqn:E1; [| discriminate].
  destruct (or_now oua s1) as [[du | e] s2] eqn:E2; [| discriminate].
  intros [= <- <-].
  destruct (or_now_inv _ _ _ _ E1) as (H1 & _ & Hs1 & Ht1).
  destruct (or_now_inv _ _ _ _ E2) as (H2 & _ & Hs2 & Ht2).
  cbn. repeat split; auto.
  - intros d Hd. now destruct (H1 d Hd).
  - intros d Hd. now destruct (H2 d Hd).
  - rewrite Hs2 at 1. rewrite Hs1 at 1 2. reflexivity.
  - lia.
Qed.

Lemma parse_timestamp_inv {B} (key : string) (data data' : dict) (s s' : Sys B) :
  parse_timestamp key data s = (Ok data', s') ->
  s' = s /\
  (forall k, k <> key -> data' !! k = data !! k) /\
  (forall str, data !! key = Some (VStr str) ->
     exists d, fromisoformat str = Some d /\ data' !! key = Some (VDatetime d)) /\
  ((forall str, data !! key <> Some (VStr str)) -> data' = data).
Proof.
  unfold parse_timestamp.
  destruct (data !! key) as [[| b | n | str | d] |] eqn:E;
    try (intros [= <- <-]; repeat split; auto; congruence).
  destruct (fromisoformat str) as [d |] eqn:P; [| discriminate].
  intros [= <- <-]. repeat split.
  - intros k Hk. now rewrite lookup_insert_ne.
  - intros str' [= <-]. exists d. split; [done |]. apply lookup_insert_eq.
  - intros H. now destruct (H str).
Qed.

Lemma TodoItem_call_inv {B} (data : dict) (s s' : Sys B) (it : TodoItem) :
  TodoItem_call data s = (Ok it, s') ->
  exists oca oua,
    data !! "id" = Some (VStr (id it)) /\
    data !! "title" = Some (VStr (title it)) /\
    completed_arg (data !! "completed") = Some (completed it) /\
    timestamp_arg (data !! "created_at") = Some oca /\
    timestamp_arg (data !! "updated_at") = Some oua /\
    TodoItem_init (id it) (title it) (completed it) oca oua s = (Ok it, s').
Proof.
  unfold TodoItem_call. destruct (decide _); [| discriminate].
  destruct (data !! "id") as [[| | | i |] |]; try discriminate.
  destruct (data !! "title") as [[| | | t |] |]; try discriminate.
  destruct (completed_arg _) as [c |]; [| discriminate].
  destruct (timestamp_arg (data !! "created_at")) as [oca |]; [| discriminate].
  destruct (timestamp_arg (data !! "updated_at")) as [oua |]; [| discriminate].
  intros Hinit. destruct (TodoItem_init_inv _ _ _ _ _ _ _ _ Hinit) as (-> & -> & -> & _).
  exists oca, oua. auto 10.
Qed.

Lemma timestamp_arg_datetime (d : datetime) (o : option datetime) :
  timestamp_arg (Some (VDatetime d)) = Some o -> o = Some d.
Proof. now intros [= <-]. Qed.

(** What a successful [from_dict] says about its argument. *)
Lemma from_dict_inv {B} (data : dict) (s s' : Sys B) (it : TodoItem) :
  from_dict data s = (Ok it, s') ->
  data !! "id" = Some (VStr (id it)) /\
  data !! "title" = Some (VStr (title it)) /\
  completed_arg (data !! "completed") = Some (completed it) /\
  (forall str, data !! "created_at" = Some (VStr str) ->
     fromisoformat str = Some (created_at it)) /\
  (forall str, data !! "updated_at" = Some (VStr str) ->
     fromisoformat str = Some (updated_at it)) /\
  s' = mkSys (set_ticks (ticks (world s')) (world s)) (self s) /\
  (ticks (world s) <= ticks (world s'))%nat /\
  ((exists a b, data !! "created_at" = Some (VStr a) /\
                data !! "updated_at" = Some (VStr b)) -> s' = s).
Proof.
  unfold from_dict, bind.
  destruct (parse_timestamp "created_at" data s) as [[data1 | e] s1] eqn:E1; [| discriminate].
  destruct (parse_timestamp "updated_at" data1 s1) as [[data2 | e] s2] eqn:E2; [| discriminate].
  destruct (parse_timestamp_inv _ _ _ _ _ E1) as (-> & Hk1 & Hc1 & _).
  destruct (parse_timestamp_inv _ _ _ _ _ E2) as (-> & Hk2 & Hc2 & _).
  intros Hcall.
  destruct (TodoItem_call_inv _ _ _ _ Hcall) as (oca & oua & Hi & Ht & Hc & Hca & Hua & Hinit).
  destruct (TodoItem_init_inv _ _ _ _ _ _ _ _ Hinit) as (_ & _ & _ & Hdc & Hdu & Hs & Htk).
  rewrite Hk2, Hk1 in Hi, Ht, Hc by done.
  rewrite Hk2 in Hca by done.
  assert (Hcreated : forall str, data !! "created_at" = Some (VStr str) ->
                       fromisoformat str = Some (created_at it) /\ oca = Some (created_at it)).
  { intros str Hstr. destruct (Hc1 _ Hstr) as (d & Hp & Hd). rewrite Hd in Hca.
    apply timestamp_arg_datetime in Hca. rewrite (Hdc _ Hca) in *. auto. }
  assert (Hupdated : forall str, data !! "updated_at" = Some (VStr str) ->
                       fromisoformat str = Some (updated_at it) /\ oua = Some (updated_at it)).
  { intros str Hstr. rewrite <- Hk1 in Hstr by done.
    destruct (Hc2 _ Hstr) as (d & Hp & Hd). rewrite Hd in Hua.
    apply timestamp_arg_datetime in Hua. rewrite (Hdu _ Hua) in *. auto. }
  repeat split; auto.
  - intros str Hstr. now destruct (Hcreated _ Hstr).
  - intros str Hstr. now destruct (Hupdated _ Hstr).
  - intros (a & b & Ha & Hb).
    destruct (Hcreated _ Ha) as [_ ->]. destruct (Hupdated _ Hb) as [_ ->].
    revert Hinit. cbv [TodoItem_init or_now bind ret]. now intros [= _ <-].
Qed.


Lemma reads_clock_refl {B} (s : Sys B) : reads_clock s s.
Proof. split; [| lia]. destruct s as [w b]. now destruct w. Qed.

Lemma reads_clock_trans {B} (s1 s2 s3 : Sys B) :
  reads_clock s1 s2 -> reads_clock s2 s3 -> reads_clock s1 s3.
Proof.
  intros [H12 Ht12] [H23 Ht23]. split; [| lia].
  rewrite H23 at 1. rewrite H12 at 1 2. reflexivity.
Qed.

Lemma reads_clock_fields {B} (s s' : Sys B) :
  reads_clock s s' ->
  clock (world s') = clock (world s) /\ disk (world s') = disk (world s) /\
  cloud (world s') = cloud (world s) /\ faults (world s') = faults (world s) /\
  self s' = self s /\ (ticks (world s) <= ticks (world s'))%nat.
Proof. intros [-> Ht]. cbn in *. auto 10. Qed.

Lemma or_now_reads {B} (x : option datetime) (s s' : Sys B) (r : result datetime) :
  or_now x s = (r, s') -> reads_clock s s' /\ exists d, r = Ok d.
Proof.
  destruct x as [d0 |]; cbv [or_now ret datetime_now bind get_world update_world];
    intros [= <- <-]; (split; [| eauto]).
  - apply reads_clock_refl.
  - split; cbn; [reflexivity | lia].
Qed.

Lemma TodoItem_init_reads {B} (i t : string) (c : bool) (oca oua : option datetime)
    (s s' : Sys B) (r : result TodoItem) :
  TodoItem_init i t c oca oua s = (r, s') -> reads_clock s s'.
Proof.
  unfold TodoItem_init, bind.
  destruct (or_now oca s) as [r1 s1] eqn:E1.
  destruct (or_now_reads _ _ _ _ E1) as [H1 [dc ->]].
  destruct (or_now oua s1) as [r2 s2] eqn:E2.
  destruct (or_now_reads _ _ _ _ E2) as [H2 [du ->]].
  intros [= _ <-]. eapply reads_clock_trans; eauto.
Qed.

Lemma parse_timestamp_state {B} (key : string) (data : dict) (s s' : Sys B)
    (r : result dict) :
  parse_timestamp key data s = (r, s') -> s' = s.
Proof.
  unfold parse_timestamp.
  destruct (data !! key) as [[| b | n | str | d] |]; try (now intros [= _ <-]).
  destruct (fromisoformat str); now intros [= _ <-].
Qed.

(** Whatever [from_dict] returns or raises, it only reads the clock. *)
Lemma from_dict_reads {B} (data : dict) (s s' : Sys B) (r : result TodoItem) :
  from_dict data s = (r, s') -> reads_clock s s'.
Proof.
  unfold from_dict, bind.
  destruct (parse_timestamp "created_at" data s) as [[d1 | e1] s1] eqn:E1;
    apply parse_timestamp_state in E1 as ->.
  2:{ intros [= _ <-]. apply reads_clock_refl. }
  destruct (parse_timestamp "updated_at" d1 s) as [[d2 | e2] s2] eqn:E2;
    apply parse_timestamp_state in E2 as ->.
  2:{ intros [= _ <-]. apply reads_clock_refl. }
  unfold TodoItem_call.
  destruct (decide _); [| intros [= _ <-]; apply reads_clock_refl].
  repeat (case_match; try (intros [= _ <-]; apply reads_clock_refl)).
  apply TodoItem_init_reads.
Qed.

End ItemFacts.

(** ** The environment *)

Module WorldFacts.

Lemma sys_eta {B} (s : Sys B) : mkSys (world s) (self s) = s.
Proof. now destruct s. Qed.

Lemma set_disk_same (w : World) : set_disk (disk w) w = w.
Proof. now destruct w. Qed.

Lemma set_faults_same (w : World) : set_faults (faults w) w = w.
Proof. now destruct w. Qed.

Lemma after_call_quiet {B} (s : Sys B) : faults (world s) = [] -> after_call s = s.
Proof.
  intros H. unfold after_call. rewrite H. simpl.
  rewrite <- H, set_faults_same. apply sys_eta.
Qed.

Lemma next_fault_quiet (w : World) : faults w = [] -> next_fault w = None.
Proof. unfold next_fault. now intros ->. Qed.

Lemma storage_call_eq {B} (s : Sys B) :
  storage_call s =
  (match next_fault (world s) with Some e => Raise e | None => Ok tt end, after_call s).
Proof.
  unfold storage_call, next_fault, bind, get_world.
  destruct (faults (world s)) as [| [e |] rest] eqn:E.
  - rewrite after_call_quiet by done. reflexivity.
  - unfold after_call. rewrite E. reflexivity.
  - unfold after_call. rewrite E. reflexivity.
Qed.

Lemma datetime_now_eq {B} (s : Sys B) :
  datetime_now s = (Ok (clock (world s) (ticks (world s))), after_now s).
Proof. reflexivity. Qed.

End WorldFacts.

(** ** The file-store backend *)

Module SQLiteFacts.
Import SQLite FileStore WorldFacts ItemFacts.

Lemma execute_eq (q : Stmt) (s : St) :
  execute q s =
  if cursor (self s) then
    match next_fault (world s) with
    | Some e => (Raise e, after_call s)
    | None =>
        match run_stmt q (disk (world s)) with
        | Some (tbl, res) =>
            (Ok res, mkSys (set_disk tbl (world (after_call s))) (self s))
        | None => (Raise IntegrityError, after_call s)
        end
    end
  else (Raise AttributeError, s).
Proof.
  unfold execute, bind at 1, get_self.
  destruct (cursor (self s)); [| reflexivity]. cbn [negb].
  unfold bind at 1. rewrite storage_call_eq.
  destruct (next_fault (world s)); [reflexivity |].
  unfold bind, get_world.
  change (disk (world (after_call s))) with (disk (world s)).
  destruct (run_stmt q (disk (world s))) as [[tbl res] |]; reflexivity.
Qed.

Lemma select_state (s : St) :
  mkSys (set_disk (disk (world s)) (world (after_call s))) (self s) = after_call s.
Proof. destruct s as [w be]. now destruct w. Qed.

Lemma from_dict_row {B} (r : DbRow) (s : Sys B) :
  from_dict (row_dict r) s =
  (match parse_row r with Some it => Ok it | None => Raise ValueError end, s).
Proof.
  rewrite row_dict_five, from_dict_five. unfold parse_row, flag.
  destruct (fromisoformat (row_created_at r)), (fromisoformat (row_updated_at r));
    reflexivity.
Qed.

Lemma get_item_eq (i : string) (s : St) :
  get_item i s =
  if cursor (self s) then
    match next_fault (world s) with
    | Some e => (Raise e, after_call s)
    | None =>
        (match stored i s with
         | None => Ok None
         | Some r =>
             match parse_row r with
             | Some it => Ok (Some it)
             | None => Raise ValueError
             end
         end, after_call s)
    end
  else (Raise AttributeError, s).
Proof.
  unfold get_item, bind at 1. rewrite execute_eq.
  destruct (cursor (self s)); [| reflexivity].
  destruct (next_fault (world s)); [reflexivity |].
  cbn [run_stmt rows]. unfold stored. rewrite select_state.
  destruct (filter _ (disk (world s))) as [| r rest]; [reflexivity |].
  cbn [head]. unfold bind. rewrite from_dict_row.
  destruct (parse_row r); reflexivity.
Qed.

Lemma update_item_eq (item : TodoItem) (s : St) :
  update_item item s =
  let now := clock (world s) (ticks (world s)) in
  let s1 := after_now s in
  if cursor (self s) then
    match next_fault (world s) with
    | Some e => (Raise e, after_call s1)
    | None =>
        let s2 := mkSys (set_disk (updated_table item now (disk (world s)))
                                  (world (after_call s1))) (self s) in
        if conn (self s) then (Ok (set_updated_at now item), s2)
        else (Raise AttributeError, s2)
    end
  else (Raise AttributeError, s1).
Proof.
  unfold update_item, bind at 1. rewrite datetime_now_eq.
  unfold bind at 1. rewrite execute_eq. cbn [after_now self world].
  destruct (cursor (self s)); [| reflexivity].
  change (next_fault (set_ticks _ (world s))) with (next_fault (world s)).
  destruct (next_fault (world s)); [reflexivity |].
  cbn [run_stmt]. cbv [bind commit get_self ret raise update_world]. cbn [self].
  destruct (conn (self s)); reflexivity.
Qed.

Lemma delete_item_eq (i : string) (s : St) :
  delete_item i s =
  if cursor (self s) then
    match next_fault (world s) with
    | Some e => (Raise e, after_call s)
    | None =>
        let s1 := mkSys (set_disk (filter (fun r => has_id i r = false) (disk (world s)))
                                  (world (after_call s))) (self s) in
        if conn (self s) then
          (Ok (0 <? Z.of_nat (length (filter (fun r => has_id i r = true) (disk (world s))))), s1)
        else (Raise AttributeError, s1)
    end
  else (Raise AttributeError, s).
Proof.
  unfold delete_item, bind at 1. rewrite execute_eq.
  destruct (cursor (self s)); [| reflexivity].
  destruct (next_fault (world s)); [reflexivity |].
  cbn [run_stmt]. cbv [bind commit get_self ret raise update_world]. cbn [self].
  destruct (conn (self s)); reflexivity.
Qed.


Lemma add_item_eq (item : TodoItem) (s : St) :
  add_item item s =
  let '(item1, s1) := identified item s in
  if cursor (self s) then
    match next_fault (world s) with
    | Some e => (Raise e, after_call s1)
    | None =>
        if existsb (has_id (id item1)) (disk (world s)) then
          (Raise IntegrityError, after_call s1)
        else
          let s2 := mkSys (set_disk (disk (world s) ++ [item_row item1])
                                    (world (after_call s1))) (self s) in
          if conn (self s) then (Ok item1, s2) else (Raise AttributeError, s2)
    end
  else (Raise AttributeError, s1).
Proof.
  unfold add_item, identified, bind at 1.
  destruct (String.eqb (id item) "").
  - cbv [bind uuid4_str get_world update_world ret]. rewrite execute_eq. cbn [self world].
    destruct (cursor (self s)); [| reflexivity].
    change (next_fault (set_drawn _ (world s))) with (next_fault (world s)).
    destruct (next_fault (world s)); [reflexivity |].
    cbn [run_stmt item_row row_id set_id id disk set_drawn].
    destruct (existsb _ _); [reflexivity |].
    cbv [commit bind get_self ret raise]. cbn [self].
    destruct (conn (self s)); reflexivity.
  - cbv [ret]. cbv [bind]. rewrite execute_eq.
    destruct (cursor (self s)); [| reflexivity].
    destruct (next_fault (world s)); [reflexivity |].
    cbn [run_stmt item_row row_id].
    destruct (existsb _ _); [reflexivity |].
    cbv [commit bind get_self ret raise]. cbn [self].
    destruct (conn (self s)); reflexivity.
Qed.

Lemma initialize_disk (s : St) :
  disk (world (snd (initialize s))) = disk (world s) /\
  clock (world (snd (initialize s))) = clock (world s) /\
  ticks (world (snd (initialize s))) = ticks (world s).
Proof.
  unfold initialize. cbv [bind get_self set_self]. rewrite execute_eq. cbn [self cursor world].
  destruct (next_fault (world s)); [now cbn |].
  cbn [run_stmt]. cbv [commit bind get_self ret raise]. now cbn.
Qed.

(** Building the items of the fetched rows leaves the system as it is. *)
Lemma for_each_rows (l : list DbRow) (s : St) :
  snd (for_each (fun row => from_dict (row_dict row)) l s) = s.
Proof.
  induction l as [| r l IH]; [reflexivity |].
  cbn [for_each]. unfold bind at 1. rewrite from_dict_row.
  destruct (parse_row r); [| reflexivity].
  unfold bind at 1.
  destruct (for_each _ l s) as [[ys | e] s1] eqn:E; cbn in IH |- *; now subst.
Qed.

Lemma get_all_items_state (s s' : St) (res : result (list TodoItem)) :
  get_all_items s = (res, s') -> s' = s \/ s' = after_call s.
Proof.
  unfold get_all_items, bind at 1. rewrite execute_eq.
  destruct (cursor (self s)); [| intros [= <- <-]; now left].
  destruct (next_fault (world s)); [intros [= <- <-]; now right |].
  cbn [run_stmt rows]. rewrite select_state. intros E.
  right. rewrite <- (for_each_rows (order_by_created_at_desc (disk (world s))) (after_call s)).
  now rewrite E.
Qed.

End SQLiteFacts.

(** ** The service over the file store *)

Module FileStoreFacts.
Import FileStore WorldFacts ItemFacts SQLiteFacts.
Import (coercions) SQLite.

Lemma update_task_shape {B} `{TodoBackend B} (i : string) (t : option string)
    (c : option bool) :
  update_task i t c = fetch_change_write (patched t c) i.
Proof. reflexivity. Qed.

Lemma toggle_task_shape {B} `{TodoBackend B} (i : string) :
  toggle_task i = fetch_change_write toggled i.
Proof. reflexivity. Qed.

Lemma has_id_eq (i : string) (r : DbRow) : SQLite.has_id i r = true <-> row_id r = i.
Proof. unfold SQLite.has_id. apply String.eqb_eq. Qed.

Lemma stored_has_id (i : string) (s : SQLite.St) (r : DbRow) :
  stored i s = Some r -> row_id r = i /\ r ∈ disk (world s).
Proof.
  unfold stored. intros Hh.
  assert (Hin : r ∈ filter (fun r => SQLite.has_id i r = true) (disk (world s))).
  { destruct (filter _ _); [done |]. injection Hh as ->. left. }
  apply list_elem_of_filter in Hin as [Hid Hin]. split; [now apply has_id_eq | done].
Qed.

Lemma parse_row_id (r : DbRow) (it : TodoItem) :
  parse_row r = Some it ->
  id it = row_id r /\ title it = row_title r /\ completed it = flag r /\
  fromisoformat (row_created_at r) = Some (created_at it) /\
  fromisoformat (row_updated_at r) = Some (updated_at it).
Proof.
  unfold parse_row.
  destruct (fromisoformat (row_created_at r)), (fromisoformat (row_updated_at r));
    try discriminate.
  now intros [= <-].
Qed.

Lemma update_row_hit (t : string) (c : Z) (u i : string) (r : DbRow) :
  SQLite.has_id i r = true ->
  SQLite.update_row t c u i r = mkRow (row_id r) t c (row_created_at r) u.
Proof. unfold SQLite.update_row. now intros ->. Qed.

Lemma update_row_miss (t : string) (c : Z) (u i : string) (r : DbRow) :
  SQLite.has_id i r <> true -> SQLite.update_row t c u i r = r.
Proof. unfold SQLite.update_row. now destruct (SQLite.has_id i r). Qed.

Lemma update_row_id (t : string) (c : Z) (u i : string) (r : DbRow) :
  row_id (SQLite.update_row t c u i r) = row_id r.
Proof. unfold SQLite.update_row. now destruct (SQLite.has_id i r). Qed.

Lemma has_id_update (t : string) (c : Z) (u i j : string) (r : DbRow) :
  SQLite.has_id j (SQLite.update_row t c u i r) = SQLite.has_id j r.
Proof. unfold SQLite.has_id. now rewrite update_row_id. Qed.

(** The rows under [i] after an UPDATE of [i], and the rows under any other
    id. *)
Lemma filter_update_same (t : string) (c : Z) (u i : string) (tbl : list DbRow) :
  filter (fun r => SQLite.has_id i r = true) (map (SQLite.update_row t c u i) tbl) =
  map (fun r => mkRow (row_id r) t c (row_created_at r) u)
      (filter (fun r => SQLite.has_id i r = true) tbl).
Proof.
  induction tbl as [| r tbl IH]; [reflexivity |].
  cbn [map]. rewrite !filter_cons.
  destruct (decide (SQLite.has_id i r = true)) as [E | E].
  - rewrite decide_True by now rewrite has_id_update.
    cbn [map]. now rewrite IH, update_row_hit.
  - rewrite decide_False by now rewrite has_id_update.
    exact IH.
Qed.

Lemma filter_update_other (t : string) (c : Z) (u i j : string) (tbl : list DbRow) :
  j <> i ->
  filter (fun r => SQLite.has_id j r = true) (map (SQLite.update_row t c u i) tbl) =
  filter (fun r => SQLite.has_id j r = true) tbl.
Proof.
  intros Hne. induction tbl as [| r tbl IH]; [reflexivity |].
  cbn [map]. rewrite !filter_cons, has_id_update, IH.
  destruct (decide (SQLite.has_id j r = true)) as [E | E]; [| reflexivity].
  rewrite update_row_miss; [reflexivity |].
  intros Hi. apply has_id_eq in Hi, E. congruence.
Qed.

Lemma filter_none_keeps (i : string) (tbl : list DbRow) :
  filter (fun r => SQLite.has_id i r = true) tbl = [] ->
  filter (fun r => SQLite.has_id i r = false) tbl = tbl.
Proof.
  induction tbl as [| r tbl IH]; [reflexivity |].
  rewrite !filter_cons. destruct (SQLite.has_id i r) eqn:E.
  - rewrite decide_True by done. discriminate.
  - rewrite decide_False by done. rewrite decide_True by done.
    intros Hf. now rewrite IH.
Qed.

Lemma add_task_fresh {B} `{TodoBackend B} (t : string) (c : bool) (s : Sys B) :
  add_task t c s = add_item (fresh_item t c s) (after_fresh s).
Proof. reflexivity. Qed.

Lemma fetch_change_write_file (change : TodoItem -> TodoItem) (i : string) (s : SQLite.St) :
  fetch_change_write change i s =
  match SQLite.get_item i s with
  | (Ok (Some it), s1) =>
      match SQLite.update_item (change it) s1 with
      | (Ok r, s2) => (Ok (Some r), s2)
      | (Raise e, s2) => (Raise e, s2)
      end
  | (Ok None, s1) => (Ok None, s1)
  | (Raise e, s1) => (Raise e, s1)
  end.
Proof.
  unfold fetch_change_write, bind. cbn [get_item update_item SQLite.backend].
  destruct (SQLite.get_item i s) as [[[it |] | e] s1]; try reflexivity.
Qed.

(** Every way [fetch_change_write] can end on the file store: the table is
    as before and no item is returned; or the record under the id was
    fetched, changed and written with the clock's reading.  The clock is
    never set, only read. *)
Lemma fetch_change_write_cases (change : TodoItem -> TodoItem) (i : string)
    (s s' : SQLite.St) (res : result (option TodoItem)) :
  fetch_change_write change i s = (res, s') ->
  clock (world s') = clock (world s) /\
  ((disk (world s') = disk (world s) /\
    (ticks (world s) <= ticks (world s'))%nat /\
    forall it, res <> Ok (Some it)) \/
   (exists r it,
      stored i s = Some r /\ parse_row r = Some it /\
      ticks (world s') = S (ticks (world s)) /\
      let now := clock (world s) (ticks (world s)) in
      disk (world s') = updated_table (change it) now (disk (world s)) /\
      (res = Ok (Some (set_updated_at now (change it))) \/ res = Raise AttributeError))).
Proof.
  rewrite fetch_change_write_file, get_item_eq.
  destruct (SQLite.cursor (self s)) eqn:Hc.
  2:{ intros [= <- <-]. split; [done |]. left. repeat split; [done | congruence]. }
  destruct (next_fault (world s)) eqn:Hf.
  { intros [= <- <-]. split; [done |]. left. repeat split; [done | congruence]. }
  destruct (stored i s) as [r |] eqn:Hs.
  2:{ intros [= <- <-]. split; [done |]. left. repeat split; [done | congruence]. }
  destruct (parse_row r) as [it |] eqn:Hp.
  2:{ intros [= <- <-]. split; [done |]. left. repeat split; [done | congruence]. }
  rewrite update_item_eq. cbn [after_call after_now self world].
  rewrite Hc.
  change (next_fault (set_faults _ _)) with
    (next_fault (set_faults (tail (faults (world s))) (world s))).
  destruct (next_fault (set_faults _ _)).
  { intros [= <- <-]. split; [done |]. left. cbn. repeat split; [lia | congruence]. }
  destruct (SQLite.conn (self s)); intros [= <- <-]; (split; [done |]);
    right; exists r, it; cbn; eauto 10.
Qed.

(** The record under the id after [fetch_change_write], whatever the
    outcome: it is still there, with its id and creation time; it is either
    untouched or carries the changed title and flag; and when an item is
    returned, it is the changed item, stamped with the clock's reading. *)
Lemma fetch_change_write_stored (change : TodoItem -> TodoItem) (i : string)
    (s s' : SQLite.St) (res : result (option TodoItem)) (r : DbRow) :
  (forall it, id (change it) = id it) ->
  fetch_change_write change i s = (res, s') ->
  stored i s = Some r ->
  exists r',
    stored i s' = Some r' /\ row_id r' = row_id r /\
    row_created_at r' = row_created_at r /\
    (r' = r \/
     exists it, parse_row r = Some it /\ row_title r' = title (change it) /\
                flag r' = completed (change it)) /\
    (forall it', res = Ok (Some it') ->
       exists it, parse_row r = Some it /\
                  it' = set_updated_at (clock (world s) (ticks (world s))) (change it) /\
                  row_title r' = title (change it) /\
                  flag r' = completed (change it) /\
                  row_updated_at r' = isoformat (updated_at it')).
Proof.
  intros Hid Hrun Hs.
  destruct (fetch_change_write_cases _ _ _ _ _ Hrun)
    as [_ [(Hd & _ & Hres) | (r0 & it & Hs0 & Hp & _ & Hd & Hres)]].
  - exists r. unfold stored in *. rewrite Hd. repeat split; auto.
    intros it' ->. now destruct (Hres it').
  - rewrite Hs in Hs0. injection Hs0 as <-.
    destruct (stored_has_id _ _ _ Hs) as [Hri _].
    destruct (parse_row_id _ _ Hp) as (Hi & _).
    set (now := clock (world s) (ticks (world s))) in *.
    set (c := if completed (change it) then 1 else 0).
    exists (mkRow (row_id r) (title (change it)) c (row_created_at r) (isoformat now)).
    assert (Hflag : flag (mkRow (row_id r) (title (change it)) c (row_created_at r)
                                (isoformat now)) = completed (change it)).
    { unfold flag, c. cbn. now destruct (completed (change it)). }
    split.
    { unfold stored in *. rewrite Hd. unfold updated_table.
      rewrite Hid, Hi, Hri, filter_update_same.
      destruct (filter _ (disk (world s))); [discriminate |].
      cbn in Hs |- *. injection Hs as ->. now rewrite Hri. }
    repeat split; auto.
    + right. exists it. auto.
    + intros it' ->. exists it. destruct Hres as [[= ->] | ?]; [| discriminate].
      repeat split; auto.
Qed.

(** The records under the other ids are as they were. *)
Lemma fetch_change_write_others (change : TodoItem -> TodoItem) (i j : string)
    (s s' : SQLite.St) (res : result (option TodoItem)) :
  (forall it, id (change it) = id it) ->
  fetch_change_write change i s = (res, s') ->
  j <> i -> stored j s' = stored j s.
Proof.
  intros Hid Hrun Hne.
  destruct (fetch_change_write_cases _ _ _ _ _ Hrun)
    as [_ [(Hd & _ & Hres) | (r0 & it & Hs0 & Hp & _ & Hd & Hres)]].
  - unfold stored. now rewrite Hd.
  - destruct (stored_has_id _ _ _ Hs0) as [Hri _].
    destruct (parse_row_id _ _ Hp) as (Hi & _).
    unfold stored. rewrite Hd. unfold updated_table.
    rewrite Hid, Hi, Hri. now rewrite filter_update_other.
Qed.

(** On a ready backend, a stored record whose timestamps parse is fetched,
    changed and written. *)
Lemma fetch_change_write_succeeds (change : TodoItem -> TodoItem) (i : string)
    (s : SQLite.St) (r : DbRow) (it : TodoItem) :
  ready s -> stored i s = Some r -> parse_row r = Some it ->
  exists s',
    fetch_change_write change i s =
    (Ok (Some (set_updated_at (clock (world s) (ticks (world s))) (change it))), s').
Proof.
  intros (Hc & Hn & Hf) Hs Hp.
  rewrite fetch_change_write_file, get_item_eq, Hc, (next_fault_quiet _ Hf), Hs, Hp.
  rewrite after_call_quiet by done.
  rewrite update_item_eq, Hc, Hn, (next_fault_quiet _ Hf). cbn. eauto.
Qed.

Lemma patched_id (t : option string) (c : option bool) (it : TodoItem) :
  id (patched t c it) = id it.
Proof. now destruct t, c. Qed.

Lemma toggled_id (it : TodoItem) : id (toggled it) = id it.
Proof. reflexivity. Qed.

(** On a ready backend, nothing is found under an id that is not stored,
    and nothing changes. *)
Lemma file_not_found (i : string) (t : option string) (c : option bool)
    (s : SQLite.St) :
  ready s -> stored i s = None ->
  get_task i s = (Ok None, s) /\
  update_task i t c s = (Ok None, s) /\
  toggle_task i s = (Ok None, s) /\
  delete_task i s = (Ok false, s).
Proof.
  intros (Hc & Hn & Hf) Hs.
  assert (Hget : SQLite.get_item i s = (Ok None, s)).
  { rewrite get_item_eq, Hc, (next_fault_quiet _ Hf), Hs.
    now rewrite after_call_quiet. }
  split; [exact Hget |].
  split; [now rewrite update_task_shape, fetch_change_write_file, Hget |].
  split; [now rewrite toggle_task_shape, fetch_change_write_file, Hget |].
  unfold delete_task. cbn [delete_item SQLite.backend].
  rewrite delete_item_eq, Hc, Hn, (next_fault_quiet _ Hf). cbn zeta.
  unfold stored in Hs.
  assert (He : filter (fun r => SQLite.has_id i r = true) (disk (world s)) = []).
  { destruct (filter _ _); [reflexivity | discriminate]. }
  rewrite He, (filter_none_keeps _ _ He), select_state.
  now rewrite after_call_quiet.
Qed.


Lemma canonical_text_isoformat (d : datetime) : canonical_text (isoformat d) = true.
Proof.
  unfold canonical_text. rewrite DatetimeFacts.fromisoformat_isoformat.
  apply String.eqb_refl.
Qed.

Lemma evolves_same (s s' : SQLite.St) :
  clock (world s') = clock (world s) ->
  (ticks (world s) <= ticks (world s'))%nat ->
  disk (world s') = disk (world s) ->
  evolves s s'.
Proof. intros Hc Ht Hd. repeat split; auto. intros r. rewrite Hd. auto. Qed.

Lemma fetch_change_write_evolves (change : TodoItem -> TodoItem) (i : string)
    (s : SQLite.St) :
  evolves s (snd (fetch_change_write change i s)).
Proof.
  destruct (fetch_change_write change i s) as [res s'] eqn:E. cbn [snd].
  destruct (fetch_change_write_cases _ _ _ _ _ E)
    as [Hc [(Hd & Ht & _) | (r0 & it & _ & _ & Ht & Hd & _)]].
  - now apply evolves_same.
  - repeat split; [done | lia |]. intros r. rewrite Hd. unfold updated_table.
    intros Hin. apply list_elem_of_fmap in Hin as (r1 & -> & Hin).
    destruct (SQLite.has_id (id (change it)) r1) eqn:Hh.
    + right. rewrite update_row_hit by done. cbn. split.
      * exists (ticks (world s)). split; [lia | done].
      * right. now exists r1.
    + left. now rewrite update_row_miss by (rewrite Hh; done).
Qed.

Lemma evolves_append (s s' : SQLite.St) (row : DbRow) (k : nat) :
  clock (world s') = clock (world s) ->
  (ticks (world s) <= ticks (world s'))%nat ->
  disk (world s') = (disk (world s) ++ [row])%list ->
  (k < ticks (world s'))%nat ->
  row_updated_at row = isoformat (clock (world s) k) ->
  canonical_text (row_created_at row) = true ->
  evolves s s'.
Proof.
  intros Hc Ht Hd Hk Hr Hcan. repeat split; auto. intros r. rewrite Hd. intros Hin.
  apply elem_of_app in Hin as [Hin | Hin]; [now left |].
  apply list_elem_of_singleton in Hin as ->. right. split; [now exists k | now left].
Qed.

Lemma evolves_subset (s s' : SQLite.St) :
  clock (world s') = clock (world s) ->
  (ticks (world s) <= ticks (world s'))%nat ->
  (forall r, r ∈ disk (world s') -> r ∈ disk (world s)) ->
  evolves s s'.
Proof. intros Hc Ht Hd. repeat split; auto. Qed.

Lemma add_item_evolves (item : TodoItem) (s : SQLite.St) (k : nat) :
  (k < ticks (world s))%nat ->
  updated_at item = clock (world s) k ->
  evolves s (snd (SQLite.add_item item s)).
Proof.
  intros Hk Hu. rewrite add_item_eq. unfold identified.
  destruct (String.eqb (id item) "");
    (destruct (SQLite.cursor (self s)); [| now apply evolves_same]);
    (destruct (next_fault (world s)); [now apply evolves_same |]);
    (destruct (existsb _ _); [now apply evolves_same |]);
    destruct (SQLite.conn (self s));
    eapply (evolves_append _ _ _ k); cbn; eauto; try lia;
    unfold SQLite.item_row; cbn;
    solve [now rewrite Hu | apply canonical_text_isoformat].
Qed.

Lemma add_task_evolves (t : string) (c : bool) (s : SQLite.St) :
  evolves s (snd (add_task t c s)).
Proof.
  rewrite add_task_fresh.
  destruct (add_item_evolves (fresh_item t c s) (after_fresh s) (S (ticks (world s))))
    as (Hc & Ht & Hd); [cbn; lia | reflexivity |].
  cbn [add_item SQLite.backend].
  repeat split.
  - now rewrite Hc.
  - cbn in Ht. lia.
  - intros r Hin. destruct (Hd r Hin) as [Hin' | Hnew]; [now left | now right].
Qed.

Lemma get_item_evolves (i : string) (s : SQLite.St) :
  evolves s (snd (SQLite.get_item i s)).
Proof.
  rewrite get_item_eq.
  destruct (SQLite.cursor (self s)); [| now apply evolves_same].
  destruct (next_fault (world s)); now apply evolves_same.
Qed.

Lemma get_all_items_evolves (s : SQLite.St) :
  evolves s (snd (SQLite.get_all_items s)).
Proof.
  destruct (SQLite.get_all_items s) as [res s'] eqn:E.
  destruct (get_all_items_state _ _ _ E) as [-> | ->]; now apply evolves_same.
Qed.

Lemma delete_item_evolves (i : string) (s : SQLite.St) :
  evolves s (snd (SQLite.delete_item i s)).
Proof.
  rewrite delete_item_eq.
  destruct (SQLite.cursor (self s)); [| now apply evolves_same].
  destruct (next_fault (world s)); [now apply evolves_same |].
  destruct (SQLite.conn (self s)); apply evolves_subset; cbn; auto;
    intros r Hin; now apply list_elem_of_filter in Hin as [_ Hin].
Qed.

(** Every call of the service moves the system as [evolves] says. *)
Lemma after_evolves (c : call) (s : SQLite.St) : evolves s (after c s).
Proof.
  destruct c; cbn [after].
  - apply add_task_evolves.
  - apply get_item_evolves.
  - apply get_all_items_evolves.
  - rewrite update_task_shape. apply fetch_change_write_evolves.
  - rewrite toggle_task_shape. apply fetch_change_write_evolves.
  - apply delete_item_evolves.
Qed.

Lemma after_clock (c : call) (s : SQLite.St) :
  clock (world (after c s)) = clock (world s).
Proof. now destruct (after_evolves c s) as [Hc _]. Qed.

Lemma init_clock (s : SQLite.St) :
  clock (world (snd (TodoService_init s))) = clock (world s).
Proof. now destruct (initialize_disk s) as (_ & Hc & _). Qed.

Lemma evolves_stamped_before (s s' : SQLite.St) :
  clock_monotone (world s) -> evolves s s' ->
  stamped_before s -> stamped_before s'.
Proof.
  intros Hmono (Hc & Ht & Hd) Hinv r d Hin Hparse j Hj. rewrite Hc.
  destruct (Hd r Hin) as [Hold | [(k & Hk & Hr) _]].
  - apply (Hinv r d Hold Hparse). lia.
  - rewrite Hr, DatetimeFacts.fromisoformat_isoformat in Hparse.
    injection Hparse as <-. apply Hmono. lia.
Qed.

(** In every reachable state the clock is the one the service started with,
    and, if it never runs backwards, no stored record is stamped later than
    a reading still to come. *)
Lemma reachable_stamped_before (s : SQLite.St) :
  reachable s -> clock_monotone (world s) -> stamped_before s.
Proof.
  induction 1 as [s Hempty | c s Hreach IH]; intros Hmono.
  - destruct (initialize_disk s) as (Hd & _ & _).
    intros r d Hin. cbn [TodoService_init initialize SQLite.backend] in Hin.
    rewrite Hd, Hempty in Hin. now apply elem_of_nil in Hin.
  - pose proof (after_evolves c s) as Hev.
    assert (Hmono' : clock_monotone (world s)).
    { destruct Hev as (Hc & _). unfold clock_monotone in *. now rewrite <- Hc. }
    eapply evolves_stamped_before; eauto.
Qed.

Lemma evolves_canonical (s s' : SQLite.St) :
  evolves s s' -> Forall canonical (disk (world s)) -> Forall canonical (disk (world s')).
Proof.
  intros (_ & _ & Hd) Hcan. rewrite Forall_forall in Hcan |- *.
  intros r Hin. destruct (Hd r Hin) as [Hold | [(k & _ & Hu) Hc]]; [now apply Hcan |].
  split.
  - destruct Hc as [Hc | (r0 & Hin0 & ->)]; [exact Hc |]. now apply Hcan.
  - rewrite Hu. apply canonical_text_isoformat.
Qed.

(** Every row of a reachable state is canonical. *)
Lemma reachable_canonical (s : SQLite.St) :
  reachable s -> Forall canonical (disk (world s)).
Proof.
  induction 1 as [s Hempty | c s Hreach IH].
  - destruct (initialize_disk s) as (Hd & _ & _).
    cbn [TodoService_init initialize SQLite.backend]. rewrite Hd, Hempty. constructor.
  - eapply evolves_canonical; [apply after_evolves | exact IH].
Qed.

(** *** [get_all_items]: every record once, most recent first *)

Lemma text_leb_total (a b : string) :
  SQLite.text_leb a b = false -> SQLite.text_leb b a = true.
Proof.
  intros H. destruct (String.leb_total a b) as [H' | H'].
  - change (String.leb a b) with (SQLite.text_leb a b) in H'. congruence.
  - exact H'.
Qed.

Lemma insert_desc_perm (r : DbRow) (l : list DbRow) :
  SQLite.insert_desc r l ≡ₚ r :: l.
Proof.
  induction l as [| x l IH]; [reflexivity |].
  cbn [SQLite.insert_desc]. destruct (SQLite.text_leb _ _); [reflexivity |].
  rewrite IH. apply perm_swap.
Qed.

Lemma order_by_perm (l : list DbRow) :
  SQLite.order_by_created_at_desc l ≡ₚ l.
Proof.
  induction l as [| r l IH]; [reflexivity |].
  cbn. rewrite insert_desc_perm. now rewrite IH.
Qed.

Lemma insert_desc_hd (r x : DbRow) (l : list DbRow) :
  text_newest_first x r -> HdRel text_newest_first x l ->
  HdRel text_newest_first x (SQLite.insert_desc r l).
Proof.
  intros Hxr Hhd. destruct l as [| y l]; cbn.
  - now constructor.
  - destruct (SQLite.text_leb _ _); constructor; auto. now inversion Hhd.
Qed.

Lemma insert_desc_sorted (r : DbRow) (l : list DbRow) :
  Sorted text_newest_first l -> Sorted text_newest_first (SQLite.insert_desc r l).
Proof.
  induction 1 as [| x l Hs IH Hhd]; cbn.
  - repeat constructor.
  - destruct (SQLite.text_leb (row_created_at x) (row_created_at r)) eqn:E.
    + repeat constructor; auto.
    + constructor; [exact IH |].
      apply insert_desc_hd; [| exact Hhd]. now apply text_leb_total.
Qed.

Lemma order_by_sorted (l : list DbRow) :
  Sorted text_newest_first (SQLite.order_by_created_at_desc l).
Proof.
  induction l as [| r l IH]; [constructor |]. now apply insert_desc_sorted.
Qed.

Lemma canonical_text_inv (t : string) :
  canonical_text t = true -> exists d, fromisoformat t = Some d /\ isoformat d = t.
Proof.
  unfold canonical_text. destruct (fromisoformat t) as [d |]; [| discriminate].
  intros H. apply String.eqb_eq in H. eauto.
Qed.

Lemma canonical_parse_row (r : DbRow) :
  canonical r ->
  exists it, parse_row r = Some it /\ row_created_at r = isoformat (created_at it).
Proof.
  intros [Hc Hu].
  apply canonical_text_inv in Hc as (dc & Hc & Hdc).
  apply canonical_text_inv in Hu as (du & Hu & _).
  unfold parse_row. rewrite Hc, Hu. eexists. split; [reflexivity |]. now cbn.
Qed.

(** Text order on canonical rows is time order on their items. *)
Lemma newest_first_of_text (r1 r2 : DbRow) (it1 it2 : TodoItem) :
  canonical r1 -> canonical r2 ->
  parse_row r1 = Some it1 -> parse_row r2 = Some it2 ->
  text_newest_first r1 r2 -> newest_first it1 it2.
Proof.
  intros H1 H2 P1 P2.
  destruct (canonical_parse_row _ H1) as (it1' & P1' & E1).
  destruct (canonical_parse_row _ H2) as (it2' & P2' & E2).
  rewrite P1 in P1'. injection P1' as <-. rewrite P2 in P2'. injection P2' as <-.
  unfold text_newest_first, newest_first, dt_le, SQLite.text_leb.
  rewrite E1, E2, DatetimeFacts.compare_isoformat.
  now destruct (dt_compare _ _).
Qed.

Lemma for_each_parse (l : list DbRow) (s : SQLite.St) :
  Forall canonical l ->
  exists items,
    for_each (fun row => from_dict (SQLite.row_dict row)) l s = (Ok items, s) /\
    Forall2 (fun r it => parse_row r = Some it) l items.
Proof.
  induction 1 as [| r l Hr Hl (items & IH & Hall)].
  - exists []. split; [reflexivity | constructor].
  - destruct (canonical_parse_row _ Hr) as (it & Hp & _).
    exists (it :: items). split; [| now constructor].
    cbn [for_each]. unfold bind at 1. rewrite from_dict_row, Hp.
    unfold bind. now rewrite IH.
Qed.

Lemma sorted_items (l : list DbRow) (items : list TodoItem) :
  Forall canonical l ->
  Forall2 (fun r it => parse_row r = Some it) l items ->
  Sorted text_newest_first l -> Sorted newest_first items.
Proof.
  intros Hcan Hall. revert Hcan.
  induction Hall as [| r it l items Hp Hall IH]; intros Hcan Hs; [constructor |].
  apply Forall_cons in Hcan as [Hr Hcan].
  apply Sorted_inv in Hs as [Hs Hhd].
  constructor; [now apply IH |].
  destruct Hall as [| r' it' l' items' Hp' Hall']; constructor.
  apply Forall_cons in Hcan as [Hr' _]. apply HdRel_inv in Hhd.
  now apply (newest_first_of_text r r' it it').
Qed.

Lemma parsed_items (l : list DbRow) (items : list TodoItem) :
  Forall2 (fun r it => parse_row r = Some it) l items ->
  Some <$> items = parse_row <$> l.
Proof. induction 1 as [| r it l items Hp _ IH]; cbn; [done | now rewrite Hp, IH]. Qed.

(** On a ready backend whose rows are canonical, [get_all_items] returns
    the items of all the rows, each once, most recent first, and changes
    nothing. *)
Lemma get_all_items_sorted (s : SQLite.St) :
  ready s -> Forall canonical (disk (world s)) ->
  exists items,
    SQLite.get_all_items s = (Ok items, s) /\
    Some <$> items ≡ₚ parse_row <$> disk (world s) /\
    Sorted newest_first items.
Proof.
  intros (Hc & Hn & Hf) Hcan.
  pose proof (order_by_perm (disk (world s))) as Hperm.
  assert (Hcan' : Forall canonical (SQLite.order_by_created_at_desc (disk (world s)))).
  { now rewrite Hperm. }
  destruct (for_each_parse _ s Hcan') as (items & Hrun & Hall).
  exists items. split; [| split].
  - unfold SQLite.get_all_items, bind. rewrite execute_eq, Hc, (next_fault_quiet _ Hf).
    cbn [SQLite.run_stmt SQLite.rows]. rewrite select_state, after_call_quiet by done.
    exact Hrun.
  - rewrite (parsed_items _ _ Hall). now rewrite Hperm.
  - eapply sorted_items; eauto. apply order_by_sorted.
Qed.

(** *** What the backend writes is canonical *)

Lemma add_item_canonical (item : TodoItem) (s : SQLite.St) :
  Forall canonical (disk (world s)) ->
  Forall canonical (disk (world (snd (SQLite.add_item item s)))).
Proof.
  intros Hcan. rewrite add_item_eq. unfold identified.
  destruct (String.eqb (id item) "");
    (destruct (SQLite.cursor (self s)); [| exact Hcan]);
    (destruct (next_fault (world s)); [exact Hcan |]);
    (destruct (existsb _ _); [exact Hcan |]);
    destruct (SQLite.conn (self s)); cbn;
    (apply Forall_app; split; [exact Hcan |]);
    repeat constructor; apply canonical_text_isoformat.
Qed.

Lemma update_item_canonical (item : TodoItem) (s : SQLite.St) :
  Forall canonical (disk (world s)) ->
  Forall canonical (disk (world (snd (SQLite.update_item item s)))).
Proof.
  intros Hcan. rewrite update_item_eq. cbn zeta.
  destruct (SQLite.cursor (self s)); [| exact Hcan].
  destruct (next_fault (world s)); [exact Hcan |].
  assert (Forall canonical
            (updated_table item (clock (world s) (ticks (world s))) (disk (world s)))).
  { unfold updated_table. apply Forall_fmap. eapply Forall_impl; [exact Hcan |].
    intros r [Hc Hu]. cbn. unfold SQLite.update_row.
    destruct (SQLite.has_id _ r); split; cbn; auto. apply canonical_text_isoformat. }
  destruct (SQLite.conn (self s)); assumption.
Qed.

Lemma delete_item_canonical (i : string) (s : SQLite.St) :
  Forall canonical (disk (world s)) ->
  Forall canonical (disk (world (snd (SQLite.delete_item i s)))).
Proof.
  intros Hcan. rewrite delete_item_eq. cbn zeta.
  destruct (SQLite.cursor (self s)); [| exact Hcan].
  destruct (next_fault (world s)); [exact Hcan |].
  destruct (SQLite.conn (self s)); cbn; rewrite Forall_forall in Hcan |- *;
    intros r Hin; apply list_elem_of_filter in Hin as [_ Hin]; now apply Hcan.
Qed.

(** *** [add_item] under an id that is taken *)

Lemma stored_existsb (i : string) (s : SQLite.St) (r : DbRow) :
  stored i s = Some r -> existsb (SQLite.has_id i) (disk (world s)) = true.
Proof.
  intros Hs. destruct (stored_has_id _ _ _ Hs) as [Hi Hin].
  apply existsb_exists. exists r. split; [now apply list_elem_of_In | now apply has_id_eq].
Qed.

(** [add_item] with a non-empty id that is stored raises and leaves the
    table as it is; on a ready backend the fault is the PRIMARY KEY violation
    and nothing at all changes. *)
Lemma add_item_taken (item : TodoItem) (s : SQLite.St) (r : DbRow) :
  id item <> "" -> stored (id item) s = Some r ->
  exists e s',
    SQLite.add_item item s = (Raise e, s') /\
    disk (world s') = disk (world s) /\
    stored (id item) s' = Some r /\
    (ready s -> e = IntegrityError /\ s' = s).
Proof.
  intros Hne Hs. rewrite add_item_eq. unfold identified.
  apply String.eqb_neq in Hne. rewrite Hne.
  rewrite (stored_existsb _ _ _ Hs).
  destruct (SQLite.cursor (self s)) eqn:Hc.
  2:{ exists AttributeError, s. do 3 (split; [done |]).
      intros (Hc' & _). congruence. }
  destruct (next_fault (world s)) as [e |] eqn:Hf.
  - exists e, (after_call s). do 3 (split; [done |]).
    intros (_ & _ & Hq). rewrite (next_fault_quiet _ Hq) in Hf. discriminate.
  - exists IntegrityError, (after_call s). do 3 (split; [done |]).
    intros (_ & _ & Hq). split; [done |]. now apply after_call_quiet.
Qed.

(** *** [add_task] *)

(** The item [add_item] returns is the one it was given, but for an empty
    id. *)
Lemma add_item_returns (item it : TodoItem) (s s' : SQLite.St) :
  SQLite.add_item item s = (Ok it, s') ->
  title it = title item /\ completed it = completed item /\
  created_at it = created_at item /\ updated_at it = updated_at item /\
  (id item <> "" -> id it = id item).
Proof.
  rewrite add_item_eq. unfold identified.
  destruct (String.eqb (id item) "") eqn:E;
    (destruct (SQLite.cursor (self s)); [| discriminate]);
    (destruct (next_fault (world s)); [discriminate |]);
    (destruct (existsb _ _); [discriminate |]);
    (destruct (SQLite.conn (self s)); [| discriminate]);
    intros [= <- <-]; repeat split; auto.
  intros Hne. apply String.eqb_eq in E. contradiction.
Qed.

(** On a ready backend, [add_item] under a non-empty id that is free stores
    the item's row at the end of the table and returns the item. *)
Lemma add_item_free (item : TodoItem) (s : SQLite.St) :
  ready s -> id item <> "" -> stored (id item) s = None ->
  SQLite.add_item item s =
  (Ok item, mkSys (set_disk (disk (world s) ++ [SQLite.item_row item]) (world s)) (self s)).
Proof.
  intros (Hc & Hn & Hf) Hne Hs. rewrite add_item_eq. unfold identified.
  apply String.eqb_neq in Hne. rewrite Hne, Hc, Hn, (next_fault_quiet _ Hf).
  replace (existsb _ _) with false.
  - now rewrite after_call_quiet.
  - symmetry. apply not_true_is_false. intros Hex.
    apply existsb_exists in Hex as (r & Hin & Hid).
    unfold stored in Hs.
    assert (Hin' : r ∈ filter (fun r0 => SQLite.has_id (id item) r0 = true) (disk (world s))).
    { apply list_elem_of_filter. split; [exact Hid | now apply list_elem_of_In]. }
    destruct (filter _ _); [now apply elem_of_nil in Hin' | discriminate].
Qed.

End FileStoreFacts.

(** ** The table-store backend *)

Module AzureFacts.
Import TableStore WorldFacts ItemFacts.

Lemma request_eq (s : AzureTable.St) :
  AzureTable.request s =
  if AzureTable.table_client (self s) then
    match next_fault (world s) with
    | Some e => (Raise e, after_call s)
    | None => (Ok (world (after_call s)), after_call s)
    end
  else (Raise AttributeError, s).
Proof.
  unfold AzureTable.request, bind at 1, get_self.
  destruct (AzureTable.table_client (self s)); [| reflexivity]. cbn [negb].
  unfold bind. rewrite storage_call_eq.
  destruct (next_fault (world s)); reflexivity.
Qed.

Lemma delete_entity_eq (pk rk : string) (s : AzureTable.St) :
  AzureTable.delete_entity pk rk s =
  if AzureTable.table_client (self s) then
    match next_fault (world s) with
    | Some e => (Raise e, after_call s)
    | None =>
        match cloud (world s) !! (pk, rk) with
        | Some _ =>
            (Ok tt, mkSys (set_cloud (delete (pk, rk) (cloud (world s)))
                                     (world (after_call s))) (self s))
        | None =>
            (if delete_missing_raises (world s) then Raise ResourceNotFoundError
             else Ok tt, after_call s)
        end
    end
  else (Raise AttributeError, s).
Proof.
  unfold AzureTable.delete_entity, bind. rewrite request_eq.
  destruct (AzureTable.table_client (self s)); [| reflexivity].
  destruct (next_fault (world s)); [reflexivity |].
  change (cloud (world (after_call s))) with (cloud (world s)).
  destruct (cloud (world s) !! (pk, rk)); [reflexivity |].
  change (delete_missing_raises (world (after_call s)))
    with (delete_missing_raises (world s)).
  destruct (delete_missing_raises (world s)); reflexivity.
Qed.

(** [delete_item] never raises: it answers whether [delete_entity] went
    through. *)
Lemma table_delete_item_eq (i : string) (s : AzureTable.St) :
  AzureTable.delete_item i s =
  (Ok (is_ok (fst (AzureTable.delete_entity "todos" i s))),
   snd (AzureTable.delete_entity "todos" i s)).
Proof.
  unfold AzureTable.delete_item, try_except, bind.
  destruct (AzureTable.delete_entity "todos" i s) as [[[] | e] s']; reflexivity.
Qed.

Lemma entity_key_of (e : dict) (pk rk : string) (s : AzureTable.St) :
  e !! "PartitionKey" = Some (VStr pk) -> e !! "RowKey" = Some (VStr rk) ->
  AzureTable.entity_key e s = (Ok (pk, rk), s).
Proof. unfold AzureTable.entity_key. now intros -> ->. Qed.

Lemma create_entity_eq (item : TodoItem) (s : AzureTable.St) :
  AzureTable.create_entity (create_entity_of item) s =
  if AzureTable.table_client (self s) then
    match next_fault (world s) with
    | Some e => (Raise e, after_call s)
    | None =>
        match cloud (world s) !! ("todos", id item) with
        | Some _ => (Raise ResourceExistsError, after_call s)
        | None =>
            (Ok tt, mkSys (set_cloud (<[ ("todos", id item) := create_entity_of item ]>
                                        (cloud (world s)))
                                     (world (after_call s))) (self s))
        end
    end
  else (Raise AttributeError, s).
Proof.
  unfold AzureTable.create_entity, bind at 1. rewrite request_eq.
  destruct (AzureTable.table_client (self s)); [| reflexivity].
  destruct (next_fault (world s)); [reflexivity |].
  unfold bind. rewrite (entity_key_of _ "todos" (id item)) by reflexivity.
  change (cloud (world (after_call s))) with (cloud (world s)).
  destruct (cloud (world s) !! ("todos", id item)); reflexivity.
Qed.

Lemma table_add_item_eq (item : TodoItem) (s : AzureTable.St) :
  AzureTable.add_item item s =
  let '(item1, s1) := identified item s in
  if AzureTable.table_client (self s) then
    match next_fault (world s) with
    | Some e => (Raise e, after_call s1)
    | None =>
        match cloud (world s) !! ("todos", id item1) with
        | Some _ => (Raise ResourceExistsError, after_call s1)
        | None =>
            (Ok item1,
             mkSys (set_cloud (<[ ("todos", id item1) := create_entity_of item1 ]>
                                 (cloud (world s)))
                              (world (after_call s1))) (self s))
        end
    end
  else (Raise AttributeError, s1).
Proof.
  unfold AzureTable.add_item, identified, bind at 1.
  destruct (String.eqb (id item) "").
  - cbv [bind uuid4_str get_world update_world ret].
    change (AzureTable.create_entity _) with
      (AzureTable.create_entity
         (create_entity_of (set_id (uuids (world s) (drawn (world s))) item))).
    rewrite create_entity_eq. cbn [self world].
    destruct (AzureTable.table_client (self s)); [| reflexivity].
    change (next_fault (set_drawn _ (world s))) with (next_fault (world s)).
    destruct (next_fault (world s)); [reflexivity |].
    change (cloud (set_drawn _ (world s))) with (cloud (world s)).
    destruct (cloud (world s) !! _); reflexivity.
  - cbv [ret]. unfold bind.
    change (AzureTable.create_entity _) with
      (AzureTable.create_entity (create_entity_of item)).
    rewrite create_entity_eq.
    destruct (AzureTable.table_client (self s)); [| reflexivity].
    destruct (next_fault (world s)); [reflexivity |].
    destruct (cloud (world s) !! _); reflexivity.
Qed.


Lemma get_entity_eq (pk rk : string) (s : AzureTable.St) :
  AzureTable.get_entity pk rk s =
  if AzureTable.table_client (self s) then
    match next_fault (world s) with
    | Some e => (Raise e, after_call s)
    | None =>
        (match cloud (world s) !! (pk, rk) with
         | Some e => Ok (<[ "PartitionKey" := VStr pk ]> (<[ "RowKey" := VStr rk ]> e))
         | None => Raise ResourceNotFoundError
         end, after_call s)
    end
  else (Raise AttributeError, s).
Proof.
  unfold AzureTable.get_entity, bind. rewrite request_eq.
  destruct (AzureTable.table_client (self s)); [| reflexivity].
  destruct (next_fault (world s)); [reflexivity |].
  change (cloud (world (after_call s))) with (cloud (world s)).
  destruct (cloud (world s) !! (pk, rk)); reflexivity.
Qed.

Lemma entity_dict_state (e : dict) (s s' : AzureTable.St) (res : result dict) :
  AzureTable.entity_dict e s = (res, s') -> s' = s.
Proof.
  unfold AzureTable.entity_dict, AzureTable.item_of. cbv [bind ret raise].
  destruct (e !! "RowKey"); [| now intros [= _ <-]].
  destruct (e !! "title"); [| now intros [= _ <-]].
  destruct (e !! "completed"); [| now intros [= _ <-]].
  destruct (e !! "created_at"); [| now intros [= _ <-]].
  destruct (e !! "updated_at"); now intros [= _ <-].
Qed.

Lemma entity_dict_inv (e data : dict) (s s' : AzureTable.St) :
  AzureTable.entity_dict e s = (Ok data, s') ->
  data !! "id" = e !! "RowKey" /\ data !! "title" = e !! "title" /\
  data !! "completed" = e !! "completed" /\
  data !! "created_at" = e !! "created_at" /\
  data !! "updated_at" = e !! "updated_at" /\
  is_Some (e !! "completed").
Proof.
  unfold AzureTable.entity_dict, AzureTable.item_of. cbv [bind ret raise].
  destruct (e !! "RowKey") as [vi |]; [| discriminate].
  destruct (e !! "title") as [vt |]; [| discriminate].
  destruct (e !! "completed") as [vc |]; [| discriminate].
  destruct (e !! "created_at") as [vca |]; [| discriminate].
  destruct (e !! "updated_at") as [vua |]; [| discriminate].
  intros [= <- <-].
  repeat (rewrite ?lookup_insert_eq; rewrite ?lookup_insert_ne by done).
  rewrite ?lookup_insert_eq. eauto 10.
Qed.

(** What [get_item] can do: it never raises, never changes the table, and
    an item it returns is the one the stored entity describes. *)
Lemma get_item_cases (i : string) (s s1 : AzureTable.St) (res : result (option TodoItem)) :
  AzureTable.get_item i s = (res, s1) ->
  cloud (world s1) = cloud (world s) /\ self s1 = self s /\
  clock (world s1) = clock (world s) /\
  (ticks (world s) <= ticks (world s1))%nat /\
  (res = Ok None \/
   exists it e,
     res = Ok (Some it) /\ stored i s = Some e /\ id it = i /\
     e !! "title" = Some (VStr (title it)) /\
     e !! "completed" = Some (VBool (completed it)) /\
     (forall str, e !! "created_at" = Some (VStr str) ->
        fromisoformat str = Some (created_at it)) /\
     (forall str, e !! "updated_at" = Some (VStr str) ->
        fromisoformat str = Some (updated_at it))).
Proof.
  unfold AzureTable.get_item, try_except, bind at 1. rewrite get_entity_eq.
  destruct (AzureTable.table_client (self s)).
  2:{ intros [= <- <-]. repeat split; auto. }
  destruct (next_fault (world s)).
  { intros [= <- <-]. repeat split; auto. }
  destruct (cloud (world s) !! ("todos", i)) as [e |] eqn:He.
  2:{ intros [= <- <-]. repeat split; auto. }
  unfold bind at 1.
  destruct (AzureTable.entity_dict _ (after_call s)) as [[data | ex] s2] eqn:Ed.
  2:{ apply entity_dict_state in Ed as ->. intros [= <- <-]. repeat split; auto. }
  pose proof (entity_dict_state _ _ _ _ Ed) as ->.
  destruct (entity_dict_inv _ _ _ _ Ed) as (Di & Dt & Dc & Dca & Dua & Hc).
  rewrite lookup_insert_ne, lookup_insert_eq in Di by done.
  rewrite !lookup_insert_ne in Dt, Dc, Dca, Dua, Hc by done.
  unfold bind.
  destruct (from_dict data (after_call s)) as [[it | ex] s2] eqn:Ef.
  2:{ intros [= <- <-].
      (* a failed [from_dict] may have read the clock, nothing else *)
      revert Ef. unfold from_dict, bind.
      destruct (parse_timestamp "created_at" data (after_call s)) as [[d1 | e1] s3] eqn:E1.
      2:{ unfold parse_timestamp in E1. repeat case_match; try discriminate;
          injection E1 as _ <-; intros [= _ <-]; repeat split; auto. }
      destruct (parse_timestamp_inv _ _ _ _ _ E1) as (-> & _).
      destruct (parse_timestamp "updated_at" d1 (after_call s)) as [[d2 | e2] s3] eqn:E2.
      2:{ unfold parse_timestamp in E2. repeat case_match; try discriminate;
          injection E2 as _ <-; intros [= _ <-]; repeat split; auto. }
      destruct (parse_timestamp_inv _ _ _ _ _ E2) as (-> & _).
      unfold TodoItem_call. repeat case_match; try (intros [= _ <-]; repeat split; auto).
      unfold TodoItem_init, bind, or_now, datetime_now, bind, get_world, update_world, ret.
      repeat case_match; discriminate. }
  destruct (from_dict_inv _ _ _ _ Ef) as (Hi & Ht & Hcomp & Hca & Hua & Hs2 & Htk & _).
  intros [= <- <-]. rewrite Hs2. cbn. repeat split; auto.
  right. exists it, e. rewrite Di in Hi. injection Hi as Hi.
  rewrite Dt in Ht. rewrite Dc in Hcomp. rewrite Dca in Hca. rewrite Dua in Hua.
  repeat split; auto.
  destruct Hc as [vc Hc]. rewrite Hc in Hcomp |- *.
  destruct vc; try discriminate. now injection Hcomp as ->.
Qed.


Lemma table_update_item_eq (item : TodoItem) (s : AzureTable.St) :
  AzureTable.update_item item s =
  let now := clock (world s) (ticks (world s)) in
  let s1 := after_now s in
  if AzureTable.table_client (self s) then
    match next_fault (world s) with
    | Some e => (Raise e, after_call s1)
    | None =>
        match cloud (world s) !! ("todos", id item) with
        | Some old =>
            (Ok (set_updated_at now item),
             mkSys (set_cloud (<[ ("todos", id item) := update_entity_of item now ∪ old ]>
                                 (cloud (world s)))
                              (world (after_call s1))) (self s))
        | None => (Raise ResourceNotFoundError, after_call s1)
        end
    end
  else (Raise AttributeError, s1).
Proof.
  unfold AzureTable.update_item, bind at 1. rewrite datetime_now_eq.
  unfold bind at 1.
  change (AzureTable.update_entity_merge _) with
    (AzureTable.update_entity_merge
       (update_entity_of item (clock (world s) (ticks (world s))))).
  unfold AzureTable.update_entity_merge, bind at 1. rewrite request_eq.
  cbn [after_now self world].
  destruct (AzureTable.table_client (self s)); [| reflexivity].
  change (next_fault (set_ticks _ (world s))) with (next_fault (world s)).
  destruct (next_fault (world s)); [reflexivity |].
  unfold bind at 1. rewrite (entity_key_of _ "todos" (id item)) by reflexivity.
  change (cloud (world (after_call _))) with (cloud (world s)).
  destruct (cloud (world s) !! ("todos", id item)); reflexivity.
Qed.

Lemma fetch_change_write_table (change : TodoItem -> TodoItem) (i : string)
    (s : AzureTable.St) :
  fetch_change_write change i s =
  match AzureTable.get_item i s with
  | (Ok (Some it), s1) =>
      match AzureTable.update_item (change it) s1 with
      | (Ok r, s2) => (Ok (Some r), s2)
      | (Raise e, s2) => (Raise e, s2)
      end
  | (Ok None, s1) => (Ok None, s1)
  | (Raise e, s1) => (Raise e, s1)
  end.
Proof.
  unfold fetch_change_write, bind. cbn [get_item update_item AzureTable.backend].
  destruct (AzureTable.get_item i s) as [[[it |] | e] s1]; try reflexivity.
Qed.

(** Every way [fetch_change_write] can end on the table store: the table is
    as before and no item is returned; or the entity under the id was
    fetched, and the changed item was merged into it, stamped with a reading
    of the clock. *)
Lemma table_fetch_change_write_cases (change : TodoItem -> TodoItem) (i : string)
    (s s' : AzureTable.St) (res : result (option TodoItem)) :
  (forall it, id (change it) = id it) ->
  fetch_change_write change i s = (res, s') ->
  clock (world s') = clock (world s) /\
  (ticks (world s) <= ticks (world s'))%nat /\
  ((cloud (world s') = cloud (world s) /\ forall it, res <> Ok (Some it)) \/
   (exists e it k,
      stored i s = Some e /\ id it = i /\
      e !! "title" = Some (VStr (title it)) /\
      e !! "completed" = Some (VBool (completed it)) /\
      (forall str, e !! "created_at" = Some (VStr str) ->
         fromisoformat str = Some (created_at it)) /\
      (forall str, e !! "updated_at" = Some (VStr str) ->
         fromisoformat str = Some (updated_at it)) /\
      (ticks (world s) <= k < ticks (world s'))%nat /\
      let now := clock (world s) k in
      cloud (world s') =
        <[ ("todos", i) := update_entity_of (change it) now ∪ e ]> (cloud (world s)) /\
      res = Ok (Some (set_updated_at now (change it))))).
Proof.
  intros Hid. rewrite fetch_change_write_table.
  destruct (AzureTable.get_item i s) as [r1 s1] eqn:Eg.
  destruct (get_item_cases _ _ _ _ Eg) as (Hcl & Hself & Hck & Htk & Hres).
  assert (Hstuck : forall (P : Prop) (r2 : result (option TodoItem)) (s2 : AzureTable.St),
            clock (world s2) = clock (world s1) ->
            (ticks (world s1) <= ticks (world s2))%nat ->
            cloud (world s2) = cloud (world s1) ->
            (forall it, r2 <> Ok (Some it)) ->
            clock (world s2) = clock (world s) /\
            (ticks (world s) <= ticks (world s2))%nat /\
            ((cloud (world s2) = cloud (world s) /\ forall it, r2 <> Ok (Some it)) \/ P)).
  { intros P r2 s2 H1 H2 H3 H4. split; [congruence |]. split; [lia |].
    left. split; [congruence | exact H4]. }
  destruct Hres as [-> | (it & e & -> & Hst & Hi & Ht & Hc & Hca & Hua)].
  { intros [= <- <-]. apply Hstuck; auto; congruence. }
  rewrite table_update_item_eq. cbn zeta. rewrite Hself, Hcl, Hid, Hi.
  change (next_fault (world (after_now s1))) with (next_fault (world s1)).
  destruct (AzureTable.table_client (self s)).
  2:{ intros [= <- <-]. apply Hstuck; cbn; auto; congruence. }
  destruct (next_fault (world s1)).
  { intros [= <- <-]. apply Hstuck; cbn; auto; congruence. }
  unfold stored in Hst. rewrite Hst.
  intros [= <- <-]. cbn. split; [exact Hck |]. split; [lia |].
  right. exists e, it, (ticks (world s1)). rewrite Hck.
  split; [exact Hst |]. do 5 (split; [assumption |]). split; [lia |]. split; reflexivity.
Qed.


Lemma update_entity_of_lookup (item : TodoItem) (now : datetime) :
  update_entity_of item now !! "title" = Some (VStr (title item)) /\
  update_entity_of item now !! "completed" = Some (VBool (completed item)) /\
  update_entity_of item now !! "updated_at" = Some (VStr (isoformat now)) /\
  update_entity_of item now !! "created_at" = None.
Proof.
  unfold update_entity_of.
  repeat split;
    repeat (rewrite ?lookup_insert_eq; rewrite ?lookup_insert_ne by done);
    rewrite ?lookup_insert_eq, ?lookup_empty; reflexivity.
Qed.

(** The entity under the id after [fetch_change_write], whatever the
    outcome. *)
Lemma table_fetch_change_write_stored (change : TodoItem -> TodoItem) (i : string)
    (s s' : AzureTable.St) (res : result (option TodoItem)) (e : dict) :
  (forall it, id (change it) = id it) ->
  fetch_change_write change i s = (res, s') ->
  stored i s = Some e ->
  exists e',
    stored i s' = Some e' /\
    e' !! "created_at" = e !! "created_at" /\
    (e' = e \/
     exists it, e !! "title" = Some (VStr (title it)) /\
                e !! "completed" = Some (VBool (completed it)) /\
                e' !! "title" = Some (VStr (title (change it))) /\
                e' !! "completed" = Some (VBool (completed (change it)))) /\
    (forall it', res = Ok (Some it') ->
       exists it k,
         e !! "title" = Some (VStr (title it)) /\
         e !! "completed" = Some (VBool (completed it)) /\
         (forall str, e !! "created_at" = Some (VStr str) ->
            fromisoformat str = Some (created_at it)) /\
         (forall str, e !! "updated_at" = Some (VStr str) ->
            fromisoformat str = Some (updated_at it)) /\
         (ticks (world s) <= k < ticks (world s'))%nat /\
         it' = set_updated_at (clock (world s) k) (change it) /\
         e' !! "title" = Some (VStr (title it')) /\
         e' !! "completed" = Some (VBool (completed it')) /\
         e' !! "updated_at" = Some (VStr (isoformat (updated_at it')))).
Proof.
  intros Hid Hrun Hs.
  destruct (table_fetch_change_write_cases _ _ _ _ _ Hid Hrun)
    as (_ & _ & [[Hd Hres] | (e0 & it & k & Hs0 & Hi & Ht & Hc & Hca & Hua & Hk & Hd & Hr)]).
  - exists e. unfold stored in *. rewrite Hd. split; [done |]. split; [done |].
    split; [now left |]. intros it' ->. now destruct (Hres it').
  - rewrite Hs in Hs0. injection Hs0 as <-.
    set (now := clock (world s) k) in *.
    destruct (update_entity_of_lookup (change it) now) as (Ut & Uc & Uu & Uca).
    exists (update_entity_of (change it) now ∪ e).
    split; [unfold stored; rewrite Hd; apply lookup_insert_eq |].
    split; [now apply lookup_union_r |].
    split.
    + right. exists it. do 2 (split; [assumption |]).
      split; now apply lookup_union_Some_l.
    + intros it' ->. injection Hr as ->. exists it, k.
      do 5 (split; [assumption |]). split; [reflexivity |].
      repeat split; now apply lookup_union_Some_l.
Qed.

Lemma table_fetch_change_write_others (change : TodoItem -> TodoItem) (i j : string)
    (s s' : AzureTable.St) (res : result (option TodoItem)) :
  (forall it, id (change it) = id it) ->
  fetch_change_write change i s = (res, s') ->
  j <> i -> stored j s' = stored j s.
Proof.
  intros Hid Hrun Hne.
  destruct (table_fetch_change_write_cases _ _ _ _ _ Hid Hrun)
    as (_ & _ & [[Hd _] | (e0 & it & k & _ & _ & _ & _ & _ & _ & _ & Hd & _)]);
    unfold stored; rewrite Hd; [done |].
  apply lookup_insert_ne. congruence.
Qed.

(** Nothing is found under an id that is not stored, whatever the state of
    the client and of the transport, and the table is as before. *)
Lemma table_not_found (i : string) (t : option string) (c : option bool)
    (s : AzureTable.St) :
  stored i s = None ->
  (fst (get_task i s) = Ok None /\
   cloud (world (snd (get_task i s))) = cloud (world s)) /\
  (fst (update_task i t c s) = Ok None /\
   cloud (world (snd (update_task i t c s))) = cloud (world s)) /\
  (fst (toggle_task i s) = Ok None /\
   cloud (world (snd (toggle_task i s))) = cloud (world s)).
Proof.
  intros Hs.
  assert (Hget : fst (AzureTable.get_item i s) = Ok None /\
                 cloud (world (snd (AzureTable.get_item i s))) = cloud (world s)).
  { destruct (AzureTable.get_item i s) as [r1 s1] eqn:Eg.
    destruct (get_item_cases _ _ _ _ Eg) as (Hcl & _ & _ & _ & Hres). cbn.
    split; [| exact Hcl].
    destruct Hres as [-> | (it & e & _ & Hst & _)]; [done | congruence]. }
  split; [exact Hget |].
  assert (Hfcw : forall change,
            fst (fetch_change_write change i s) = Ok None /\
            cloud (world (snd (fetch_change_write change i s))) = cloud (world s)).
  { intros change. rewrite fetch_change_write_table.
    destruct (AzureTable.get_item i s) as [[[it |] | ex] s1]; cbn in Hget;
      destruct Hget as [Hr Hc]; try discriminate. now cbn. }
  split; [apply (Hfcw (patched t c)) | apply (Hfcw toggled)].
Qed.

(** [add_item] with a non-empty id that is stored raises and leaves the
    table as it is; with the client bound and the transport up, the fault is
    the service's entity-already-exists. *)
Lemma table_add_item_taken (item : TodoItem) (s : AzureTable.St) (e0 : dict) :
  id item <> "" -> stored (id item) s = Some e0 ->
  exists e s',
    AzureTable.add_item item s = (Raise e, s') /\
    cloud (world s') = cloud (world s) /\
    (AzureTable.table_client (self s) = true -> next_fault (world s) = None ->
     e = ResourceExistsError).
Proof.
  intros Hne Hs. rewrite table_add_item_eq. unfold identified.
  apply String.eqb_neq in Hne. rewrite Hne. unfold stored in Hs. rewrite Hs.
  destruct (AzureTable.table_client (self s)).
  2:{ exists AttributeError, s. do 2 (split; [done |]). discriminate. }
  destruct (next_fault (world s)) as [e |].
  - exists e, (after_call s). do 2 (split; [done |]). discriminate.
  - exists ResourceExistsError, (after_call s). do 2 (split; [done |]). done.
Qed.

Lemma table_add_item_returns (item it : TodoItem) (s s' : AzureTable.St) :
  AzureTable.add_item item s = (Ok it, s') ->
  title it = title item /\ completed it = completed item /\
  created_at it = created_at item /\ updated_at it = updated_at item /\
  (id item <> "" -> id it = id item).
Proof.
  rewrite table_add_item_eq. unfold identified.
  destruct (String.eqb (id item) "") eqn:E;
    (destruct (AzureTable.table_client (self s)); [| discriminate]);
    (destruct (next_fault (world s)); [discriminate |]);
    (destruct (cloud (world s) !! _); [discriminate |]);
    intros [= <- <-]; do 4 (split; [reflexivity |]); [| done].
  intros Hne. apply String.eqb_eq in E. contradiction.
Qed.


(** *** The clock and the stored timestamps *)

(** With both timestamps stored as text, [get_item] does not read the
    clock. *)
Lemma table_get_item_text (i : string) (s s1 : AzureTable.St) (it : TodoItem) (e : dict) :
  AzureTable.get_item i s = (Ok (Some it), s1) ->
  stored i s = Some e ->
  (exists a, e !! "created_at" = Some (VStr a)) ->
  (exists b, e !! "updated_at" = Some (VStr b)) ->
  ticks (world s1) = ticks (world s).
Proof.
  unfold AzureTable.get_item, try_except, bind at 1. rewrite get_entity_eq.
  unfold stored. intros Hrun He [a Ha] [b Hb]. revert Hrun. rewrite He.
  destruct (AzureTable.table_client (self s)); [| discriminate].
  destruct (next_fault (world s)); [discriminate |].
  unfold bind at 1.
  destruct (AzureTable.entity_dict _ (after_call s)) as [[data | ex] s2] eqn:Ed;
    [| discriminate].
  pose proof (entity_dict_state _ _ _ _ Ed) as ->.
  destruct (entity_dict_inv _ _ _ _ Ed) as (_ & _ & _ & Dca & Dua & _).
  rewrite !lookup_insert_ne in Dca, Dua by done.
  unfold bind.
  destruct (from_dict data (after_call s)) as [[it0 | ex] s2] eqn:Ef; [| discriminate].
  destruct (from_dict_inv _ _ _ _ Ef) as (_ & _ & _ & _ & _ & _ & _ & Hsame).
  intros [= _ <-]. rewrite Hsame; [reflexivity |].
  exists a, b. now rewrite Dca, Dua.
Qed.

Lemma table_evolves_same (s s' : AzureTable.St) :
  clock (world s') = clock (world s) ->
  (ticks (world s) <= ticks (world s'))%nat ->
  cloud (world s') = cloud (world s) ->
  evolves s s'.
Proof. intros Hc Ht Hd. repeat split; auto. intros k e. rewrite Hd. auto. Qed.

Lemma table_reads_evolves (s s1 s' : AzureTable.St) :
  evolves s s1 -> reads_clock s1 s' -> evolves s s'.
Proof.
  intros (Hc & Ht & Hd) Hr.
  destruct (reads_clock_fields _ _ Hr) as (Hc' & _ & Hcl & _ & _ & Ht').
  split; [congruence |]. split; [lia |].
  intros k e. rewrite Hcl. intros Hk.
  destruct (Hd k e Hk) as [Hold | [(n & Hn & Hu) Hca]]; [now left |].
  right. split; [| exact Hca]. exists n. split; [lia | exact Hu].
Qed.

Lemma table_get_item_evolves (i : string) (s : AzureTable.St) :
  evolves s (snd (AzureTable.get_item i s)).
Proof.
  destruct (AzureTable.get_item i s) as [res s1] eqn:E.
  destruct (get_item_cases _ _ _ _ E) as (Hcl & _ & Hck & Htk & _).
  now apply table_evolves_same.
Qed.

Lemma create_entity_of_lookup (item : TodoItem) :
  create_entity_of item !! "created_at" = Some (VStr (isoformat (created_at item))) /\
  create_entity_of item !! "updated_at" = Some (VStr (isoformat (updated_at item))).
Proof.
  unfold create_entity_of.
  split; repeat (rewrite ?lookup_insert_eq; rewrite ?lookup_insert_ne by done);
    rewrite ?lookup_insert_eq; reflexivity.
Qed.

Lemma table_evolves_insert (s s' : AzureTable.St) (k : string * string) (e : dict)
    (n : nat) :
  clock (world s') = clock (world s) ->
  (ticks (world s) <= ticks (world s'))%nat ->
  cloud (world s') = <[ k := e ]> (cloud (world s)) ->
  (n < ticks (world s'))%nat ->
  e !! "updated_at" = Some (VStr (isoformat (clock (world s) n))) ->
  ((exists a, e !! "created_at" = Some (VStr a)) \/
   exists e0, cloud (world s) !! k = Some e0 /\ e !! "created_at" = e0 !! "created_at") ->
  evolves s s'.
Proof.
  intros Hc Ht Hd Hn Hu Hca. repeat split; auto. intros k' e'. rewrite Hd.
  destruct (decide (k = k')) as [<- | Hne].
  - rewrite lookup_insert_eq. intros [= <-]. right. split; [now exists n | exact Hca].
  - rewrite lookup_insert_ne by done. now left.
Qed.

Lemma table_add_item_evolves (item : TodoItem) (s : AzureTable.St) (n : nat) :
  (n < ticks (world s))%nat ->
  updated_at item = clock (world s) n ->
  evolves s (snd (AzureTable.add_item item s)).
Proof.
  intros Hn Hu. rewrite table_add_item_eq. unfold identified.
  destruct (String.eqb (id item) "");
    (destruct (AzureTable.table_client (self s)); [| now apply table_evolves_same]);
    (destruct (next_fault (world s)); [now apply table_evolves_same |]);
    (destruct (cloud (world s) !! _); [now apply table_evolves_same |]);
    eapply (table_evolves_insert _ _ _ _ n); cbn; eauto; try lia;
    solve [ rewrite <- Hu; apply (create_entity_of_lookup (set_id _ item))
          | rewrite <- Hu; apply (create_entity_of_lookup item)
          | left; eexists; apply (create_entity_of_lookup (set_id _ item))
          | left; eexists; apply (create_entity_of_lookup item) ].
Qed.

Lemma table_add_task_evolves (t : string) (c : bool) (s : AzureTable.St) :
  evolves s (snd (add_task t c s)).
Proof.
  change (add_task t c s) with (AzureTable.add_item (fresh_item t c s) (after_fresh s)).
  destruct (table_add_item_evolves (fresh_item t c s) (after_fresh s) (S (ticks (world s))))
    as (Hc & Ht & Hd); [cbn; lia | reflexivity |].
  split; [exact Hc |]. split; [cbn in Ht; lia |]. exact Hd.
Qed.

Lemma table_fetch_change_write_evolves (change : TodoItem -> TodoItem) (i : string)
    (s : AzureTable.St) :
  (forall it, id (change it) = id it) ->
  evolves s (snd (fetch_change_write change i s)).
Proof.
  intros Hid.
  destruct (fetch_change_write change i s) as [res s'] eqn:E. cbn [snd].
  destruct (table_fetch_change_write_cases _ _ _ _ _ Hid E)
    as (Hc & Ht & [[Hd _] | (e & it & k & Hs & _ & _ & _ & _ & _ & Hk & Hd & _)]).
  - now apply table_evolves_same.
  - destruct (update_entity_of_lookup (change it) (clock (world s) k)) as (_ & _ & Uu & Uca).
    apply (table_evolves_insert _ _ ("todos", i)
             (update_entity_of (change it) (clock (world s) k) ∪ e) k); auto; try lia.
    + now apply lookup_union_Some_l.
    + right. exists e. split; [exact Hs |]. now apply lookup_union_r.
Qed.

Lemma table_delete_item_evolves (i : string) (s : AzureTable.St) :
  evolves s (snd (AzureTable.delete_item i s)).
Proof.
  rewrite table_delete_item_eq, delete_entity_eq. cbn [snd].
  destruct (AzureTable.table_client (self s)); [| now apply table_evolves_same].
  destruct (next_fault (world s)); [now apply table_evolves_same |].
  destruct (cloud (world s) !! ("todos", i)) eqn:E; [| now apply table_evolves_same].
  split; [reflexivity |]. split; [cbn; lia |].
  cbn. intros k e Hk. left. now apply lookup_delete_Some in Hk as [_ Hk].
Qed.

(** The items of the fetched entities are built by reading the clock at
    most. *)
Lemma table_for_each_reads (l : list dict) (s s' : AzureTable.St)
    (res : result (list TodoItem)) :
  for_each (fun entity => data <- AzureTable.entity_dict entity ;; from_dict data) l s
    = (res, s') ->
  reads_clock s s'.
Proof.
  revert s s' res. induction l as [| e l IH]; intros s s' res.
  - intros [= _ <-]. apply reads_clock_refl.
  - cbn [for_each]. unfold bind at 1. unfold bind at 1.
    destruct (AzureTable.entity_dict e s) as [[data | ex] s1] eqn:Ed;
      apply entity_dict_state in Ed as ->.
    2:{ intros [= _ <-]. apply reads_clock_refl. }
    destruct (from_dict data s) as [[it | ex] s1] eqn:Ef;
      apply from_dict_reads in Ef.
    2:{ now intros [= _ <-]. }
    unfold bind.
    destruct (for_each _ l s1) as [[items | ex] s2] eqn:El;
      apply IH in El; intros [= _ <-]; eapply reads_clock_trans; eauto.
Qed.

Lemma table_get_all_items_evolves (s : AzureTable.St) :
  evolves s (snd (AzureTable.get_all_items s)).
Proof.
  unfold AzureTable.get_all_items, bind at 1.
  unfold AzureTable.query_entities_todos, bind at 1. rewrite request_eq.
  destruct (AzureTable.table_client (self s)); [| now apply table_evolves_same].
  destruct (next_fault (world s)); [now apply table_evolves_same |].
  cbv [ret].
  destruct (for_each _ _ (after_call s)) as [res s'] eqn:E.
  apply table_for_each_reads in E. cbn [snd].
  apply (table_reads_evolves s (after_call s) s'); [now apply table_evolves_same | exact E].
Qed.

Lemma table_initialize_cloud (s : AzureTable.St) :
  cloud (world (snd (AzureTable.initialize s))) = cloud (world s) /\
  clock (world (snd (AzureTable.initialize s))) = clock (world s) /\
  ticks (world (snd (AzureTable.initialize s))) = ticks (world s).
Proof.
  unfold AzureTable.initialize, bind, try_except. rewrite storage_call_eq.
  destruct (next_fault (world s)); now cbn.
Qed.

(** Every call of the service moves the table store as [evolves] says. *)
Lemma table_after_evolves (c : call) (s : AzureTable.St) : evolves s (after c s).
Proof.
  destruct c as [t c | i | | i t c | i | i]; cbn [after].
  - apply table_add_task_evolves.
  - apply table_get_item_evolves.
  - apply table_get_all_items_evolves.
  - apply (table_fetch_change_write_evolves (patched t c)).
    intros it. now destruct t, c.
  - now apply (table_fetch_change_write_evolves toggled).
  - apply table_delete_item_evolves.
Qed.

Lemma table_evolves_stamped_before (s s' : AzureTable.St) :
  clock_monotone (world s) -> evolves s s' ->
  stamped_before s -> stamped_before s'.
Proof.
  intros Hmono (Hc & Ht & Hd) Hinv k e Hk. rewrite Hc.
  destruct (Hd k e Hk) as [Hold | [(n & Hn & Hu) Hca]].
  - destruct (Hinv k e Hold) as [Ha (b & Hb & Hbound)]. split; [exact Ha |].
    exists b. split; [exact Hb |]. intros d Hp j Hj. apply (Hbound d Hp). lia.
  - split.
    + destruct Hca as [Ha | (e0 & Hk0 & Heq)]; [exact Ha |].
      rewrite Heq. now destruct (Hinv k e0 Hk0) as [Ha _].
    + exists (isoformat (clock (world s) n)). split; [exact Hu |].
      intros d Hp j Hj. rewrite DatetimeFacts.fromisoformat_isoformat in Hp.
      injection Hp as <-. apply Hmono. lia.
Qed.

(** In every reachable state of the table store, if the clock never runs
    backwards, every entity carries its timestamps as text and none is
    stamped later than a reading still to come. *)
Lemma table_reachable_stamped_before (s : AzureTable.St) :
  reachable s -> clock_monotone (world s) -> stamped_before s.
Proof.
  induction 1 as [s Hempty | c s Hreach IH]; intros Hmono.
  - destruct (table_initialize_cloud s) as (Hd & _ & _).
    intros k e. cbn [TodoService_init initialize AzureTable.backend].
    rewrite Hd, Hempty, lookup_empty. discriminate.
  - pose proof (table_after_evolves c s) as Hev.
    assert (Hmono' : clock_monotone (world s)).
    { destruct Hev as (Hc & _). unfold clock_monotone in *. now rewrite <- Hc. }
    eapply table_evolves_stamped_before; eauto.
Qed.

Lemma table_after_clock (c : call) (s : AzureTable.St) :
  clock (world (after c s)) = clock (world s).
Proof. now destruct (table_after_evolves c s) as [Hc _]. Qed.

Lemma table_init_clock (s : AzureTable.St) :
  clock (world (snd (TodoService_init s))) = clock (world s).
Proof. now destruct (table_initialize_cloud s) as (_ & Hc & _). Qed.

End AzureFacts.

(** * The claims *)

Module SampleFacts.
Import DatetimeFacts.

Lemma make_datetime_some (y mo d h mi s us : Z) :
  valid_fields y mo d h mi s us = true ->
  exists dt, make_datetime y mo d h mi s us = Some dt /\
             year dt = y /\ month dt = mo /\ day dt = d /\ hour dt = h /\
             minute dt = mi /\ second dt = s /\ microsecond dt = us.
Proof.
  intros Hv. unfold make_datetime. destruct (bool_dec _ true) as [H | H]; [| contradiction].
  eexists. split; [reflexivity |]. now cbn.
Qed.

Lemma tick_clock_fields (n : nat) :
  year (tick_clock n) = 2024 /\ month (tick_clock n) = 1 /\ day (tick_clock n) = 1 /\
  hour (tick_clock n) = 0 /\ minute (tick_clock n) = 0 /\ second (tick_clock n) = 0 /\
  microsecond (tick_clock n) = Z.min (Z.of_nat n) 999999.
Proof.
  unfold tick_clock.
  destruct (make_datetime_some 2024 1 1 0 0 0 (Z.min (Z.of_nat n) 999999))
    as (dt & -> & H).
  - unfold valid_fields, between. cbn.
    rewrite !andb_true_iff, !Z.leb_le. lia.
  - exact H.
Qed.

Lemma tick_clock_monotone : clock_monotone sample_world.
Proof.
  intros i j Hij. cbn [clock sample_world]. unfold dt_le, dt_compare.
  destruct (tick_clock_fields i) as (-> & -> & -> & -> & -> & -> & ->).
  destruct (tick_clock_fields j) as (-> & -> & -> & -> & -> & -> & ->).
  cbn [lex Z.compare Pos.compare Pos.compare_cont].
  rewrite Z.compare_gt_iff. lia.
Qed.

Lemma clock_monotone_same (w w' : World) :
  clock w = clock w' -> clock_monotone w' -> clock_monotone w.
Proof. unfold clock_monotone. now intros ->. Qed.

Lemma sample_file_two_monotone : clock_monotone (world sample_file_two).
Proof.
  apply (clock_monotone_same _ sample_world); [| apply tick_clock_monotone].
  unfold sample_file_two, sample_file.
  now rewrite !FileStoreFacts.after_clock, FileStoreFacts.init_clock.
Qed.

Lemma sample_table_two_monotone : clock_monotone (world sample_table_two).
Proof.
  apply (clock_monotone_same _ sample_world); [| apply tick_clock_monotone].
  unfold sample_table_two, sample_table.
  now rewrite !AzureFacts.table_after_clock, AzureFacts.table_init_clock.
Qed.

(** Two ways to use the result of a computation without writing it out. *)
Lemma pair_fst {A B : Type} (p : A * B) (a : A) : fst p = a -> p = (a, snd p).
Proof. destruct p. cbn. now intros ->. Qed.

Lemma is_Some_computed {A : Type} (o : option A) :
  match o with Some _ => true | None => false end = true -> exists x, o = Some x.
Proof. destruct o; [eauto | discriminate]. Qed.

End SampleFacts.

Module Claims.
Import WorldFacts ItemFacts.

(** ** C5: the serialized form and back *)

(** C5. For every item, [from_dict (to_dict item)] returns an item equal to
    the original in all five fields, reads no clock and changes nothing; the
    serialized form has exactly the five keys, with the id and the title as
    strings, [completed] as a boolean, and both timestamps as their
    ISO-8601 text. *)
Theorem from_dict_to_dict_roundtrip {B : Type} (item : TodoItem) (s : Sys B) :
  from_dict (to_dict item) s = (Ok item, s) /\
  dom (to_dict item) = parameters /\
  to_dict item !! "id" = Some (VStr (id item)) /\
  to_dict item !! "title" = Some (VStr (title item)) /\
  to_dict item !! "completed" = Some (VBool (completed item)) /\
  to_dict item !! "created_at" = Some (VStr (isoformat (created_at item))) /\
  to_dict item !! "updated_at" = Some (VStr (isoformat (updated_at item))) /\
  fromisoformat (isoformat (created_at item)) = Some (created_at item) /\
  fromisoformat (isoformat (updated_at item)) = Some (updated_at item).
Proof.
  split.
  { rewrite to_dict_five, from_dict_five.
    rewrite !DatetimeFacts.fromisoformat_isoformat. now destruct item. }
  split.
  { unfold to_dict, parameters. rewrite !dom_insert_L, dom_empty_L. set_solver. }
  unfold to_dict.
  repeat split;
    repeat (rewrite ?lookup_insert_eq; rewrite ?lookup_insert_ne by done);
    rewrite ?lookup_insert_eq; try reflexivity;
    apply DatetimeFacts.fromisoformat_isoformat.
Qed.

(** ** C9: construction of the table-store backend *)

(** C9, as amended. When the Azure packages could not be imported,
    construction raises [ImportError], whatever the configuration.  When
    they could, construction raises the configuration error [ValueError]
    exactly when workload identity is off and no connection string is
    present, or it is on and neither an account URL nor an account name is
    present; in every other configuration it succeeds, and the object holds
    the settings in force. *)
Theorem init_configuration (connection_string : option string) (table_name : string)
    (account_name account_url : option string) (use_workload_identity : bool)
    (w : World) :
  AzureTable.init connection_string table_name account_name account_url
                  use_workload_identity w =
  if AZURE_AVAILABLE w then
    if Settings.misconfigured connection_string account_name account_url
                              use_workload_identity w
    then Raise ValueError
    else Ok (Settings.configured connection_string table_name account_name account_url
                                 use_workload_identity w)
  else Raise ImportError.
Proof.
  unfold AzureTable.init, Settings.misconfigured, Settings.configured,
    Settings.connection_string_in_force, Settings.account_url_in_force,
    Settings.account_name_in_force, Settings.workload_identity_on,
    Settings.table_name_in_force, Settings.present.
  destruct (AZURE_AVAILABLE w); [| reflexivity]. cbn [negb].
  destruct (use_workload_identity || _);
    destruct (AzureTable.truthy (AzureTable.or_else connection_string _));
    destruct (AzureTable.truthy (AzureTable.or_else account_url _));
    destruct (AzureTable.truthy (AzureTable.or_else account_name _));
    destruct (String.eqb table_name ""); reflexivity.
Qed.

(** C9 as stated fails: with a connection string and workload identity off,
    nothing is misconfigured, yet construction raises when the Azure packages
    are missing. *)
Lemma init_without_sdk :
  Settings.misconfigured (Some "UseDevelopmentStorage=true") None None false
                         sample_world_without_sdk = false /\
  AzureTable.init (Some "UseDevelopmentStorage=true") "todos" None None false
                  sample_world_without_sdk = Raise ImportError.
Proof. split; vm_compute; reflexivity. Qed.

(** ** C1: the timestamps of a new item *)

Lemma fresh_stamps_intro {B} (it : TodoItem) (s : Sys B) :
  created_at it = clock (world s) (ticks (world s)) ->
  updated_at it = clock (world s) (S (ticks (world s))) ->
  fresh_stamps it s.
Proof.
  intros Hc Hu. unfold fresh_stamps. cbn zeta. rewrite Hc, Hu.
  split; [reflexivity |]. split; [reflexivity |].
  split; [intros Hmono; apply Hmono; lia | reflexivity].
Qed.

(** C1, as amended. An item constructed without timestamps gets two
    successive readings of the clock: [created_at] is the first and
    [updated_at] the second.  So the item [add_task] returns, on either
    backend, has [created_at <= updated_at] when the clock does not run
    backwards, and [created_at = updated_at] exactly when the clock did not
    advance between the two readings. *)
Theorem add_task_timestamps :
  (forall (B : Type) (i t : string) (c : bool) (s : Sys B),
     exists it, TodoItem_init i t c None None s = (Ok it, after_now (after_now s)) /\
                fresh_stamps it s) /\
  (forall (t : string) (c : bool) (s s' : SQLite.St) (it : TodoItem),
     add_task t c s = (Ok it, s') ->
     fresh_stamps it s /\ title it = t /\ completed it = c) /\
  (forall (t : string) (c : bool) (s s' : AzureTable.St) (it : TodoItem),
     add_task t c s = (Ok it, s') ->
     fresh_stamps it s /\ title it = t /\ completed it = c).
Proof.
  split; [| split].
  - intros B i t c s. eexists. split; [reflexivity |]. now apply fresh_stamps_intro.
  - intros t c s s' it. rewrite FileStoreFacts.add_task_fresh.
    cbn [add_item SQLite.backend]. intros Hadd.
    destruct (FileStoreFacts.add_item_returns _ _ _ _ Hadd) as (Ht & Hc & Hca & Hua & _).
    split; [now apply fresh_stamps_intro | now split].
  - intros t c s s' it. rewrite FileStoreFacts.add_task_fresh.
    cbn [add_item AzureTable.backend]. intros Hadd.
    destruct (AzureFacts.table_add_item_returns _ _ _ _ Hadd) as (Ht & Hc & Hca & Hua & _).
    split; [now apply fresh_stamps_intro | now split].
Qed.

(** The first task added to the sample service. *)
Lemma add_task_timestamps_witness :
  exists it, fst (add_task "Buy milk" false sample_file) = Ok it /\
             fresh_stamps it sample_file /\ title it = "Buy milk" /\
             completed it = false.
Proof.
  eexists. split; [vm_compute; reflexivity |].
  apply (proj1 (proj2 add_task_timestamps) "Buy milk" false sample_file
               (snd (add_task "Buy milk" false sample_file))).
  apply injective_projections; [vm_compute; reflexivity | reflexivity].
Defined.

(** C1 as stated fails: on a clock that advances between two readings, the
    item [add_task] returns has [updated_at] one microsecond after
    [created_at]. *)
Lemma add_task_timestamps_differ :
  exists it, fst (add_task "Buy milk" false sample_file) = Ok it /\
             isoformat (created_at it) = "2024-01-01T00:00:00" /\
             isoformat (updated_at it) = "2024-01-01T00:00:00.000001" /\
             created_at it <> updated_at it.
Proof.
  eexists. split; [vm_compute; reflexivity |].
  split; [vm_compute; reflexivity |]. split; [vm_compute; reflexivity |].
  intros H. apply (f_equal microsecond) in H. vm_compute in H. discriminate.
Qed.

(** ** C3: an id that is not stored *)

(** C3. On an initialized file store whose engine does not fail, for an id
    under which nothing is stored, [get_task], [update_task] and
    [toggle_task] return the absent value and [delete_task] returns false;
    none raises and the system is left exactly as it was.  On the table
    store, [get_task], [update_task] and [toggle_task] return the absent
    value for such an id in every state of the client and of the transport,
    and leave the table as it was; [delete_task] leaves the table as it was
    and never raises, and it returns false whenever the installed client
    reports a missing entity as a fault. *)
Theorem not_found_is_absent :
  (forall (i : string) (t : option string) (c : option bool) (s : SQLite.St),
     FileStore.ready s -> FileStore.stored i s = None ->
     get_task i s = (Ok None, s) /\
     update_task i t c s = (Ok None, s) /\
     toggle_task i s = (Ok None, s) /\
     delete_task i s = (Ok false, s)) /\
  (forall (i : string) (t : option string) (c : option bool) (s : AzureTable.St),
     TableStore.stored i s = None ->
     (fst (get_task i s) = Ok None /\
      cloud (world (snd (get_task i s))) = cloud (world s)) /\
     (fst (update_task i t c s) = Ok None /\
      cloud (world (snd (update_task i t c s))) = cloud (world s)) /\
     (fst (toggle_task i s) = Ok None /\
      cloud (world (snd (toggle_task i s))) = cloud (world s)) /\
     (exists b, fst (delete_task i s) = Ok b /\
                (delete_missing_raises (world s) = true -> b = false) /\
                cloud (world (snd (delete_task i s))) = cloud (world s))).
Proof.
  split.
  - intros i t c s. apply FileStoreFacts.file_not_found.
  - intros i t c s Hs.
    destruct (AzureFacts.table_not_found i t c s Hs) as (Hg & Hu & Ht).
    do 3 (split; [assumption |]).
    unfold delete_task. cbn [delete_item AzureTable.backend].
    rewrite AzureFacts.table_delete_item_eq, AzureFacts.delete_entity_eq.
    unfold TableStore.stored in Hs. rewrite Hs.
    destruct (AzureTable.table_client (self s)); [| now exists false].
    destruct (next_fault (world s)); [now exists false |].
    destruct (delete_missing_raises (world s)); [now exists false |].
    exists true. cbn. split; [done |]. split; [discriminate | done].
Qed.

Lemma not_found_is_absent_witness :
  (get_task "no-such-id" sample_file_two = (Ok None, sample_file_two) /\
   update_task "no-such-id" (Some "x") None sample_file_two = (Ok None, sample_file_two) /\
   toggle_task "no-such-id" sample_file_two = (Ok None, sample_file_two) /\
   delete_task "no-such-id" sample_file_two = (Ok false, sample_file_two)) /\
  fst (get_task "no-such-id" sample_table_two) = Ok None.
Proof.
  split.
  - apply (proj1 not_found_is_absent "no-such-id" (Some "x") None sample_file_two).
    + repeat split; vm_compute; reflexivity.
    + vm_compute; reflexivity.
  - apply (proj2 not_found_is_absent "no-such-id" None None sample_table_two).
    vm_compute; reflexivity.
Defined.

(** ** C10: adding under an id that is taken *)

(** C10. On both backends, [add_item] with an item whose id is not empty
    and is already stored raises and leaves the stored record as it was:
    the file store raises the PRIMARY KEY violation when it is initialized
    and its engine does not fail, the table store raises the service's
    entity-already-exists when its client is bound and the transport is up;
    in the other states the call raises the fault of that state.  Nothing
    is overwritten.  (An empty id is replaced by a fresh uuid before the
    insertion, so it never names a stored record.) *)
Theorem add_existing_id_raises :
  (forall (item : TodoItem) (s : SQLite.St) (r : DbRow),
     id item <> "" -> FileStore.stored (id item) s = Some r ->
     exists e s',
       add_item item s = (Raise e, s') /\
       disk (world s') = disk (world s) /\
       FileStore.stored (id item) s' = Some r /\
       (FileStore.ready s -> e = IntegrityError /\ s' = s)) /\
  (forall (item : TodoItem) (s : AzureTable.St) (e0 : dict),
     id item <> "" -> TableStore.stored (id item) s = Some e0 ->
     exists e s',
       add_item item s = (Raise e, s') /\
       cloud (world s') = cloud (world s) /\
       (AzureTable.table_client (self s) = true -> next_fault (world s) = None ->
        e = ResourceExistsError)).
Proof.
  split.
  - intros item s r. apply FileStoreFacts.add_item_taken.
  - intros item s e0. apply AzureFacts.table_add_item_taken.
Qed.

Lemma add_existing_id_raises_witness :
  (exists e s',
     add_item (mkTodoItem "task-0000" "Again" true epoch epoch) sample_file_two
       = (Raise e, s') /\
     disk (world s') = disk (world sample_file_two) /\
     (FileStore.ready sample_file_two -> e = IntegrityError /\ s' = sample_file_two)) /\
  (exists e s',
     add_item (mkTodoItem "task-0000" "Again" true epoch epoch) sample_table_two
       = (Raise e, s') /\
     cloud (world s') = cloud (world sample_table_two)).
Proof.
  split.
  - destruct (proj1 add_existing_id_raises
                (mkTodoItem "task-0000" "Again" true epoch epoch) sample_file_two
                (mkRow "task-0000" "Buy milk" 0 "2024-01-01T00:00:00"
                       "2024-01-01T00:00:00.000001"))
      as (e & s' & H1 & H2 & _ & H3).
    + discriminate.
    + vm_compute; reflexivity.
    + exists e, s'. auto.
  - destruct (SampleFacts.is_Some_computed
                (TableStore.stored "task-0000" sample_table_two)) as [e0 He0];
      [vm_compute; reflexivity |].
    destruct (proj2 add_existing_id_raises
                (mkTodoItem "task-0000" "Again" true epoch epoch) sample_table_two e0)
      as (e & s' & H1 & H2 & _); [discriminate | exact He0 |].
    exists e, s'. auto.
Defined.

(** ** C4: what [delete_item] returns *)

Lemma file_delete_removes (i : string) (tbl : list DbRow) :
  head (filter (fun r => SQLite.has_id i r = true)
               (filter (fun r => SQLite.has_id i r = false) tbl)) = None.
Proof.
  induction tbl as [| r tbl IH]; [reflexivity |].
  rewrite filter_cons. destruct (decide (SQLite.has_id i r = false)) as [E | E]; [| exact IH].
  rewrite filter_cons, decide_False by congruence. exact IH.
Qed.

Lemma file_delete_keeps (i j : string) (tbl : list DbRow) :
  j <> i ->
  filter (fun r => SQLite.has_id j r = true)
         (filter (fun r => SQLite.has_id i r = false) tbl) =
  filter (fun r => SQLite.has_id j r = true) tbl.
Proof.
  intros Hne. induction tbl as [| r tbl IH]; [reflexivity |].
  rewrite (filter_cons _ r tbl).
  destruct (decide (SQLite.has_id i r = false)) as [E | E].
  - rewrite !filter_cons, IH. reflexivity.
  - rewrite IH, filter_cons, decide_False; [reflexivity |].
    intros Hj. apply FileStoreFacts.has_id_eq in Hj.
    apply not_false_is_true, FileStoreFacts.has_id_eq in E. congruence.
Qed.

Lemma file_delete_count (i : string) (s : SQLite.St) :
  (0 <? Z.of_nat (length (filter (fun r => SQLite.has_id i r = true) (disk (world s)))))
  = bool_decide (is_Some (FileStore.stored i s)).
Proof.
  unfold FileStore.stored. destruct (filter _ _) as [| r l]; reflexivity.
Qed.

(** C4, as amended. File store, initialized: when the engine fails, the
    fault is raised to the caller and nothing is removed; otherwise
    [delete_item] returns true exactly when a record was stored under the id,
    and afterwards none is, while the records under other ids stay.
    Table store: [delete_item] never raises; it returns true exactly when
    the client's [delete_entity] returned without a fault, and false for
    every fault it raised, the missing entity like any failure of the
    transport or of the service, after which the table is as it was.  With
    the client bound and the transport up, deleting a stored entity returns
    true and removes it. *)
Theorem delete_result :
  (forall (i : string) (s : SQLite.St),
     FileStore.opened s ->
     (forall e, next_fault (world s) = Some e ->
        delete_item i s = (Raise e, after_call s)) /\
     (next_fault (world s) = None ->
        exists s',
          delete_item i s = (Ok (bool_decide (is_Some (FileStore.stored i s))), s') /\
          FileStore.stored i s' = None /\
          forall j, j <> i -> FileStore.stored j s' = FileStore.stored j s)) /\
  (forall (i : string) (s : AzureTable.St),
     delete_item i s =
       (Ok (is_ok (fst (AzureTable.delete_entity "todos" i s))),
        snd (AzureTable.delete_entity "todos" i s)) /\
     (forall e, fst (AzureTable.delete_entity "todos" i s) = Raise e ->
        cloud (world (snd (delete_item i s))) = cloud (world s)) /\
     (forall e, AzureTable.table_client (self s) = true ->
        next_fault (world s) = Some e ->
        delete_item i s = (Ok false, after_call s)) /\
     (forall e0, AzureTable.table_client (self s) = true ->
        next_fault (world s) = None -> TableStore.stored i s = Some e0 ->
        fst (delete_item i s) = Ok true /\
        TableStore.stored i (snd (delete_item i s)) = None)).
Proof.
  split.
  - intros i s [Hc Hn]. cbn [delete_item SQLite.backend].
    rewrite SQLiteFacts.delete_item_eq, Hc, Hn. split.
    + now intros e ->.
    + intros ->. eexists. split; [now rewrite file_delete_count |].
      unfold FileStore.stored. cbn. split; [apply file_delete_removes |].
      intros j Hj. now rewrite file_delete_keeps.
  - intros i s. cbn [delete_item AzureTable.backend].
    rewrite AzureFacts.table_delete_item_eq. split; [reflexivity |].
    rewrite AzureFacts.delete_entity_eq. split; [| split].
    + intros e.
      destruct (AzureTable.table_client (self s)); [| done].
      destruct (next_fault (world s)); [done |].
      destruct (cloud (world s) !! ("todos", i)); [discriminate | done].
    + intros e -> ->. reflexivity.
    + intros e0 -> -> Hs. unfold TableStore.stored in *. rewrite Hs. cbn.
      split; [done |]. apply lookup_delete_eq.
Qed.

Lemma delete_result_witness :
  (exists s',
     delete_item "task-0001" sample_file_two = (Ok true, s') /\
     FileStore.stored "task-0001" s' = None) /\
  fst (delete_item "task-0001" sample_table_two) = Ok true.
Proof.
  split.
  - destruct (proj1 delete_result "task-0001" sample_file_two) as [_ H].
    + split; vm_compute; reflexivity.
    + destruct H as (s' & H1 & H2 & _); [vm_compute; reflexivity |].
      exists s'. split; [| exact H2]. rewrite H1. reflexivity.
  - destruct (SampleFacts.is_Some_computed
                (TableStore.stored "task-0001" sample_table_two)) as [e0 He0];
      [vm_compute; reflexivity |].
    destruct (proj2 delete_result "task-0001" sample_table_two) as (_ & _ & _ & H).
    apply (H e0); [vm_compute; reflexivity | vm_compute; reflexivity | exact He0].
Defined.

(** C4 as stated fails on the table store: when the request is refused for
    a reason other than a missing entity (here the credentials are
    rejected), [delete_item] returns false instead of raising, and the
    record is still stored. *)
Lemma delete_hides_transport_fault :
  next_fault (world sample_table_denied) = Some ClientAuthenticationError /\
  fst (AzureTable.delete_entity "todos" "task-0001" sample_table_denied)
    = Raise ClientAuthenticationError /\
  fst (delete_item "task-0001" sample_table_denied) = Ok false /\
  TableStore.stored "task-0001" (snd (delete_item "task-0001" sample_table_denied))
    = TableStore.stored "task-0001" sample_table_denied /\
  exists e, TableStore.stored "task-0001" sample_table_denied = Some e.
Proof.
  split; [reflexivity |]. split; [vm_compute; reflexivity |].
  split; [vm_compute; reflexivity |]. split; [vm_compute; reflexivity |].
  apply SampleFacts.is_Some_computed. vm_compute. reflexivity.
Qed.

(** ** C6: partial update *)

Lemma file_update_title (i t : string) (s s' : SQLite.St)
    (res : result (option TodoItem)) (r : DbRow) :
  FileStore.stored i s = Some r ->
  update_task i (Some t) None s = (res, s') ->
  exists r',
    FileStore.stored i s' = Some r' /\ row_id r' = row_id r /\
    FileStore.flag r' = FileStore.flag r /\
    row_created_at r' = row_created_at r /\
    (forall it, res = Ok (Some it) ->
       row_title r' = t /\ title it = t /\ completed it = FileStore.flag r /\ id it = i).
Proof.
  intros Hs Hrun. rewrite FileStoreFacts.update_task_shape in Hrun.
  destruct (FileStoreFacts.fetch_change_write_stored _ _ _ _ _ _
              (FileStoreFacts.patched_id _ _) Hrun Hs)
    as (r' & Hs' & Hid & Hca & Hch & Hok).
  destruct (FileStoreFacts.stored_has_id _ _ _ Hs) as [Hri _].
  exists r'. do 2 (split; [assumption |]). split; [| split; [assumption |]].
  - destruct Hch as [-> | (it & Hp & _ & Hf)]; [reflexivity |].
    destruct (FileStoreFacts.parse_row_id _ _ Hp) as (_ & _ & Hc & _).
    now rewrite Hf, <- Hc.
  - intros it' Hres. destruct (Hok it' Hres) as (it & Hp & -> & Ht & _).
    destruct (FileStoreFacts.parse_row_id _ _ Hp) as (Hi & _ & Hc & _).
    cbn in *. repeat split; congruence.
Qed.

Lemma file_update_completed (i : string) (c : bool) (s s' : SQLite.St)
    (res : result (option TodoItem)) (r : DbRow) :
  FileStore.stored i s = Some r ->
  update_task i None (Some c) s = (res, s') ->
  exists r',
    FileStore.stored i s' = Some r' /\ row_id r' = row_id r /\
    row_title r' = row_title r /\
    row_created_at r' = row_created_at r /\
    (forall it, res = Ok (Some it) ->
       FileStore.flag r' = c /\ completed it = c /\ title it = row_title r /\ id it = i).
Proof.
  intros Hs Hrun. rewrite FileStoreFacts.update_task_shape in Hrun.
  destruct (FileStoreFacts.fetch_change_write_stored _ _ _ _ _ _
              (FileStoreFacts.patched_id _ _) Hrun Hs)
    as (r' & Hs' & Hid & Hca & Hch & Hok).
  destruct (FileStoreFacts.stored_has_id _ _ _ Hs) as [Hri _].
  exists r'. do 2 (split; [assumption |]). split; [| split; [assumption |]].
  - destruct Hch as [-> | (it & Hp & Ht & _)]; [reflexivity |].
    destruct (FileStoreFacts.parse_row_id _ _ Hp) as (_ & Htt & _).
    now rewrite Ht, <- Htt.
  - intros it' Hres. destruct (Hok it' Hres) as (it & Hp & -> & _ & Hf & _).
    destruct (FileStoreFacts.parse_row_id _ _ Hp) as (Hi & Htt & _).
    cbn in *. repeat split; congruence.
Qed.

Lemma table_update_title (i t : string) (s s' : AzureTable.St)
    (res : result (option TodoItem)) (e : dict) :
  TableStore.stored i s = Some e ->
  update_task i (Some t) None s = (res, s') ->
  exists e',
    TableStore.stored i s' = Some e' /\
    e' !! "completed" = e !! "completed" /\
    e' !! "created_at" = e !! "created_at" /\
    (forall it, res = Ok (Some it) ->
       e' !! "title" = Some (VStr t) /\ title it = t /\
       e !! "completed" = Some (VBool (completed it))).
Proof.
  intros Hs Hrun. rewrite FileStoreFacts.update_task_shape in Hrun.
  destruct (AzureFacts.table_fetch_change_write_stored _ _ _ _ _ _
              (FileStoreFacts.patched_id _ _) Hrun Hs)
    as (e' & Hs' & Hca & Hch & Hok).
  exists e'. split; [assumption |]. split; [| split; [assumption |]].
  - destruct Hch as [-> | (it & _ & Hc & _ & Hc')]; [reflexivity |]. now rewrite Hc, Hc'.
  - intros it' Hres.
    destruct (Hok it' Hres) as (it & k & _ & Hc & _ & _ & _ & -> & Ht' & _).
    cbn in *. auto.
Qed.

Lemma table_update_completed (i : string) (c : bool) (s s' : AzureTable.St)
    (res : result (option TodoItem)) (e : dict) :
  TableStore.stored i s = Some e ->
  update_task i None (Some c) s = (res, s') ->
  exists e',
    TableStore.stored i s' = Some e' /\
    e' !! "title" = e !! "title" /\
    e' !! "created_at" = e !! "created_at" /\
    (forall it, res = Ok (Some it) ->
       e' !! "completed" = Some (VBool c) /\ completed it = c /\
       e !! "title" = Some (VStr (title it))).
Proof.
  intros Hs Hrun. rewrite FileStoreFacts.update_task_shape in Hrun.
  destruct (AzureFacts.table_fetch_change_write_stored _ _ _ _ _ _
              (FileStoreFacts.patched_id _ _) Hrun Hs)
    as (e' & Hs' & Hca & Hch & Hok).
  exists e'. split; [assumption |]. split; [| split; [assumption |]].
  - destruct Hch as [-> | (it & Ht & _ & Ht' & _)]; [reflexivity |]. now rewrite Ht, Ht'.
  - intros it' Hres.
    destruct (Hok it' Hres) as (it & k & Ht & _ & _ & _ & _ & -> & _ & Hc' & _).
    cbn in *. auto.
Qed.

(** C6. For a record stored under an id, on either backend and however the
    call ends: after [update_task] with a title and no [completed], the
    stored completed flag is what it was; after [update_task] with
    [completed] and no title, the stored title is what it was; the record is
    still stored under its id with its creation time; the records under the
    other ids are untouched.  When the call returns an item, the stored
    record and the item carry the field that was given.  On a ready file
    store the call does return the item whenever the stored timestamps
    parse. *)
Theorem partial_update_frame :
  (forall (i : string) (s : SQLite.St) (r : DbRow),
     FileStore.stored i s = Some r ->
     (forall t res s', update_task i (Some t) None s = (res, s') ->
        exists r',
          FileStore.stored i s' = Some r' /\ row_id r' = row_id r /\
          FileStore.flag r' = FileStore.flag r /\
          row_created_at r' = row_created_at r /\
          (forall it, res = Ok (Some it) ->
             row_title r' = t /\ title it = t /\
             completed it = FileStore.flag r /\ id it = i)) /\
     (forall c res s', update_task i None (Some c) s = (res, s') ->
        exists r',
          FileStore.stored i s' = Some r' /\ row_id r' = row_id r /\
          row_title r' = row_title r /\
          row_created_at r' = row_created_at r /\
          (forall it, res = Ok (Some it) ->
             FileStore.flag r' = c /\ completed it = c /\
             title it = row_title r /\ id it = i)) /\
     (forall t c res s' j, update_task i t c s = (res, s') -> j <> i ->
        FileStore.stored j s' = FileStore.stored j s) /\
     (forall t c it0, FileStore.ready s -> FileStore.parse_row r = Some it0 ->
        exists it s', update_task i t c s = (Ok (Some it), s'))) /\
  (forall (i : string) (s : AzureTable.St) (e : dict),
     TableStore.stored i s = Some e ->
     (forall t res s', update_task i (Some t) None s = (res, s') ->
        exists e',
          TableStore.stored i s' = Some e' /\
          e' !! "completed" = e !! "completed" /\
          e' !! "created_at" = e !! "created_at" /\
          (forall it, res = Ok (Some it) ->
             e' !! "title" = Some (VStr t) /\ title it = t /\
             e !! "completed" = Some (VBool (completed it)))) /\
     (forall c res s', update_task i None (Some c) s = (res, s') ->
        exists e',
          TableStore.stored i s' = Some e' /\
          e' !! "title" = e !! "title" /\
          e' !! "created_at" = e !! "created_at" /\
          (forall it, res = Ok (Some it) ->
             e' !! "completed" = Some (VBool c) /\ completed it = c /\
             e !! "title" = Some (VStr (title it)))) /\
     (forall t c res s' j, update_task i t c s = (res, s') -> j <> i ->
        TableStore.stored j s' = TableStore.stored j s)).
Proof.
  split.
  - intros i s r Hs. split; [| split; [| split]].
    + intros t res s'. now apply file_update_title.
    + intros c res s'. now apply file_update_completed.
    + intros t c res s' j Hrun Hne. rewrite FileStoreFacts.update_task_shape in Hrun.
      apply (FileStoreFacts.fetch_change_write_others (patched t c) i j s s' res);
        [apply FileStoreFacts.patched_id | assumption | assumption].
    + intros t c it0 Hready Hp. rewrite FileStoreFacts.update_task_shape.
      destruct (FileStoreFacts.fetch_change_write_succeeds (patched t c) i s r it0)
        as (s' & Hrun); auto. eauto.
  - intros i s e Hs. split; [| split].
    + intros t res s'. now apply table_update_title.
    + intros c res s'. now apply table_update_completed.
    + intros t c res s' j Hrun Hne. rewrite FileStoreFacts.update_task_shape in Hrun.
      apply (AzureFacts.table_fetch_change_write_others (patched t c) i j s s' res);
        [apply FileStoreFacts.patched_id | assumption | assumption].
Qed.

Lemma partial_update_frame_witness :
  exists r',
    FileStore.stored "task-0001"
      (snd (update_task "task-0001" (Some "Walk the cat") None sample_file_two)) = Some r' /\
    FileStore.flag r' = true /\ row_title r' = "Walk the cat".
Proof.
  destruct (proj1 (proj1 partial_update_frame "task-0001" sample_file_two
                     (mkRow "task-0001" "Walk the dog" 1 "2024-01-01T00:00:00.000002"
                            "2024-01-01T00:00:00.000003")
                     ltac:(vm_compute; reflexivity))
              "Walk the cat"
              (fst (update_task "task-0001" (Some "Walk the cat") None sample_file_two))
              (snd (update_task "task-0001" (Some "Walk the cat") None sample_file_two))
              (surjective_pairing _))
    as (r' & Hs & _ & Hf & _ & Hok).
  exists r'. split; [exact Hs |]. split; [exact Hf |].
  eapply Hok. vm_compute. reflexivity.
Defined.

(** ** C7: toggling twice *)

Lemma file_toggle (i : string) (s s1 : SQLite.St) (it1 : TodoItem) :
  toggle_task i s = (Ok (Some it1), s1) ->
  exists r r1,
    FileStore.stored i s = Some r /\ FileStore.stored i s1 = Some r1 /\
    FileStore.flag r1 = negb (FileStore.flag r) /\
    completed it1 = negb (FileStore.flag r).
Proof.
  intros Hrun. rewrite FileStoreFacts.toggle_task_shape in Hrun.
  destruct (FileStoreFacts.fetch_change_write_cases _ _ _ _ _ Hrun)
    as [_ [(_ & _ & Hno) | (r & it0 & Hs & _)]]; [now destruct (Hno it1) |].
  destruct (FileStoreFacts.fetch_change_write_stored _ _ _ _ _ _
              FileStoreFacts.toggled_id Hrun Hs)
    as (r1 & Hs1 & _ & _ & _ & Hok).
  destruct (Hok it1 eq_refl) as (it & Hp & -> & _ & Hf & _).
  destruct (FileStoreFacts.parse_row_id _ _ Hp) as (_ & _ & Hc & _).
  exists r, r1. cbn in *. rewrite Hf, Hc. auto.
Qed.

Lemma table_toggle (i : string) (s s1 : AzureTable.St) (it1 : TodoItem) :
  toggle_task i s = (Ok (Some it1), s1) ->
  exists e e1 b,
    TableStore.stored i s = Some e /\ e !! "completed" = Some (VBool b) /\
    TableStore.stored i s1 = Some e1 /\
    e1 !! "completed" = Some (VBool (negb b)) /\
    completed it1 = negb b.
Proof.
  intros Hrun. rewrite FileStoreFacts.toggle_task_shape in Hrun.
  destruct (AzureFacts.table_fetch_change_write_cases _ _ _ _ _ FileStoreFacts.toggled_id Hrun)
    as (_ & _ & [(_ & Hno) | (e & it0 & k & Hs & _)]); [now destruct (Hno it1) |].
  destruct (AzureFacts.table_fetch_change_write_stored _ _ _ _ _ _
              FileStoreFacts.toggled_id Hrun Hs)
    as (e1 & Hs1 & _ & _ & Hok).
  destruct (Hok it1 eq_refl) as (it & k' & _ & Hc & _ & _ & _ & -> & _ & Hc1 & _).
  exists e, e1, (completed it). cbn in *. auto.
Qed.

(** C7. On either backend, when [toggle_task] is applied twice in
    succession to the id of a stored record and returns an item both times,
    the second item and the stored record carry the completed flag the
    record had before the first call (and the first item carries its
    negation). *)
Theorem toggle_twice_restores :
  (forall (i : string) (s s1 s2 : SQLite.St) (it1 it2 : TodoItem),
     toggle_task i s = (Ok (Some it1), s1) ->
     toggle_task i s1 = (Ok (Some it2), s2) ->
     exists r r2,
       FileStore.stored i s = Some r /\ FileStore.stored i s2 = Some r2 /\
       FileStore.flag r2 = FileStore.flag r /\
       completed it1 = negb (FileStore.flag r) /\
       completed it2 = FileStore.flag r) /\
  (forall (i : string) (s s1 s2 : AzureTable.St) (it1 it2 : TodoItem),
     toggle_task i s = (Ok (Some it1), s1) ->
     toggle_task i s1 = (Ok (Some it2), s2) ->
     exists e e2 b,
       TableStore.stored i s = Some e /\ e !! "completed" = Some (VBool b) /\
       TableStore.stored i s2 = Some e2 /\ e2 !! "completed" = Some (VBool b) /\
       completed it1 = negb b /\ completed it2 = b).
Proof.
  split.
  - intros i s s1 s2 it1 it2 H1 H2.
    destruct (file_toggle _ _ _ _ H1) as (r & r1 & Hs & Hs1 & Hf1 & Hc1).
    destruct (file_toggle _ _ _ _ H2) as (r1' & r2 & Hs1' & Hs2 & Hf2 & Hc2).
    rewrite Hs1 in Hs1'. injection Hs1' as <-.
    exists r, r2. rewrite Hf2, Hc2, Hf1, negb_involutive. auto.
  - intros i s s1 s2 it1 it2 H1 H2.
    destruct (table_toggle _ _ _ _ H1) as (e & e1 & b & Hs & Hb & Hs1 & Hb1 & Hc1).
    destruct (table_toggle _ _ _ _ H2) as (e1' & e2 & b' & Hs1' & Hb1' & Hs2 & Hb2 & Hc2).
    rewrite Hs1 in Hs1'. injection Hs1' as <-.
    rewrite Hb1 in Hb1'. injection Hb1' as <-.
    rewrite negb_involutive in Hb2, Hc2.
    exists e, e2, b. auto 10.
Qed.

Lemma toggle_twice_restores_witness :
  (exists it1 it2,
     fst (toggle_task "task-0000" sample_file_two) = Ok (Some it1) /\
     fst (toggle_task "task-0000" (snd (toggle_task "task-0000" sample_file_two)))
       = Ok (Some it2) /\
     completed it1 = true /\ completed it2 = false) /\
  (exists it1 it2,
     fst (toggle_task "task-0000" sample_table_two) = Ok (Some it1) /\
     fst (toggle_task "task-0000" (snd (toggle_task "task-0000" sample_table_two)))
       = Ok (Some it2) /\
     completed it1 = true /\ completed it2 = false).
Proof.
  split.
  - assert (E1 : exists it, fst (toggle_task "task-0000" sample_file_two) = Ok (Some it))
      by (eexists; vm_compute; reflexivity).
    destruct E1 as [it1 E1].
    assert (E2 : exists it,
               fst (toggle_task "task-0000" (snd (toggle_task "task-0000" sample_file_two)))
               = Ok (Some it))
      by (eexists; vm_compute; reflexivity).
    destruct E2 as [it2 E2].
    exists it1, it2. split; [exact E1 |]. split; [exact E2 |].
    destruct (proj1 toggle_twice_restores _ _ _ _ it1 it2
                (SampleFacts.pair_fst _ _ E1) (SampleFacts.pair_fst _ _ E2))
      as (r & r2 & Hs & _ & _ & H1 & H2).
    vm_compute in Hs. injection Hs as <-. split; [exact H1 | exact H2].
  - assert (E1 : exists it, fst (toggle_task "task-0000" sample_table_two) = Ok (Some it))
      by (eexists; vm_compute; reflexivity).
    destruct E1 as [it1 E1].
    assert (E2 : exists it,
               fst (toggle_task "task-0000" (snd (toggle_task "task-0000" sample_table_two)))
               = Ok (Some it))
      by (eexists; vm_compute; reflexivity).
    destruct E2 as [it2 E2].
    exists it1, it2. split; [exact E1 |]. split; [exact E2 |].
    destruct (proj2 toggle_twice_restores _ _ _ _ it1 it2
                (SampleFacts.pair_fst _ _ E1) (SampleFacts.pair_fst _ _ E2))
      as (e & e2 & b & Hs & Hb & _ & _ & H1 & H2).
    assert (Hb' : TableStore.stored "task-0000" sample_table_two
                    ≫= (fun e => e !! "completed") = Some (VBool b)).
    { rewrite Hs. exact Hb. }
    vm_compute in Hb'. injection Hb' as <-.
    split; [exact H1 | exact H2].
Defined.

(** ** C8: all the records, most recent first *)

(** C8. On an initialized file store whose engine does not fail and whose
    rows are canonical, [get_all_items] (and so [get_all_tasks]) returns
    the items of all the stored rows, each exactly once, ordered by
    [created_at] descending, and changes nothing.  Canonical rows are the
    only ones the backend writes: every state the service reaches from an
    empty table has only canonical rows, and [add_item], [update_item] and
    [delete_item] keep the rows canonical whatever item they are given. *)
Theorem get_all_items_newest_first :
  (forall s : SQLite.St,
     FileStore.ready s -> Forall FileStore.canonical (disk (world s)) ->
     exists items,
       get_all_items s = (Ok items, s) /\
       get_all_tasks s = (Ok items, s) /\
       Some <$> items ≡ₚ FileStore.parse_row <$> disk (world s) /\
       length items = length (disk (world s)) /\
       Sorted FileStore.newest_first items) /\
  (forall s : SQLite.St,
     FileStore.reachable s -> Forall FileStore.canonical (disk (world s))) /\
  (forall (s : SQLite.St) (item : TodoItem) (i : string),
     Forall FileStore.canonical (disk (world s)) ->
     Forall FileStore.canonical (disk (world (snd (add_item item s)))) /\
     Forall FileStore.canonical (disk (world (snd (update_item item s)))) /\
     Forall FileStore.canonical (disk (world (snd (delete_item i s))))).
Proof.
  split; [| split].
  - intros s Hready Hcan.
    destruct (FileStoreFacts.get_all_items_sorted s Hready Hcan) as (items & Hrun & Hperm & Hs).
    exists items. do 3 (split; [assumption |]). split; [| assumption].
    apply Permutation_length in Hperm. now rewrite !length_fmap in Hperm.
  - apply FileStoreFacts.reachable_canonical.
  - intros s item i Hcan. split; [| split].
    + now apply FileStoreFacts.add_item_canonical.
    + now apply FileStoreFacts.update_item_canonical.
    + now apply FileStoreFacts.delete_item_canonical.
Qed.

(** Three tasks added to an empty file store come back newest first. *)
Lemma get_all_items_newest_first_witness :
  exists items,
    get_all_tasks sample_file_three = (Ok items, sample_file_three) /\
    title <$> items = ["Call home"; "Walk the dog"; "Buy milk"] /\
    Sorted FileStore.newest_first items.
Proof.
  destruct (proj1 get_all_items_newest_first sample_file_three)
    as (items & _ & Hrun & _ & _ & Hs).
  - repeat split; vm_compute; reflexivity.
  - apply (proj1 (proj2 get_all_items_newest_first)).
    unfold sample_file_three, sample_file_two, sample_file.
    do 3 apply FileStore.reach_call. now apply FileStore.reach_new.
  - exists items. split; [exact Hrun |]. split; [| exact Hs].
    apply (f_equal fst) in Hrun. vm_compute in Hrun. now injection Hrun as <-.
Defined.

(** ** C2: the timestamps after an update *)

Lemma file_get_task_some (i : string) (s s0 : SQLite.St) (prior : TodoItem) :
  get_task i s = (Ok (Some prior), s0) ->
  exists r, FileStore.stored i s = Some r /\ FileStore.parse_row r = Some prior.
Proof.
  unfold get_task. cbn [get_item SQLite.backend]. rewrite SQLiteFacts.get_item_eq.
  destruct (SQLite.cursor (self s)); [| discriminate].
  destruct (next_fault (world s)); [discriminate |].
  destruct (FileStore.stored i s) as [r |]; [| discriminate].
  destruct (FileStore.parse_row r) as [it |] eqn:Hp; [| discriminate].
  intros [= <- _]. eauto.
Qed.

Lemma file_change_stamps (change : TodoItem -> TodoItem) (i : string)
    (s s0 s' : SQLite.St) (prior it : TodoItem) :
  (forall x, id (change x) = id x) ->
  (forall x, created_at (change x) = created_at x) ->
  FileStore.reachable s -> clock_monotone (world s) ->
  get_task i s = (Ok (Some prior), s0) ->
  fetch_change_write change i s = (Ok (Some it), s') ->
  dt_le (updated_at prior) (updated_at it) /\
  created_at it = created_at prior /\
  updated_at it = clock (world s) (ticks (world s)) /\
  exists r r',
    FileStore.stored i s = Some r /\ FileStore.stored i s' = Some r' /\
    row_created_at r' = row_created_at r /\
    row_updated_at r' = isoformat (updated_at it).
Proof.
  intros Hid Hca Hreach Hmono Hget Hrun.
  destruct (file_get_task_some _ _ _ _ Hget) as (r & Hs & Hp).
  destruct (FileStoreFacts.fetch_change_write_stored _ _ _ _ _ _ Hid Hrun Hs)
    as (r' & Hs' & _ & Hrca & _ & Hok).
  destruct (Hok it eq_refl) as (it0 & Hp0 & -> & _ & _ & Hu).
  rewrite Hp in Hp0. injection Hp0 as <-.
  destruct (FileStoreFacts.parse_row_id _ _ Hp) as (_ & _ & _ & _ & Hpu).
  destruct (FileStoreFacts.stored_has_id _ _ _ Hs) as [_ Hin].
  cbn [updated_at created_at set_updated_at].
  split; [| split; [apply Hca | split; [reflexivity |]]].
  - apply (FileStoreFacts.reachable_stamped_before s Hreach Hmono r _ Hin Hpu). lia.
  - exists r, r'. auto.
Qed.

Lemma table_change_stamps (change : TodoItem -> TodoItem) (i : string)
    (s s0 s' : AzureTable.St) (prior it : TodoItem) :
  (forall x, id (change x) = id x) ->
  (forall x, created_at (change x) = created_at x) ->
  TableStore.reachable s -> clock_monotone (world s) ->
  get_task i s = (Ok (Some prior), s0) ->
  fetch_change_write change i s = (Ok (Some it), s') ->
  dt_le (updated_at prior) (updated_at it) /\
  created_at it = created_at prior /\
  updated_at it = clock (world s) (ticks (world s)) /\
  exists e e',
    TableStore.stored i s = Some e /\ TableStore.stored i s' = Some e' /\
    e' !! "created_at" = e !! "created_at" /\
    e' !! "updated_at" = Some (VStr (isoformat (updated_at it))).
Proof.
  intros Hid Hca Hreach Hmono Hget Hrun.
  pose proof (AzureFacts.table_reachable_stamped_before s Hreach Hmono) as Hinv.
  unfold get_task in Hget. cbn [get_item AzureTable.backend] in Hget.
  destruct (AzureFacts.get_item_cases _ _ _ _ Hget)
    as (Hcl & Hself & Hck & Htk & [Hno | (p & e & Hp & Hs & Hi & _ & _ & _ & Hpu)]);
    [discriminate |].
  injection Hp as <-.
  destruct (Hinv _ _ Hs) as [Ha (b & Hb & Hbound)].
  assert (Hticks : ticks (world s0) = ticks (world s)).
  { apply (AzureFacts.table_get_item_text i s s0 prior e); eauto. }
  destruct (AzureFacts.table_fetch_change_write_stored _ _ _ _ _ _ Hid Hrun Hs)
    as (e' & Hs' & Hca' & _ & Hok).
  destruct (Hok it eq_refl) as (it0 & k & _ & _ & _ & _ & _ & _ & _ & _ & Hu').
  assert (Hit : it = set_updated_at (clock (world s) (ticks (world s))) (change prior)).
  { rewrite AzureFacts.fetch_change_write_table, Hget in Hrun.
    rewrite AzureFacts.table_update_item_eq in Hrun. cbn zeta in Hrun.
    rewrite Hck, Hticks in Hrun.
    destruct (AzureTable.table_client (self s0)); [| discriminate].
    destruct (next_fault (world s0)); [discriminate |].
    destruct (cloud (world s0) !! _); [| discriminate].
    now injection Hrun as <- _. }
  split; [| split; [| split]].
  - rewrite Hit. cbn. apply (Hbound _ (Hpu _ Hb)). lia.
  - rewrite Hit. cbn. apply Hca.
  - now rewrite Hit.
  - exists e, e'. auto.
Qed.

(** C2. In every state the service reaches from an empty store, on either
    backend, with a clock that does not run backwards: when [update_task]
    or [toggle_task] returns an item for a stored id, the item's
    [updated_at] is the reading of the clock at the call, whether or not a
    field changed value, and is not earlier than the [updated_at] that was
    stored (the one [get_task] returned before the call); its [created_at]
    is the one that was stored; and the record now stored carries that
    [updated_at] and the creation time it had. *)
Theorem update_refreshes_updated_at :
  (forall (i : string) (t : option string) (c : option bool)
          (s s0 s' : SQLite.St) (prior it : TodoItem),
     FileStore.reachable s -> clock_monotone (world s) ->
     get_task i s = (Ok (Some prior), s0) ->
     update_task i t c s = (Ok (Some it), s') \/ toggle_task i s = (Ok (Some it), s') ->
     dt_le (updated_at prior) (updated_at it) /\
     created_at it = created_at prior /\
     updated_at it = clock (world s) (ticks (world s)) /\
     exists r r',
       FileStore.stored i s = Some r /\ FileStore.stored i s' = Some r' /\
       row_created_at r' = row_created_at r /\
       row_updated_at r' = isoformat (updated_at it)) /\
  (forall (i : string) (t : option string) (c : option bool)
          (s s0 s' : AzureTable.St) (prior it : TodoItem),
     TableStore.reachable s -> clock_monotone (world s) ->
     get_task i s = (Ok (Some prior), s0) ->
     update_task i t c s = (Ok (Some it), s') \/ toggle_task i s = (Ok (Some it), s') ->
     dt_le (updated_at prior) (updated_at it) /\
     created_at it = created_at prior /\
     updated_at it = clock (world s) (ticks (world s)) /\
     exists e e',
       TableStore.stored i s = Some e /\ TableStore.stored i s' = Some e' /\
       e' !! "created_at" = e !! "created_at" /\
       e' !! "updated_at" = Some (VStr (isoformat (updated_at it)))).
Proof.
  split.
  - intros i t c s s0 s' prior it Hreach Hmono Hget [Hrun | Hrun].
    + rewrite FileStoreFacts.update_task_shape in Hrun.
      apply (file_change_stamps (patched t c) i s s0 s' prior it); auto.
      * apply FileStoreFacts.patched_id.
      * intros x. now destruct t, c.
    + rewrite FileStoreFacts.toggle_task_shape in Hrun.
      apply (file_change_stamps toggled i s s0 s' prior it); auto.
  - intros i t c s s0 s' prior it Hreach Hmono Hget [Hrun | Hrun].
    + rewrite FileStoreFacts.update_task_shape in Hrun.
      apply (table_change_stamps (patched t c) i s s0 s' prior it); auto.
      * apply FileStoreFacts.patched_id.
      * intros x. now destruct t, c.
    + rewrite FileStoreFacts.toggle_task_shape in Hrun.
      apply (table_change_stamps toggled i s s0 s' prior it); auto.
Qed.

(** An update that changes no field value still moves [updated_at]
    forward. *)
Lemma update_refreshes_updated_at_witness :
  (exists prior it,
     fst (get_task "task-0000" sample_file_two) = Ok (Some prior) /\
     fst (update_task "task-0000" (Some "Buy milk") None sample_file_two) = Ok (Some it) /\
     dt_le (updated_at prior) (updated_at it) /\
     created_at it = created_at prior /\
     updated_at it = clock (world sample_file_two) (ticks (world sample_file_two))) /\
  (exists prior it,
     fst (get_task "task-0000" sample_table_two) = Ok (Some prior) /\
     fst (toggle_task "task-0000" sample_table_two) = Ok (Some it) /\
     dt_le (updated_at prior) (updated_at it) /\
     created_at it = created_at prior /\
     updated_at it = clock (world sample_table_two) (ticks (world sample_table_two))).
Proof.
  split.
  - assert (Hreach : FileStore.reachable sample_file_two).
    { unfold sample_file_two, sample_file.
      do 2 apply FileStore.reach_call. now apply FileStore.reach_new. }
    assert (E1 : exists prior, fst (get_task "task-0000" sample_file_two) = Ok (Some prior))
      by (eexists; vm_compute; reflexivity).
    destruct E1 as [prior E1].
    assert (E2 : exists it,
               fst (update_task "task-0000" (Some "Buy milk") None sample_file_two)
               = Ok (Some it))
      by (eexists; vm_compute; reflexivity).
    destruct E2 as [it E2].
    exists prior, it. split; [exact E1 |]. split; [exact E2 |].
    destruct (proj1 update_refreshes_updated_at "task-0000" (Some "Buy milk") None
                sample_file_two _ _ prior it Hreach SampleFacts.sample_file_two_monotone
                (SampleFacts.pair_fst _ _ E1)
                (or_introl (SampleFacts.pair_fst _ _ E2)))
      as (H1 & H2 & H3 & _).
    auto.
  - assert (Hreach : TableStore.reachable sample_table_two).
    { unfold sample_table_two, sample_table.
      do 2 apply TableStore.reach_call. now apply TableStore.reach_new. }
    assert (E1 : exists prior, fst (get_task "task-0000" sample_table_two) = Ok (Some prior))
      by (eexists; vm_compute; reflexivity).
    destruct E1 as [prior E1].
    assert (E2 : exists it, fst (toggle_task "task-0000" sample_table_two) = Ok (Some it))
      by (eexists; vm_compute; reflexivity).
    destruct E2 as [it E2].
    exists prior, it. split; [exact E1 |]. split; [exact E2 |].
    destruct (proj2 update_refreshes_updated_at "task-0000" None None
                sample_table_two _ _ prior it Hreach SampleFacts.sample_table_two_monotone
                (SampleFacts.pair_fst _ _ E1)
                (or_intror (SampleFacts.pair_fst _ _ E2)))
      as (H1 & H2 & H3 & _).
    auto.
Defined.

End Claims.

(** * Further properties of the code *)

(** ** The file store, call by call *)

Module FileRecordsFacts.
Import FileStore FileRecords WorldFacts ItemFacts SQLiteFacts FileStoreFacts DatetimeFacts.
Import (coercions) SQLite.

(** What one call of the service does to the table: nothing; or one row is
    appended, under an id no row had, stamped with two successive readings of
    the clock; or the rows under one id get a title, a flag and the reading
    of the clock; or the rows under one id go. *)
Lemma file_step (c : call) (s : SQLite.St) :
  clock (world (after c s)) = clock (world s) /\
  ((disk (world (after c s)) = disk (world s) /\
    (ticks (world s) <= ticks (world (after c s)))%nat) \/
   (exists it,
      disk (world (after c s)) = (disk (world s) ++ [SQLite.item_row it])%list /\
      existsb (SQLite.has_id (id it)) (disk (world s)) = false /\
      created_at it = clock (world s) (ticks (world s)) /\
      updated_at it = clock (world s) (S (ticks (world s))) /\
      ticks (world (after c s)) = S (S (ticks (world s)))) \/
   (exists it,
      disk (world (after c s)) =
        updated_table it (clock (world s) (ticks (world s))) (disk (world s)) /\
      ticks (world (after c s)) = S (ticks (world s))) \/
   (exists i,
      disk (world (after c s)) =
        filter (fun r => SQLite.has_id i r = false) (disk (world s)) /\
      ticks (world (after c s)) = ticks (world s))).
Proof.
  split; [apply after_clock |].
  destruct c as [t c | i | | i t c | i | i]; cbn [after].
  - rewrite add_task_fresh. cbn [add_item SQLite.backend]. rewrite add_item_eq.
    unfold identified.
    destruct (String.eqb (id (fresh_item t c s)) "");
      (destruct (SQLite.cursor (self (after_fresh s))); [| left; cbn; split; [done | lia]]);
      (destruct (next_fault (world (after_fresh s))); [left; cbn; split; [done | lia] |]);
      (destruct (existsb _ _) eqn:Hex; [left; cbn; split; [done | lia] |]);
      right; left; eexists; (destruct (SQLite.conn (self (after_fresh s))));
      cbn; (split; [reflexivity |]); (split; [exact Hex |]); done.
  - cbn [get_task get_item SQLite.backend]. rewrite get_item_eq. left.
    destruct (SQLite.cursor (self s)); [| done].
    destruct (next_fault (world s)); done.
  - cbn [get_all_tasks get_all_items SQLite.backend]. left.
    destruct (SQLite.get_all_items s) as [res s'] eqn:E.
    destruct (get_all_items_state _ _ _ E) as [-> | ->]; done.
  - rewrite update_task_shape.
    destruct (fetch_change_write (patched t c) i s) as [res s'] eqn:E.
    destruct (fetch_change_write_cases _ _ _ _ _ E) as
      (_ & [(Hd & Ht & _) | (r & it & _ & _ & Ht & Hd & _)]); cbn [snd].
    + now left.
    + right; right; left. eauto.
  - rewrite toggle_task_shape.
    destruct (fetch_change_write toggled i s) as [res s'] eqn:E.
    destruct (fetch_change_write_cases _ _ _ _ _ E) as
      (_ & [(Hd & Ht & _) | (r & it & _ & _ & Ht & Hd & _)]); cbn [snd].
    + now left.
    + right; right; left. eauto.
  - cbn [delete_task delete_item SQLite.backend]. rewrite delete_item_eq.
    destruct (SQLite.cursor (self s)); [| now left].
    destruct (next_fault (world s)); [now left |].
    right; right; right. exists i. now destruct (SQLite.conn (self s)).
Qed.

(** *** Ids are unique *)

Lemma existsb_has_id (i : string) (tbl : list DbRow) :
  existsb (SQLite.has_id i) tbl = false -> i ∉ row_id <$> tbl.
Proof.
  intros Hex Hin. apply list_elem_of_fmap in Hin as (r & -> & Hin).
  assert (existsb (SQLite.has_id (row_id r)) tbl = true); [| congruence].
  apply existsb_exists. exists r. split; [now apply list_elem_of_In |].
  now apply has_id_eq.
Qed.

Lemma updated_table_ids (it : TodoItem) (now : datetime) (tbl : list DbRow) :
  row_id <$> updated_table it now tbl = row_id <$> tbl.
Proof.
  unfold updated_table. induction tbl as [| r tbl IH]; [done |].
  cbn. now rewrite update_row_id, <- IH.
Qed.

Lemma unique_ids_after (c : call) (s : SQLite.St) :
  unique_ids s -> unique_ids (after c s).
Proof.
  unfold unique_ids. intros Hn.
  destruct (file_step c s) as
    (_ & [(-> & _) | [(it & -> & Hex & _) | [(it & -> & _) | (i & -> & _)]]]).
  - exact Hn.
  - rewrite fmap_app. apply NoDup_app. split; [exact Hn |]. split; [| apply NoDup_singleton].
    intros x Hx Hin. cbn in Hin. apply list_elem_of_singleton in Hin as ->.
    now apply existsb_has_id in Hex.
  - now rewrite updated_table_ids.
  - eapply sublist_NoDup; [exact Hn |]. apply fmap_sublist, sublist_filter.
Qed.

Lemma unique_ids_reachable (s : SQLite.St) : reachable s -> unique_ids s.
Proof.
  induction 1 as [s Hempty | c s Hreach IH].
  - destruct (initialize_disk s) as (Hd & _ & _). unfold unique_ids.
    cbn [TodoService_init initialize SQLite.backend]. rewrite Hd, Hempty. constructor.
  - now apply unique_ids_after.
Qed.

Lemma filter_absent_id (i : string) (tbl : list DbRow) :
  i ∉ row_id <$> tbl -> filter (fun x => SQLite.has_id i x = true) tbl = [].
Proof.
  induction tbl as [| x tbl IH]; intros Hni; [done |].
  cbn in Hni. apply not_elem_of_cons in Hni as [Hne Hni].
  rewrite filter_cons_False; [now apply IH |].
  rewrite has_id_eq. congruence.
Qed.

(** With unique ids, the rows under the id of a row are that row alone. *)
Lemma unique_ids_filter (tbl : list DbRow) (r : DbRow) :
  NoDup (row_id <$> tbl) -> r ∈ tbl ->
  filter (fun x => SQLite.has_id (row_id r) x = true) tbl = [r].
Proof.
  induction tbl as [| x tbl IH]; intros Hn Hin; [now apply elem_of_nil in Hin |].
  cbn in Hn. apply NoDup_cons in Hn as [Hx Hn].
  apply elem_of_cons in Hin as [-> | Hin].
  - rewrite filter_cons_True by now apply has_id_eq.
    f_equal. now apply filter_absent_id.
  - rewrite filter_cons_False; [now apply IH |].
    rewrite has_id_eq. intros Heq. apply Hx. rewrite Heq.
    apply list_elem_of_fmap. now exists r.
Qed.

(** *** Creation comes before the last update *)

Lemma lex_le_trans (a b c : Z) (rab rbc rac : comparison) :
  lex (a ?= b) rab <> Gt -> lex (b ?= c) rbc <> Gt ->
  (rab <> Gt -> rbc <> Gt -> rac <> Gt) ->
  lex (a ?= c) rac <> Gt.
Proof.
  destruct (Z.compare_spec a b), (Z.compare_spec b c), (Z.compare_spec a c);
    cbn; try lia; try congruence; auto.
Qed.

Lemma dt_le_trans (a b c : datetime) : dt_le a b -> dt_le b c -> dt_le a c.
Proof.
  unfold dt_le, dt_compare. intros Hab Hbc.
  do 6 (eapply lex_le_trans; [exact Hab | exact Hbc | clear Hab Hbc; intros Hab Hbc]).
  rewrite Z.compare_le_iff in *. lia.
Qed.

Lemma parse_item_row (it : TodoItem) : parse_row (SQLite.item_row it) = Some it.
Proof.
  unfold parse_row, SQLite.item_row, flag.
  cbn [row_id row_title row_completed row_created_at row_updated_at].
  rewrite !fromisoformat_isoformat. destruct it as [i t [] ca ua]; reflexivity.
Qed.

Lemma parse_updated_row (r : DbRow) (it0 : TodoItem) (t : string) (c : bool)
    (now : datetime) :
  parse_row r = Some it0 ->
  parse_row (mkRow (row_id r) t (if c then 1 else 0) (row_created_at r) (isoformat now)) =
  Some (mkTodoItem (row_id r) t c (created_at it0) now).
Proof.
  intros Hp. apply parse_row_id in Hp as (_ & _ & _ & Hca & _).
  unfold parse_row, flag.
  cbn [row_id row_title row_completed row_created_at row_updated_at].
  rewrite Hca, fromisoformat_isoformat. now destruct c.
Qed.

Lemma ordered_stamps_after (c : call) (s : SQLite.St) :
  clock_monotone (world s) -> ordered_stamps s -> ordered_stamps (after c s).
Proof.
  intros Hmono Hinv. unfold ordered_stamps.
  destruct (file_step c s) as
    (Hc & [(Hd & Ht) | [(it & Hd & _ & Hca & Hua & Ht) | [(it & Hd & Ht) | (i & Hd & Ht)]]]);
    rewrite Hc, Hd; intros r Hin.
  - destruct (Hinv r Hin) as (it & Hp & Hle & Hfut). exists it.
    split; [done |]. split; [done |]. intros j Hj. apply Hfut. lia.
  - apply elem_of_app in Hin as [Hin | Hin].
    + destruct (Hinv r Hin) as (it0 & Hp & Hle & Hfut). exists it0.
      split; [done |]. split; [done |]. intros j Hj. apply Hfut. lia.
    + apply list_elem_of_singleton in Hin as ->. exists it.
      split; [apply parse_item_row |]. rewrite Hca, Hua.
      split; [apply Hmono; lia |]. intros j Hj. apply Hmono. lia.
  - unfold updated_table in Hin. apply list_elem_of_fmap in Hin as (r0 & -> & Hin0).
    destruct (Hinv r0 Hin0) as (it0 & Hp & Hle & Hfut).
    destruct (SQLite.has_id (id it) r0) eqn:Hh.
    + rewrite update_row_hit by done. eexists. split; [apply parse_updated_row; exact Hp |].
      cbn [created_at updated_at]. split.
      * eapply dt_le_trans; [exact Hle |]. now apply Hfut.
      * intros j Hj. apply Hmono. lia.
    + rewrite update_row_miss by congruence. exists it0.
      split; [done |]. split; [done |]. intros j Hj. apply Hfut. lia.
  - apply list_elem_of_filter in Hin as [_ Hin].
    destruct (Hinv r Hin) as (it & Hp & Hle & Hfut). exists it.
    split; [done |]. split; [done |]. intros j Hj. apply Hfut. lia.
Qed.

Lemma ordered_stamps_reachable (s : SQLite.St) :
  reachable s -> clock_monotone (world s) -> ordered_stamps s.
Proof.
  induction 1 as [s Hempty | c s Hreach IH]; intros Hmono.
  - destruct (initialize_disk s) as (Hd & _ & _).
    intros r Hin. cbn [TodoService_init initialize SQLite.backend] in Hin.
    rewrite Hd, Hempty in Hin. now apply elem_of_nil in Hin.
  - assert (Hmono' : clock_monotone (world s)).
    { unfold clock_monotone in *. now rewrite <- (after_clock c s). }
    now apply ordered_stamps_after; [| apply IH].
Qed.

(** What [get_task] returns is the reading of the row stored under the
    id. *)
Lemma get_task_stored (i : string) (s s' : SQLite.St) (it : TodoItem) :
  get_task i s = (Ok (Some it), s') ->
  exists r, stored i s = Some r /\ parse_row r = Some it.
Proof.
  cbn [get_task get_item SQLite.backend]. rewrite get_item_eq.
  destruct (SQLite.cursor (self s)); [| discriminate].
  destruct (next_fault (world s)); [discriminate |].
  destruct (stored i s) as [r |]; [| discriminate].
  destruct (parse_row r) as [it0 |] eqn:Hp; [| discriminate].
  intros [= <- <-]. eauto.
Qed.

(** *** What a call that returned has left *)

Lemma stored_append (i : string) (s s' : SQLite.St) (row : DbRow) :
  disk (world s') = (disk (world s) ++ [row])%list ->
  existsb (SQLite.has_id (row_id row)) (disk (world s)) = false ->
  stored (row_id row) s = None /\
  stored (row_id row) s' = Some row /\
  (i <> row_id row -> stored i s' = stored i s).
Proof.
  intros Hd Hex. unfold stored. rewrite Hd, !filter_app.
  apply existsb_has_id, filter_absent_id in Hex. rewrite Hex.
  split; [done |]. split.
  - rewrite filter_cons_True by now apply has_id_eq. done.
  - intros Hne. rewrite filter_cons_False; [| rewrite has_id_eq; congruence].
    now rewrite filter_nil, app_nil_r.
Qed.

(** [add_task] returned: the backend is open, and the row of the item was
    appended under an id that was free. *)
Lemma add_task_file_ok (t : string) (c : bool) (s s' : SQLite.St) (it : TodoItem) :
  add_task t c s = (Ok it, s') ->
  SQLite.cursor (self s) = true /\ SQLite.conn (self s) = true /\ self s' = self s /\
  next_fault (world s) = None /\
  faults (world s') = tail (faults (world s)) /\
  existsb (SQLite.has_id (id it)) (disk (world s)) = false /\
  disk (world s') = (disk (world s) ++ [SQLite.item_row it])%list /\
  title it = t /\ completed it = c.
Proof.
  rewrite add_task_fresh. cbn [add_item SQLite.backend]. rewrite add_item_eq.
  unfold identified.
  destruct (String.eqb (id (fresh_item t c s)) "");
    (destruct (SQLite.cursor (self (after_fresh s))) eqn:Hc; [| discriminate]);
    (destruct (next_fault (world (after_fresh s))) eqn:Hf; [discriminate |]);
    (destruct (existsb _ _) eqn:Hex; [discriminate |]);
    (destruct (SQLite.conn (self (after_fresh s))) eqn:Hn; [| discriminate]);
    intros [= <- <-]; cbn in *; done.
Qed.

(** On an open backend whose next call goes through, [get_task] gives the
    reading of the stored row. *)
Lemma get_task_reads (i : string) (s : SQLite.St) (r : DbRow) (it : TodoItem) :
  SQLite.cursor (self s) = true -> next_fault (world s) = None ->
  stored i s = Some r -> parse_row r = Some it ->
  get_task i s = (Ok (Some it), after_call s).
Proof.
  intros Hc Hf Hs Hp. cbn [get_task get_item SQLite.backend].
  now rewrite get_item_eq, Hc, Hf, Hs, Hp.
Qed.

Lemma get_task_none (i : string) (s : SQLite.St) :
  SQLite.cursor (self s) = true -> next_fault (world s) = None ->
  stored i s = None ->
  get_task i s = (Ok None, after_call s).
Proof.
  intros Hc Hf Hs. cbn [get_task get_item SQLite.backend].
  now rewrite get_item_eq, Hc, Hf, Hs.
Qed.

(** [fetch_change_write] returned an item: the backend is open, the row
    under the id read as an item, and the rows under the id now carry the
    changed title and flag and the reading of the clock. *)
Lemma fetch_change_write_file_ok (change : TodoItem -> TodoItem) (i : string)
    (s s' : SQLite.St) (it' : TodoItem) :
  fetch_change_write change i s = (Ok (Some it'), s') ->
  exists r it,
    stored i s = Some r /\ parse_row r = Some it /\
    it' = set_updated_at (clock (world s) (ticks (world s))) (change it) /\
    SQLite.cursor (self s) = true /\ SQLite.conn (self s) = true /\ self s' = self s /\
    next_fault (world s) = None /\
    faults (world s') = tail (tail (faults (world s))) /\
    disk (world s') =
      updated_table (change it) (clock (world s) (ticks (world s))) (disk (world s)).
Proof.
  rewrite fetch_change_write_file, get_item_eq.
  destruct (SQLite.cursor (self s)) eqn:Hc; [| discriminate].
  destruct (next_fault (world s)) eqn:Hf; [discriminate |].
  destruct (stored i s) as [r |] eqn:Hs; [| discriminate].
  destruct (parse_row r) as [it |] eqn:Hp; [| discriminate].
  rewrite update_item_eq. cbn [after_call after_now self world].
  rewrite Hc.
  change (next_fault (set_faults _ _)) with
    (next_fault (set_faults (tail (faults (world s))) (world s))).
  destruct (next_fault (set_faults _ _)); [discriminate |].
  destruct (SQLite.conn (self s)); [| discriminate].
  intros [= <- <-]. exists r, it. cbn. done.
Qed.

Lemma stored_updated (it : TodoItem) (now : datetime) (s s' : SQLite.St) (r : DbRow) :
  disk (world s') = updated_table it now (disk (world s)) ->
  stored (id it) s = Some r ->
  stored (id it) s' =
  Some (mkRow (row_id r) (title it) (if completed it then 1 else 0)
              (row_created_at r) (isoformat now)).
Proof.
  intros Hd Hs. unfold stored in *. rewrite Hd. unfold updated_table.
  rewrite filter_update_same.
  destruct (filter _ (disk (world s))) as [| r0 l]; [discriminate |].
  cbn in Hs. injection Hs as ->. reflexivity.
Qed.

Lemma delete_task_file_ok (i : string) (s s' : SQLite.St) (b : bool) :
  delete_task i s = (Ok b, s') ->
  SQLite.cursor (self s) = true /\ SQLite.conn (self s) = true /\ self s' = self s /\
  next_fault (world s) = None /\
  faults (world s') = tail (faults (world s)) /\
  b = bool_decide (is_Some (stored i s)) /\
  disk (world s') = filter (fun r => SQLite.has_id i r = false) (disk (world s)).
Proof.
  cbn [delete_task delete_item SQLite.backend]. rewrite delete_item_eq.
  destruct (SQLite.cursor (self s)) eqn:Hc; [| discriminate].
  destruct (next_fault (world s)) eqn:Hf; [discriminate |].
  destruct (SQLite.conn (self s)); [| discriminate].
  intros [= <- <-]. cbn. repeat (split; [done |]). split; [| done].
  unfold stored. destruct (filter _ (disk (world s))); reflexivity.
Qed.

Lemma stored_deleted (i j : string) (s s' : SQLite.St) :
  disk (world s') = filter (fun r => SQLite.has_id i r = false) (disk (world s)) ->
  stored i s' = None /\ (j <> i -> stored j s' = stored j s).
Proof.
  intros Hd. unfold stored. rewrite Hd. split.
  - apply Claims.file_delete_removes.
  - intros Hne. now rewrite Claims.file_delete_keeps.
Qed.

Lemma add_task_file_raise (t : string) (c : bool) (s s' : SQLite.St) (e : exn) :
  opened s ->
  add_task t c s = (Raise e, s') -> disk (world s') = disk (world s).
Proof.
  intros (Hc & Hn).
  rewrite add_task_fresh. cbn [add_item SQLite.backend]. rewrite add_item_eq.
  unfold identified. cbn [after_fresh self]. rewrite Hc, Hn.
  destruct (String.eqb (id (fresh_item t c s)) "");
    (destruct (next_fault _); [now intros [= _ <-] |]);
    (destruct (existsb _ _); [now intros [= _ <-] | discriminate]).
Qed.

Lemma stored_none_filter (i : string) (s : SQLite.St) :
  stored i s = None -> filter (fun r => SQLite.has_id i r = true) (disk (world s)) = [].
Proof. unfold stored. now destruct (filter _ _). Qed.

(** Deleting under an id that names no row, on an open backend whose next
    call goes through. *)
Lemma delete_task_absent (i : string) (s : SQLite.St) :
  opened s -> next_fault (world s) = None -> stored i s = None ->
  delete_task i s = (Ok false, after_call s).
Proof.
  intros (Hc & Hn) Hf Hs. cbn [delete_task delete_item SQLite.backend].
  rewrite delete_item_eq, Hc, Hf, Hn. cbv zeta.
  pose proof (stored_none_filter _ _ Hs) as Hnil.
  rewrite Hnil, (filter_none_keeps _ _ Hnil), select_state. reflexivity.
Qed.

Lemma updated_table_absent (item : TodoItem) (now : datetime) (tbl : list DbRow) :
  filter (fun r => SQLite.has_id (id item) r = true) tbl = [] ->
  updated_table item now tbl = tbl.
Proof.
  unfold updated_table. induction tbl as [| r tbl IH]; [done |].
  destruct (SQLite.has_id (id item) r) eqn:Hr.
  - now rewrite filter_cons_True.
  - rewrite filter_cons_False by congruence. intros Hnil. cbn.
    rewrite update_row_miss by congruence. now rewrite <- (IH Hnil) at 2.
Qed.

Lemma patched_created (t : option string) (c : option bool) (it : TodoItem) :
  created_at (patched t c it) = created_at it.
Proof. now destruct t, c. Qed.

Lemma toggled_created (it : TodoItem) : created_at (toggled it) = created_at it.
Proof. reflexivity. Qed.

(** What [fetch_change_write] returned is what [get_task] reads next. *)
Lemma file_change_then_get (change : TodoItem -> TodoItem) (i : string)
    (s s' : SQLite.St) (it' : TodoItem) :
  (forall x, id (change x) = id x) ->
  (forall x, created_at (change x) = created_at x) ->
  fetch_change_write change i s = (Ok (Some it'), s') ->
  next_fault (world s') = None ->
  get_task i s' = (Ok (Some it'), after_call s').
Proof.
  intros Hid Hca E Hf.
  apply fetch_change_write_file_ok in E
    as (r & it & Hs & Hp & -> & Hc & _ & Hself & _ & _ & Hd).
  destruct (stored_has_id _ _ _ Hs) as (Hr & _).
  destruct (parse_row_id _ _ Hp) as (Hi & _).
  assert (Hci : id (change it) = i) by (rewrite Hid; congruence).
  rewrite <- Hci in Hs. pose proof (stored_updated _ _ _ _ _ Hd Hs) as Hs'.
  rewrite Hci in Hs'.
  eapply get_task_reads; [now rewrite Hself | exact Hf | exact Hs' |].
  rewrite (parse_updated_row _ _ _ _ _ Hp). f_equal.
  unfold set_updated_at. rewrite <- Hca, <- Hi, <- Hid. reflexivity.
Qed.

End FileRecordsFacts.

(** ** The table store, call by call *)

Module TableRecordsFacts.
Import TableStore TableRecords WorldFacts ItemFacts AzureFacts DatetimeFacts.
Import FileStoreFacts.
Import (coercions) AzureTable.

Lemma table_get_all_items_cases (s : AzureTable.St) :
  snd (AzureTable.get_all_items s) = s \/
  reads_clock (after_call s) (snd (AzureTable.get_all_items s)).
Proof.
  destruct (AzureTable.get_all_items s) as [res s'] eqn:E. cbn [snd].
  unfold AzureTable.get_all_items in E. unfold bind at 1 in E.
  unfold AzureTable.query_entities_todos in E. unfold bind at 1 in E.
  rewrite request_eq in E.
  destruct (AzureTable.table_client (self s)); [| injection E as _ <-; now left].
  destruct (next_fault (world s)); [injection E as _ <-; right; apply reads_clock_refl |].
  cbv [ret] in E. apply table_for_each_reads in E. now right.
Qed.

Lemma table_get_all_items_reads (s : AzureTable.St) :
  cloud (world (snd (AzureTable.get_all_items s))) = cloud (world s) /\
  (ticks (world s) <= ticks (world (snd (AzureTable.get_all_items s))))%nat.
Proof.
  destruct (table_get_all_items_cases s) as [-> | H]; [split; [done | lia] |].
  apply reads_clock_fields in H as (_ & _ & Hc & _ & _ & Ht).
  now rewrite Hc.
Qed.

(** What one call of the service does to the table: nothing; or one entity
    is created, under a key that was free, stamped with two successive
    readings of the clock; or title, flag and a reading of the clock are
    merged into the entity under one key; or the entity under one key
    goes. *)
Lemma table_step (c : call) (s : AzureTable.St) :
  clock (world (after c s)) = clock (world s) /\
  (ticks (world s) <= ticks (world (after c s)))%nat /\
  (cloud (world (after c s)) = cloud (world s) \/
   (exists it,
      cloud (world (after c s)) =
        <[ ("todos", id it) := create_entity_of it ]> (cloud (world s)) /\
      cloud (world s) !! ("todos", id it) = None /\
      created_at it = clock (world s) (ticks (world s)) /\
      updated_at it = clock (world s) (S (ticks (world s))) /\
      ticks (world (after c s)) = S (S (ticks (world s)))) \/
   (exists i e it k,
      stored i s = Some e /\ id it = i /\
      (ticks (world s) <= k < ticks (world (after c s)))%nat /\
      cloud (world (after c s)) =
        <[ ("todos", i) := update_entity_of it (clock (world s) k) ∪ e ]> (cloud (world s))) \/
   (exists i,
      cloud (world (after c s)) = delete ("todos", i) (cloud (world s)))).
Proof.
  split; [apply table_after_clock |].
  split; [now destruct (table_after_evolves c s) as (_ & Ht & _) |].
  destruct c as [t c | i | | i t c | i | i]; cbn [after].
  - change (add_task t c s) with (AzureTable.add_item (fresh_item t c s) (after_fresh s)).
    rewrite table_add_item_eq. unfold identified.
    destruct (String.eqb (id (fresh_item t c s)) "");
      (destruct (AzureTable.table_client (self (after_fresh s))); [| now left]);
      (destruct (next_fault (world (after_fresh s))); [now left |]);
      (destruct (cloud (world (after_fresh s)) !! _) eqn:Hl; [now left |]);
      right; left; eexists; (split; [reflexivity |]); (split; [exact Hl |]); done.
  - cbn [get_task get_item AzureTable.backend].
    destruct (AzureTable.get_item i s) as [res s'] eqn:E.
    destruct (get_item_cases _ _ _ _ E) as (Hc & _). now left.
  - cbn [get_all_tasks get_all_items AzureTable.backend].
    left. apply table_get_all_items_reads.
  - rewrite update_task_shape.
    destruct (fetch_change_write (patched t c) i s) as [res s'] eqn:E.
    destruct (table_fetch_change_write_cases _ _ _ _ _ (patched_id t c) E)
      as (_ & _ & [[Hd _] | (e & it & k & Hs & Hi & _ & _ & _ & _ & Hk & Hd & _)]);
      cbn [snd]; [now left |].
    right; right; left. exists i, e, (patched t c it), k.
    rewrite patched_id. done.
  - rewrite toggle_task_shape.
    destruct (fetch_change_write toggled i s) as [res s'] eqn:E.
    destruct (table_fetch_change_write_cases _ _ _ _ _ toggled_id E)
      as (_ & _ & [[Hd _] | (e & it & k & Hs & Hi & _ & _ & _ & _ & Hk & Hd & _)]);
      cbn [snd]; [now left |].
    right; right; left. exists i, e, (toggled it), k.
    rewrite toggled_id. done.
  - cbn [delete_task delete_item AzureTable.backend].
    rewrite table_delete_item_eq, delete_entity_eq. cbn [snd].
    destruct (AzureTable.table_client (self s)); [| now left].
    destruct (next_fault (world s)); [now left |].
    destruct (cloud (world s) !! ("todos", i)) eqn:El; [| now left].
    right; right; right. now exists i.
Qed.

(** Merging an update into the entity of an item gives the entity of the
    updated item. *)
Lemma merge_entity (it it0 : TodoItem) (now : datetime) :
  update_entity_of it now ∪ create_entity_of it0 =
  create_entity_of (mkTodoItem (id it) (title it) (completed it) (created_at it0) now).
Proof. reflexivity. Qed.

Lemma well_formed_after (c : call) (s : AzureTable.St) :
  well_formed s -> well_formed (after c s).
Proof.
  intros Hinv. unfold well_formed.
  destruct (table_step c s) as
    (_ & _ & [-> | [(it & -> & _) | [(i & e & it & n & Hs & Hi & _ & ->) | (i & ->)]]]);
    intros k e' Hl.
  - now apply Hinv.
  - destruct (decide (k = ("todos", id it))) as [-> | Hne].
    + rewrite lookup_insert_eq in Hl. injection Hl as <-. now exists it.
    + rewrite lookup_insert_ne in Hl by done. now apply Hinv.
  - destruct (decide (k = ("todos", i))) as [-> | Hne].
    + rewrite lookup_insert_eq in Hl. injection Hl as <-.
      destruct (Hinv _ _ Hs) as (it0 & _ & ->).
      eexists. rewrite merge_entity. split; [| reflexivity].
      cbn [id]. congruence.
    + rewrite lookup_insert_ne in Hl by done. now apply Hinv.
  - apply lookup_delete_Some in Hl as [_ Hl]. now apply Hinv.
Qed.

Lemma well_formed_reachable (s : AzureTable.St) : reachable s -> well_formed s.
Proof.
  induction 1 as [s Hempty | c s Hreach IH].
  - destruct (table_initialize_cloud s) as (Hd & _ & _).
    intros k e Hl. cbn [TodoService_init initialize AzureTable.backend] in Hl.
    rewrite Hd, Hempty in Hl. now rewrite lookup_empty in Hl.
  - now apply well_formed_after.
Qed.

Lemma table_ordered_stamps_after (c : call) (s : AzureTable.St) :
  clock_monotone (world s) -> ordered_stamps s -> ordered_stamps (after c s).
Proof.
  intros Hmono Hinv. unfold ordered_stamps.
  destruct (table_step c s) as
    (Hc & Ht & [Hd | [(it & Hd & _ & Hca & Hua & Ht') |
                      [(i & e & it & n & Hs & Hi & Hn & Hd) | (i & Hd)]]]);
    rewrite Hc, Hd; intros k e' Hl.
  - destruct (Hinv _ _ Hl) as (it & He & Hle & Hfut). exists it.
    split; [done |]. split; [done |]. intros j Hj. apply Hfut. lia.
  - destruct (decide (k = ("todos", id it))) as [-> | Hne].
    + rewrite lookup_insert_eq in Hl. injection Hl as <-. exists it.
      split; [done |]. rewrite Hca, Hua.
      split; [apply Hmono; lia |]. intros j Hj. apply Hmono. lia.
    + rewrite lookup_insert_ne in Hl by done.
      destruct (Hinv _ _ Hl) as (it0 & He & Hle & Hfut). exists it0.
      split; [done |]. split; [done |]. intros j Hj. apply Hfut. lia.
  - destruct (decide (k = ("todos", i))) as [-> | Hne].
    + rewrite lookup_insert_eq in Hl. injection Hl as <-.
      destruct (Hinv _ _ Hs) as (it0 & -> & Hle & Hfut).
      eexists. rewrite merge_entity. split; [reflexivity |].
      cbn [created_at updated_at]. split.
      * eapply FileRecordsFacts.dt_le_trans; [exact Hle |]. apply Hfut. lia.
      * intros j Hj. apply Hmono. lia.
    + rewrite lookup_insert_ne in Hl by done.
      destruct (Hinv _ _ Hl) as (it0 & He & Hle & Hfut). exists it0.
      split; [done |]. split; [done |]. intros j Hj. apply Hfut. lia.
  - apply lookup_delete_Some in Hl as [_ Hl].
    destruct (Hinv _ _ Hl) as (it0 & He & Hle & Hfut). exists it0.
    split; [done |]. split; [done |]. intros j Hj. apply Hfut. lia.
Qed.

Lemma table_ordered_stamps_reachable (s : AzureTable.St) :
  reachable s -> clock_monotone (world s) -> ordered_stamps s.
Proof.
  induction 1 as [s Hempty | c s Hreach IH]; intros Hmono.
  - destruct (table_initialize_cloud s) as (Hd & _ & _).
    intros k e Hl. cbn [TodoService_init initialize AzureTable.backend] in Hl.
    rewrite Hd, Hempty in Hl. now rewrite lookup_empty in Hl.
  - assert (Hmono' : clock_monotone (world s)).
    { unfold clock_monotone in *. now rewrite <- (table_after_clock c s). }
    now apply table_ordered_stamps_after; [| apply IH].
Qed.

(** *** Entities and items *)

Lemma create_entity_of_fields (item : TodoItem) :
  create_entity_of item !! "PartitionKey" = Some (VStr "todos") /\
  create_entity_of item !! "RowKey" = Some (VStr (id item)) /\
  create_entity_of item !! "title" = Some (VStr (title item)) /\
  create_entity_of item !! "completed" = Some (VBool (completed item)).
Proof. repeat split. Qed.

Lemma isoformat_inj (a b : datetime) : isoformat a = isoformat b -> a = b.
Proof.
  intros H. apply (f_equal fromisoformat) in H.
  rewrite !fromisoformat_isoformat in H. now injection H.
Qed.

Lemma create_entity_of_inj (a b : TodoItem) :
  create_entity_of a = create_entity_of b -> a = b.
Proof.
  intros H.
  destruct (create_entity_of_fields a) as (_ & Ha1 & Ha2 & Ha3).
  destruct (create_entity_of_lookup a) as (Ha4 & Ha5).
  rewrite H in Ha1, Ha2, Ha3, Ha4, Ha5.
  destruct (create_entity_of_fields b) as (_ & Hb1 & Hb2 & Hb3).
  destruct (create_entity_of_lookup b) as (Hb4 & Hb5).
  rewrite Hb1 in Ha1. rewrite Hb2 in Ha2. rewrite Hb3 in Ha3.
  rewrite Hb4 in Ha4. rewrite Hb5 in Ha5.
  assert (E1 : id b = id a) by congruence.
  assert (E2 : title b = title a) by congruence.
  assert (E3 : completed b = completed a) by congruence.
  assert (E4 : created_at b = created_at a) by (apply isoformat_inj; congruence).
  assert (E5 : updated_at b = updated_at a) by (apply isoformat_inj; congruence).
  destruct a, b. cbn in *. congruence.
Qed.

(** The mapping the backend builds from the entity of an item is the
    serialized form of the item. *)
Lemma entity_dict_of_item (item : TodoItem) (s : AzureTable.St) :
  AzureTable.entity_dict (create_entity_of item) s = (Ok (to_dict item), s) /\
  AzureTable.entity_dict
    (<[ "PartitionKey" := VStr "todos" ]>
       (<[ "RowKey" := VStr (id item) ]> (create_entity_of item))) s
  = (Ok (to_dict item), s).
Proof. split; reflexivity. Qed.

Lemma from_dict_to_dict {B} (item : TodoItem) (s : Sys B) :
  from_dict (to_dict item) s = (Ok item, s).
Proof.
  rewrite to_dict_five, from_dict_five, !fromisoformat_isoformat. now destruct item.
Qed.

(** On a bound client whose next request goes through, [get_item] gives the
    item of the stored entity. *)
Lemma table_get_item_entity (item : TodoItem) (s : AzureTable.St) :
  AzureTable.table_client (self s) = true -> next_fault (world s) = None ->
  stored (id item) s = Some (create_entity_of item) ->
  AzureTable.get_item (id item) s = (Ok (Some item), after_call s).
Proof.
  intros Hc Hf Hs. unfold AzureTable.get_item, try_except. unfold bind at 1.
  rewrite get_entity_eq, Hc, Hf. unfold stored in Hs. rewrite Hs.
  unfold bind at 1.
  destruct (entity_dict_of_item item (after_call s)) as (_ & ->).
  unfold bind. now rewrite from_dict_to_dict.
Qed.

(** [get_item] answers [None], and never raises, when the client is not
    bound or the request fails. *)
Lemma table_get_item_masked (i : string) (s : AzureTable.St) :
  (AzureTable.table_client (self s) = false -> AzureTable.get_item i s = (Ok None, s)) /\
  (forall e, AzureTable.table_client (self s) = true -> next_fault (world s) = Some e ->
     AzureTable.get_item i s = (Ok None, after_call s)).
Proof.
  split.
  - intros Hc. unfold AzureTable.get_item, try_except. unfold bind at 1.
    now rewrite get_entity_eq, Hc.
  - intros e Hc Hf. unfold AzureTable.get_item, try_except. unfold bind at 1.
    now rewrite get_entity_eq, Hc, Hf.
Qed.

Lemma table_add_task_ok (t : string) (c : bool) (s s' : AzureTable.St) (it : TodoItem) :
  add_task t c s = (Ok it, s') ->
  AzureTable.table_client (self s) = true /\ self s' = self s /\
  next_fault (world s) = None /\
  faults (world s') = tail (faults (world s)) /\
  cloud (world s) !! ("todos", id it) = None /\
  cloud (world s') = <[ ("todos", id it) := create_entity_of it ]> (cloud (world s)) /\
  title it = t /\ completed it = c.
Proof.
  change (add_task t c s) with (AzureTable.add_item (fresh_item t c s) (after_fresh s)).
  rewrite table_add_item_eq. unfold identified.
  destruct (String.eqb (id (fresh_item t c s)) "");
    (destruct (AzureTable.table_client (self (after_fresh s))) eqn:Hc; [| discriminate]);
    (destruct (next_fault (world (after_fresh s))) eqn:Hf; [discriminate |]);
    (destruct (cloud (world (after_fresh s)) !! _) eqn:Hl; [discriminate |]);
    intros [= <- <-]; cbn in *; done.
Qed.

Lemma table_add_task_raise (t : string) (c : bool) (s s' : AzureTable.St) (e : exn) :
  add_task t c s = (Raise e, s') -> cloud (world s') = cloud (world s).
Proof.
  change (add_task t c s) with (AzureTable.add_item (fresh_item t c s) (after_fresh s)).
  rewrite table_add_item_eq. unfold identified.
  destruct (String.eqb (id (fresh_item t c s)) "");
    (destruct (AzureTable.table_client (self (after_fresh s))); [| now intros [= _ <-]]);
    (destruct (next_fault (world (after_fresh s))); [now intros [= _ <-] |]);
    (destruct (cloud (world (after_fresh s)) !! _); [now intros [= _ <-] | discriminate]).
Qed.

(** [fetch_change_write] when the entity of an item is stored under the
    id: it returns an item exactly when the client is bound and both requests
    go through, and then the entity of the returned item is what is
    stored. *)
Lemma table_fetch_change_write_ok (change : TodoItem -> TodoItem) (it0 : TodoItem)
    (s s' : AzureTable.St) (it' : TodoItem) :
  id (change it0) = id it0 -> created_at (change it0) = created_at it0 ->
  stored (id it0) s = Some (create_entity_of it0) ->
  fetch_change_write change (id it0) s = (Ok (Some it'), s') ->
  it' = set_updated_at (clock (world s) (ticks (world s))) (change it0) /\
  AzureTable.table_client (self s) = true /\ self s' = self s /\
  next_fault (world s) = None /\
  faults (world s') = tail (tail (faults (world s))) /\
  cloud (world s') = <[ ("todos", id it0) := create_entity_of it' ]> (cloud (world s)).
Proof.
  intros Hid Hca Hs. rewrite fetch_change_write_table.
  destruct (AzureTable.table_client (self s)) eqn:Hc.
  2:{ destruct (table_get_item_masked (id it0) s) as (H & _). now rewrite H. }
  destruct (next_fault (world s)) eqn:Hf.
  { destruct (table_get_item_masked (id it0) s) as (_ & H). now rewrite (H e). }
  rewrite table_get_item_entity by done.
  rewrite table_update_item_eq. cbn [after_call after_now self world].
  rewrite Hc.
  change (next_fault (set_faults _ _)) with
    (next_fault (set_faults (tail (faults (world s))) (world s))).
  destruct (next_fault (set_faults _ _)); [discriminate |].
  cbn [cloud set_ticks set_faults]. rewrite Hid. unfold stored in Hs. rewrite Hs.
  intros [= <- <-]. cbn [world self cloud ticks clock faults set_cloud set_faults set_ticks].
  repeat (split; [done |]).
  rewrite merge_entity. do 2 f_equal.
  destruct (change it0) as [i t c ca ua]. unfold set_updated_at. cbn in *. congruence.
Qed.

Lemma table_delete_task_ok (i : string) (s s' : AzureTable.St) :
  delete_task i s = (Ok true, s') ->
  AzureTable.table_client (self s) = true /\ self s' = self s /\
  next_fault (world s) = None /\
  faults (world s') = tail (faults (world s)) /\
  cloud (world s') = delete ("todos", i) (cloud (world s)).
Proof.
  cbn [delete_task delete_item AzureTable.backend].
  rewrite table_delete_item_eq, delete_entity_eq.
  destruct (AzureTable.table_client (self s)); [| discriminate].
  destruct (next_fault (world s)) eqn:Hf; [discriminate |].
  destruct (cloud (world s) !! ("todos", i)) eqn:Hl.
  - intros [= <-]. now cbn.
  - destruct (delete_missing_raises (world s)); [discriminate |].
    intros [= <-]. cbn. repeat (split; [done |]).
    symmetry. now apply delete_id.
Qed.

(** Deleting under an id that names no entity: never an exception, and
    [False] whenever the client reports a missing entity as a fault. *)
Lemma table_delete_task_absent (i : string) (s : AzureTable.St) :
  stored i s = None ->
  exists b, fst (delete_task i s) = Ok b /\
            (delete_missing_raises (world s) = true -> b = false) /\
            cloud (world (snd (delete_task i s))) = cloud (world s).
Proof.
  intros Hs. cbn [delete_task delete_item AzureTable.backend].
  rewrite table_delete_item_eq, delete_entity_eq. unfold stored in Hs. rewrite Hs.
  eexists. split; [reflexivity |].
  destruct (AzureTable.table_client (self s)); [| now cbn].
  destruct (next_fault (world s)); [now cbn |].
  split; [| now cbn]. now intros ->.
Qed.

(** What [fetch_change_write] returned is what [get_task] reads next, when
    the entities are those of items. *)
Lemma table_change_then_get (change : TodoItem -> TodoItem) (i : string)
    (s s' : AzureTable.St) (it' : TodoItem) :
  (forall x, id (change x) = id x) ->
  (forall x, created_at (change x) = created_at x) ->
  well_formed s ->
  fetch_change_write change i s = (Ok (Some it'), s') ->
  next_fault (world s') = None ->
  get_task i s' = (Ok (Some it'), after_call s').
Proof.
  intros Hid Hca Hwf E Hf.
  assert (exists e, stored i s = Some e) as (e & Hs).
  { destruct (table_fetch_change_write_cases _ _ _ _ _ Hid E)
      as (_ & _ & [[_ Hn] | (e & _ & _ & Hs & _)]); [now destruct (Hn it') | eauto]. }
  destruct (Hwf _ _ Hs) as (it0 & [= ->] & ->).
  apply table_fetch_change_write_ok in E as (-> & Hc & Hself & _ & _ & Hd); auto.
  cbn [get_task get_item AzureTable.backend].
  assert (Hi : id it0 = id (set_updated_at (clock (world s) (ticks (world s))) (change it0))).
  { cbn. now rewrite Hid. }
  rewrite Hi. apply table_get_item_entity; [now rewrite Hself | exact Hf |].
  unfold stored. rewrite Hd, <- Hi. apply lookup_insert_eq.
Qed.

(** A backend that [__init__] returned has no client yet. *)
Lemma init_unbound (cs : option string) (tn : string) (an au : option string)
    (wi : bool) (w : World) (be : AzureTable.AzureTableTodoBackend) :
  AzureTable.init cs tn an au wi w = Ok be -> AzureTable.table_client be = false.
Proof.
  unfold AzureTable.init.
  destruct (negb (AZURE_AVAILABLE w)); [discriminate |].
  repeat match goal with
         | |- context [if ?b then _ else _] => destruct b
         end; try discriminate; now intros [= <-].
Qed.

(** *** Listing the table *)

Lemma table_for_each_items (items : list TodoItem) (s : AzureTable.St) :
  for_each (fun entity => data <- AzureTable.entity_dict entity ;; from_dict data)
           (create_entity_of <$> items) s
  = (Ok items, s).
Proof.
  induction items as [| it items IH]; [reflexivity |].
  rewrite fmap_cons. cbn [for_each]. unfold bind at 1. unfold bind at 1.
  rewrite (proj1 (entity_dict_of_item it s)), from_dict_to_dict.
  unfold bind at 1. now rewrite IH.
Qed.

Lemma entries_of_items (l : list (string * string * dict)) :
  (forall k e, (k, e) ∈ l ->
     exists item, k = ("todos", id item) /\ e = create_entity_of item) ->
  exists items, l = (fun it => ("todos", id it, create_entity_of it)) <$> items.
Proof.
  induction l as [| [k e] l IH]; intros H.
  - now exists [].
  - destruct (H k e) as (it & -> & ->); [left |].
    destruct IH as (items & ->).
    { intros k' e' Hin. apply H. now right. }
    now exists (it :: items).
Qed.

(** When the entities are those of items, the listing is made of the
    entities of the stored items, each once. *)
Lemma table_listed (s : AzureTable.St) :
  well_formed s ->
  exists items,
    listed s = create_entity_of <$> items /\ NoDup items /\
    length items = size (cloud (world s)) /\
    forall it, it ∈ items <-> stored (id it) s = Some (create_entity_of it).
Proof.
  intros Hwf.
  assert (Hfil : filter (fun kv : string * string * dict => fst (fst kv) = "todos")
                        (cloud (world s)) = cloud (world s)).
  { apply map_filter_id. intros k e Hl. now destruct (Hwf _ _ Hl) as (it & -> & _). }
  unfold listed. rewrite Hfil.
  destruct (entries_of_items (map_to_list (cloud (world s)))) as (items & Hl).
  { intros k e Hin. apply elem_of_map_to_list in Hin. now apply Hwf. }
  exists items. split; [| split; [| split]].
  - rewrite Hl, <- list_fmap_compose. reflexivity.
  - eapply NoDup_fmap_1. rewrite <- Hl. apply NoDup_map_to_list.
  - now rewrite <- (length_map_to_list (cloud (world s))), Hl, length_fmap.
  - intros it. unfold stored. rewrite <- elem_of_map_to_list, Hl. split.
    + intros Hin.
      now apply (list_elem_of_fmap_2 (fun it => ("todos", id it, create_entity_of it))).
    + intros Hin. apply list_elem_of_fmap in Hin as (it' & Heq & Hin').
      apply (f_equal snd) in Heq. cbn [snd] in Heq.
      apply create_entity_of_inj in Heq. now subst.
Qed.

Lemma table_get_all_items_listed (s : AzureTable.St) :
  AzureTable.table_client (self s) = true -> next_fault (world s) = None ->
  AzureTable.get_all_items s =
  for_each (fun entity => data <- AzureTable.entity_dict entity ;; from_dict data)
           (listed s) (after_call s).
Proof.
  intros Hc Hf. unfold AzureTable.get_all_items. unfold bind at 1.
  unfold AzureTable.query_entities_todos. unfold bind at 1.
  now rewrite request_eq, Hc, Hf.
Qed.

(** What [get_task] returned on the table store is read from the stored
    entity. *)
Lemma table_get_task_item (i : string) (s s' : AzureTable.St) (it item : TodoItem) :
  get_task i s = (Ok (Some it), s') ->
  stored i s = Some (create_entity_of item) ->
  created_at it = created_at item /\ updated_at it = updated_at item /\
  title it = title item /\ completed it = completed item.
Proof.
  intros E Hs. cbn [get_task get_item AzureTable.backend] in E.
  destruct (get_item_cases _ _ _ _ E) as (_ & _ & _ & _ & [H | H]); [discriminate |].
  destruct H as (it1 & e & [= <-] & Hs' & _ & Ht & Hco & Hca & Hua).
  rewrite Hs in Hs'. injection Hs' as <-.
  destruct (create_entity_of_lookup item) as (Lc & Lu).
  destruct (create_entity_of_fields item) as (_ & _ & Lt & Lco).
  specialize (Hca _ Lc). specialize (Hua _ Lu).
  rewrite fromisoformat_isoformat in Hca, Hua.
  rewrite Lt in Ht. rewrite Lco in Hco.
  repeat split; congruence.
Qed.

End TableRecordsFacts.


(** ** The HTTP API *)

Module ApiFacts.
Import Api WorldFacts SQLiteFacts AzureFacts.

Lemma file_initialize_eq (s : SQLite.St) :
  SQLite.initialize s =
  (match next_fault (world s) with Some e => Raise e | None => Ok tt end,
   mkSys (world (after_call s)) (SQLite.mkBackend (SQLite.db_path (self s)) true true)).
Proof.
  unfold SQLite.initialize, bind, get_self, set_self. cbn [fst snd world self].
  unfold SQLite.commit, bind, get_self.
  rewrite execute_eq. cbn [self world SQLite.cursor SQLite.conn after_call].
  destruct (next_fault (world s)); reflexivity.
Qed.


(** The world once one storage call has been answered. *)
Lemma after_call_world {B} (w : World) (be : B) :
  world (after_call (mkSys w be)) = set_faults (tail (faults w)) w.
Proof. reflexivity. Qed.

(** The service over the file store. *)
Lemma get_todo_service_file (w : World) :
  azure_selected w = false ->
  get_todo_service w =
  (match next_fault w with
   | Some e => Raise e
   | None => Ok (FileService (SQLite.mkBackend
                                (default "todo.db" (environ w !! "SQLITE_DB_PATH"))
                                true true))
   end,
   set_faults (tail (faults w)) w).
Proof.
  unfold azure_selected. intros Hsel.
  unfold get_todo_service, bind, getenv, azure_available. rewrite Hsel.
  unfold ret at 1. unfold call_on, TodoService_init.
  cbn [initialize SQLite.backend]. rewrite file_initialize_eq.
  cbn [world self after_call SQLiteTodoBackend_init SQLite.db_path].
  now destruct (next_fault w).
Qed.





End ApiFacts.

(** * Further properties, stated *)

Module Properties.
Import WorldFacts ItemFacts DatetimeFacts FileStoreFacts AzureFacts.
Import FileRecordsFacts TableRecordsFacts SampleFacts.
Import ApiFacts.

(** X1. On either backend, a task that [add_task] returned is read back
    unchanged by [get_task] under its id, when the request of [get_task]
    goes through. *)
Theorem add_then_get :
  (forall (t : string) (c : bool) (s s' : SQLite.St) (it : TodoItem),
     add_task t c s = (Ok it, s') -> next_fault (world s') = None ->
     get_task (id it) s' = (Ok (Some it), after_call s')) /\
  (forall (t : string) (c : bool) (s s' : AzureTable.St) (it : TodoItem),
     add_task t c s = (Ok it, s') -> next_fault (world s') = None ->
     get_task (id it) s' = (Ok (Some it), after_call s')).
Proof.
  split; intros t c s s' it E Hf.
  - apply add_task_file_ok in E as (Hc & _ & Hself & _ & _ & Hex & Hd & _).
    destruct (stored_append (id it) s s' (SQLite.item_row it) Hd Hex) as (_ & Hs & _).
    eapply get_task_reads; [now rewrite Hself | exact Hf | exact Hs |].
    apply parse_item_row.
  - apply table_add_task_ok in E as (Hc & Hself & _ & _ & _ & Hd & _).
    apply table_get_item_entity; [now rewrite Hself | exact Hf |].
    unfold TableStore.stored. rewrite Hd. apply lookup_insert_eq.
Qed.

(** The first task of the sample services is read back. *)
Lemma add_then_get_witness :
  (exists it,
     fst (add_task "Buy milk" false sample_file) = Ok it /\
     fst (get_task (id it) (snd (add_task "Buy milk" false sample_file))) = Ok (Some it)) /\
  (exists it,
     fst (add_task "Buy milk" false sample_table) = Ok it /\
     fst (get_task (id it) (snd (add_task "Buy milk" false sample_table))) = Ok (Some it)).
Proof.
  split.
  - assert (E : exists it, fst (add_task "Buy milk" false sample_file) = Ok it)
      by (eexists; vm_compute; reflexivity).
    destruct E as [it E]. exists it. split; [exact E |].
    assert (Hf : next_fault (world (snd (add_task "Buy milk" false sample_file))) = None)
      by (vm_compute; reflexivity).
    now rewrite (proj1 add_then_get _ _ _ _ _ (pair_fst _ _ E) Hf).
  - assert (E : exists it, fst (add_task "Buy milk" false sample_table) = Ok it)
      by (eexists; vm_compute; reflexivity).
    destruct E as [it E]. exists it. split; [exact E |].
    assert (Hf : next_fault (world (snd (add_task "Buy milk" false sample_table))) = None)
      by (vm_compute; reflexivity).
    now rewrite (proj2 add_then_get _ _ _ _ _ (pair_fst _ _ E) Hf).
Defined.

(** X2. [add_task] never overwrites: when it returns an item, nothing was
    stored under the item's id before, the record of the item is stored
    under it afterwards, the records under the other ids are as they were,
    and there is one record more.  When it raises, on an initialized file
    store or on the table store in any state, nothing was written. *)
Theorem add_task_frame :
  (forall (t : string) (c : bool) (s s' : SQLite.St) (it : TodoItem),
     add_task t c s = (Ok it, s') ->
     FileStore.stored (id it) s = None /\
     FileStore.stored (id it) s' = Some (SQLite.item_row it) /\
     (forall j, j <> id it -> FileStore.stored j s' = FileStore.stored j s) /\
     length (disk (world s')) = S (length (disk (world s)))) /\
  (forall (t : string) (c : bool) (s s' : SQLite.St) (e : exn),
     FileStore.opened s -> add_task t c s = (Raise e, s') ->
     disk (world s') = disk (world s)) /\
  (forall (t : string) (c : bool) (s s' : AzureTable.St) (it : TodoItem),
     add_task t c s = (Ok it, s') ->
     TableStore.stored (id it) s = None /\
     TableStore.stored (id it) s' = Some (TableStore.create_entity_of it) /\
     (forall j, j <> id it -> TableStore.stored j s' = TableStore.stored j s) /\
     size (cloud (world s')) = S (size (cloud (world s)))) /\
  (forall (t : string) (c : bool) (s s' : AzureTable.St) (e : exn),
     add_task t c s = (Raise e, s') -> cloud (world s') = cloud (world s)).
Proof.
  split; [| split; [| split]].
  - intros t c s s' it E.
    apply add_task_file_ok in E as (_ & _ & _ & _ & _ & Hex & Hd & _).
    destruct (stored_append (id it) s s' (SQLite.item_row it) Hd Hex) as (H1 & H2 & _).
    split; [exact H1 |]. split; [exact H2 |]. split.
    + intros j Hj. now apply (stored_append j s s' (SQLite.item_row it) Hd Hex).
    + rewrite Hd, length_app. cbn. lia.
  - intros t c s s' e. apply add_task_file_raise.
  - intros t c s s' it E.
    apply table_add_task_ok in E as (_ & _ & _ & _ & Hl & Hd & _).
    unfold TableStore.stored. rewrite Hd.
    split; [exact Hl |]. split; [apply lookup_insert_eq |]. split.
    + intros j Hj. apply lookup_insert_ne. congruence.
    + now apply map_size_insert_None.
  - intros t c s s' e. apply table_add_task_raise.
Qed.

Lemma add_task_frame_witness :
  exists it,
    fst (add_task "Call home" false sample_file_two) = Ok it /\
    FileStore.stored (id it) sample_file_two = None /\
    FileStore.stored "task-0000" (snd (add_task "Call home" false sample_file_two)) =
    FileStore.stored "task-0000" sample_file_two /\
    length (disk (world (snd (add_task "Call home" false sample_file_two)))) = 3%nat.
Proof.
  assert (E : exists it, fst (add_task "Call home" false sample_file_two) = Ok it /\
                         id it = "task-0002")
    by (eexists; vm_compute; split; reflexivity).
  destruct E as (it & E & Hi). exists it. split; [exact E |].
  destruct (proj1 add_task_frame _ _ _ _ _ (pair_fst _ _ E)) as (H1 & _ & H3 & H4).
  split; [exact H1 |]. split; [apply H3; rewrite Hi; discriminate |].
  rewrite H4. vm_compute. reflexivity.
Defined.

(** X3. On either backend, the item that [update_task] or [toggle_task]
    returned is what [get_task] returns next under the id, when the request
    of [get_task] goes through (on the table store: in a state whose
    entities are those of items, as every state reached from an empty table
    is). *)
Theorem update_then_get :
  (forall (i : string) (t : option string) (c : option bool) (s s' : SQLite.St)
          (it : TodoItem),
     update_task i t c s = (Ok (Some it), s') \/ toggle_task i s = (Ok (Some it), s') ->
     next_fault (world s') = None ->
     get_task i s' = (Ok (Some it), after_call s')) /\
  (forall (i : string) (t : option string) (c : option bool) (s s' : AzureTable.St)
          (it : TodoItem),
     TableRecords.well_formed s ->
     update_task i t c s = (Ok (Some it), s') \/ toggle_task i s = (Ok (Some it), s') ->
     next_fault (world s') = None ->
     get_task i s' = (Ok (Some it), after_call s')).
Proof.
  split.
  - intros i t c s s' it [E | E] Hf.
    + rewrite update_task_shape in E.
      eapply file_change_then_get; eauto using patched_id, patched_created.
    + rewrite toggle_task_shape in E.
      eapply file_change_then_get; eauto using toggled_id, toggled_created.
  - intros i t c s s' it Hwf [E | E] Hf.
    + rewrite update_task_shape in E.
      eapply table_change_then_get; eauto using patched_id, patched_created.
    + rewrite toggle_task_shape in E.
      eapply table_change_then_get; eauto using toggled_id, toggled_created.
Qed.

Lemma update_then_get_witness :
  (exists it,
     fst (update_task "task-0000" (Some "Buy oat milk") None sample_file_two) = Ok (Some it) /\
     fst (get_task "task-0000"
            (snd (update_task "task-0000" (Some "Buy oat milk") None sample_file_two)))
     = Ok (Some it)) /\
  (exists it,
     fst (toggle_task "task-0000" sample_table_two) = Ok (Some it) /\
     fst (get_task "task-0000" (snd (toggle_task "task-0000" sample_table_two)))
     = Ok (Some it)).
Proof.
  split.
  - assert (E : exists it,
               fst (update_task "task-0000" (Some "Buy oat milk") None sample_file_two)
               = Ok (Some it))
      by (eexists; vm_compute; reflexivity).
    destruct E as [it E]. exists it. split; [exact E |].
    assert (Hf : next_fault (world (snd (update_task "task-0000" (Some "Buy oat milk") None
                                           sample_file_two))) = None)
      by (vm_compute; reflexivity).
    now rewrite (proj1 update_then_get _ _ _ _ _ _ (or_introl (pair_fst _ _ E)) Hf).
  - assert (E : exists it, fst (toggle_task "task-0000" sample_table_two) = Ok (Some it))
      by (eexists; vm_compute; reflexivity).
    destruct E as [it E]. exists it. split; [exact E |].
    assert (Hf : next_fault (world (snd (toggle_task "task-0000" sample_table_two))) = None)
      by (vm_compute; reflexivity).
    assert (Hwf : TableRecords.well_formed sample_table_two).
    { apply well_formed_reachable. unfold sample_table_two, sample_table.
      do 2 apply TableStore.reach_call. now apply TableStore.reach_new. }
    now rewrite (proj2 update_then_get "task-0000" None None _ _ _ Hwf
                   (or_intror (pair_fst _ _ E)) Hf).
Defined.

(** X4. A deleted task is gone.  File store: after [delete_task] returned,
    [get_task] under the id returns the absent value and a second
    [delete_task] returns false, when their calls to the engine go through.
    Table store: after [delete_task] returned true, [get_task] under the id
    returns the absent value, and a second [delete_task] does not raise and
    returns false whenever the client reports a missing entity as a
    fault. *)
Theorem delete_then_gone :
  (forall (i : string) (s s' : SQLite.St) (b : bool),
     delete_task i s = (Ok b, s') -> next_fault (world s') = None ->
     FileStore.stored i s' = None /\
     get_task i s' = (Ok None, after_call s') /\
     delete_task i s' = (Ok false, after_call s')) /\
  (forall (i : string) (s s' : AzureTable.St),
     delete_task i s = (Ok true, s') ->
     TableStore.stored i s' = None /\
     fst (get_task i s') = Ok None /\
     exists b, fst (delete_task i s') = Ok b /\
               (delete_missing_raises (world s') = true -> b = false)).
Proof.
  split.
  - intros i s s' b E Hf.
    apply delete_task_file_ok in E as (Hc & Hn & Hself & _ & _ & _ & Hd).
    destruct (stored_deleted i i s s' Hd) as (Hs & _).
    split; [exact Hs |]. split.
    + apply get_task_none; [now rewrite Hself | exact Hf | exact Hs].
    + apply delete_task_absent; [split; now rewrite Hself | exact Hf | exact Hs].
  - intros i s s' E.
    apply table_delete_task_ok in E as (_ & _ & _ & _ & Hd).
    assert (Hs : TableStore.stored i s' = None).
    { unfold TableStore.stored. rewrite Hd. apply lookup_delete_eq. }
    split; [exact Hs |]. split.
    + now destruct (table_not_found i None None s' Hs) as ((H & _) & _).
    + destruct (table_delete_task_absent i s' Hs) as (b & H1 & H2 & _). eauto.
Qed.

Lemma delete_then_gone_witness :
  (exists b,
     fst (delete_task "task-0001" sample_file_two) = Ok b /\
     fst (get_task "task-0001" (snd (delete_task "task-0001" sample_file_two))) = Ok None /\
     fst (delete_task "task-0001" (snd (delete_task "task-0001" sample_file_two)))
     = Ok false) /\
  fst (get_task "task-0001" (snd (delete_task "task-0001" sample_table_two))) = Ok None.
Proof.
  split.
  - assert (E : exists b, fst (delete_task "task-0001" sample_file_two) = Ok b)
      by (eexists; vm_compute; reflexivity).
    destruct E as [b E]. exists b. split; [exact E |].
    assert (Hf : next_fault (world (snd (delete_task "task-0001" sample_file_two))) = None)
      by (vm_compute; reflexivity).
    destruct (proj1 delete_then_gone _ _ _ _ (pair_fst _ _ E) Hf) as (_ & -> & ->).
    now split.
  - assert (E : fst (delete_task "task-0001" sample_table_two) = Ok true)
      by (vm_compute; reflexivity).
    now destruct (proj2 delete_then_gone _ _ _ (pair_fst _ _ E)) as (_ & H & _).
Defined.

(** X5. The file store never holds two rows under one id: every call of the
    service keeps the ids of the table distinct, so they are distinct in
    every state reached from an empty table; and with distinct ids every
    stored row is the only row under its id, the one [get_task] reads. *)
Theorem file_ids_unique :
  (forall (c : call) (s : SQLite.St),
     FileRecords.unique_ids s -> FileRecords.unique_ids (after c s)) /\
  (forall s : SQLite.St, FileStore.reachable s -> FileRecords.unique_ids s) /\
  (forall (s : SQLite.St) (r : DbRow),
     FileRecords.unique_ids s -> r ∈ disk (world s) ->
     filter (fun x => SQLite.has_id (row_id r) x = true) (disk (world s)) = [r] /\
     FileStore.stored (row_id r) s = Some r).
Proof.
  split; [exact unique_ids_after |]. split; [exact unique_ids_reachable |].
  intros s r Hu Hin. pose proof (unique_ids_filter _ _ Hu Hin) as Hf.
  split; [exact Hf |]. unfold FileStore.stored. now rewrite Hf.
Qed.

Lemma file_ids_unique_witness :
  FileRecords.unique_ids sample_file_two /\
  FileRecords.unique_ids (after (Toggle "task-0000") sample_file_two).
Proof.
  assert (H : FileRecords.unique_ids sample_file_two).
  { apply (proj1 (proj2 file_ids_unique)). unfold sample_file_two, sample_file.
    do 2 apply FileStore.reach_call. now apply FileStore.reach_new. }
  split; [exact H |]. now apply (proj1 file_ids_unique).
Defined.

(** X6. In every state the service reaches from an empty store, on either
    backend, with a clock that does not run backwards: every stored record
    was created no later than it was last updated, and last updated no later
    than any reading of the clock still to come; so an item that [get_task]
    returns has [created_at <= updated_at]. *)
Theorem created_before_updated :
  (forall s : SQLite.St,
     FileStore.reachable s -> clock_monotone (world s) ->
     FileRecords.ordered_stamps s /\
     forall i it s', get_task i s = (Ok (Some it), s') ->
                     dt_le (created_at it) (updated_at it)) /\
  (forall s : AzureTable.St,
     TableStore.reachable s -> clock_monotone (world s) ->
     TableRecords.ordered_stamps s /\
     forall i it s', get_task i s = (Ok (Some it), s') ->
                     dt_le (created_at it) (updated_at it)).
Proof.
  split; intros s Hreach Hmono.
  - pose proof (ordered_stamps_reachable s Hreach Hmono) as Hinv.
    split; [exact Hinv |]. intros i it s' E.
    apply get_task_stored in E as (r & Hs & Hp).
    apply stored_has_id in Hs as (_ & Hin).
    destruct (Hinv r Hin) as (it' & Hp' & Hle & _). congruence.
  - pose proof (table_ordered_stamps_reachable s Hreach Hmono) as Hinv.
    split; [exact Hinv |]. intros i it s' E.
    assert (exists e, TableStore.stored i s = Some e) as (e & Hs).
    { cbn [get_task get_item AzureTable.backend] in E.
      destruct (get_item_cases _ _ _ _ E) as (_ & _ & _ & _ & [H | H]); [discriminate |].
      destruct H as (it1 & e & _ & Hs & _). eauto. }
    destruct (Hinv _ _ Hs) as (item & -> & Hle & _).
    destruct (table_get_task_item _ _ _ _ _ E Hs) as (-> & -> & _). exact Hle.
Qed.

Lemma created_before_updated_witness :
  (exists it, fst (get_task "task-0001" sample_file_two) = Ok (Some it) /\
              dt_le (created_at it) (updated_at it)) /\
  (exists it, fst (get_task "task-0001" sample_table_two) = Ok (Some it) /\
              dt_le (created_at it) (updated_at it)).
Proof.
  split.
  - assert (Hreach : FileStore.reachable sample_file_two).
    { unfold sample_file_two, sample_file.
      do 2 apply FileStore.reach_call. now apply FileStore.reach_new. }
    assert (E : exists it, fst (get_task "task-0001" sample_file_two) = Ok (Some it))
      by (eexists; vm_compute; reflexivity).
    destruct E as [it E]. exists it. split; [exact E |].
    exact (proj2 (proj1 created_before_updated _ Hreach sample_file_two_monotone)
                 _ _ _ (pair_fst _ _ E)).
  - assert (Hreach : TableStore.reachable sample_table_two).
    { unfold sample_table_two, sample_table.
      do 2 apply TableStore.reach_call. now apply TableStore.reach_new. }
    assert (E : exists it, fst (get_task "task-0001" sample_table_two) = Ok (Some it))
      by (eexists; vm_compute; reflexivity).
    destruct E as [it E]. exists it. split; [exact E |].
    exact (proj2 (proj2 created_before_updated _ Hreach sample_table_two_monotone)
                 _ _ _ (pair_fst _ _ E)).
Defined.

(** X7. On the table store, in every state reached from an empty table,
    each stored entity is the entity of an item, under the id of that item.
    In such a state, with the client bound and the request going through,
    [get_all_tasks] returns the stored items, each exactly once, in the
    order in which the service lists the entities (no ordering by creation
    time is asked for), and reads no clock. *)
Theorem table_lists_stored_items :
  (forall s : AzureTable.St, TableStore.reachable s -> TableRecords.well_formed s) /\
  (forall s : AzureTable.St,
     TableRecords.well_formed s ->
     AzureTable.table_client (self s) = true -> next_fault (world s) = None ->
     exists items,
       get_all_tasks s = (Ok items, after_call s) /\
       TableStore.create_entity_of <$> items = TableRecords.listed s /\
       NoDup items /\
       length items = size (cloud (world s)) /\
       forall it, it ∈ items <->
                  TableStore.stored (id it) s = Some (TableStore.create_entity_of it)).
Proof.
  split; [exact well_formed_reachable |].
  intros s Hwf Hc Hf. destruct (table_listed s Hwf) as (items & Hl & Hn & Hlen & Hin).
  exists items. split; [| now rewrite Hl].
  cbn [get_all_tasks get_all_items AzureTable.backend].
  now rewrite table_get_all_items_listed, Hl, table_for_each_items.
Qed.

Lemma table_lists_stored_items_witness :
  exists items,
    fst (get_all_tasks sample_table_two) = Ok items /\ length items = 2%nat /\
    forall it, it ∈ items <->
               TableStore.stored (id it) sample_table_two
               = Some (TableStore.create_entity_of it).
Proof.
  assert (Hwf : TableRecords.well_formed sample_table_two).
  { apply (proj1 table_lists_stored_items). unfold sample_table_two, sample_table.
    do 2 apply TableStore.reach_call. now apply TableStore.reach_new. }
  destruct (proj2 table_lists_stored_items sample_table_two Hwf)
    as (items & E & _ & _ & Hlen & Hin); [vm_compute; reflexivity .. |].
  exists items. rewrite E. split; [reflexivity |]. split; [| exact Hin].
  rewrite Hlen. vm_compute. reflexivity.
Defined.

(** X8. On the table store [get_task] never raises.  While the client is
    not bound, or when the request fails for any reason, it returns the
    absent value, also for an id that is stored; [update_task] and
    [toggle_task] then return the absent value as well, and write
    nothing. *)
Theorem table_get_task_masks_faults :
  (forall (i : string) (s : AzureTable.St), exists r, fst (get_task i s) = Ok r) /\
  (forall (i : string) (t : option string) (c : option bool) (s : AzureTable.St),
     AzureTable.table_client (self s) = false ->
     get_task i s = (Ok None, s) /\
     update_task i t c s = (Ok None, s) /\
     toggle_task i s = (Ok None, s)) /\
  (forall (i : string) (t : option string) (c : option bool) (s : AzureTable.St) (e : exn),
     AzureTable.table_client (self s) = true -> next_fault (world s) = Some e ->
     get_task i s = (Ok None, after_call s) /\
     update_task i t c s = (Ok None, after_call s) /\
     toggle_task i s = (Ok None, after_call s)).
Proof.
  split; [| split].
  - intros i s. cbn [get_task get_item AzureTable.backend].
    destruct (AzureTable.get_item i s) as [res s'] eqn:E.
    destruct (get_item_cases _ _ _ _ E) as (_ & _ & _ & _ & [-> | (it & e & -> & _)]);
      cbn; eauto.
  - intros i t c s Hc. destruct (table_get_item_masked i s) as (H & _).
    specialize (H Hc). split; [exact H |].
    rewrite update_task_shape, toggle_task_shape, !fetch_change_write_table, H.
    now split.
  - intros i t c s e Hc Hf. destruct (table_get_item_masked i s) as (_ & H).
    specialize (H e Hc Hf). split; [exact H |].
    rewrite update_task_shape, toggle_task_shape, !fetch_change_write_table, H.
    now split.
Qed.

(** The second task of the sample table is stored, and is not found while
    the credentials are rejected. *)
Lemma table_get_task_masks_faults_witness :
  (exists e, TableStore.stored "task-0001" sample_table_denied = Some e) /\
  get_task "task-0001" sample_table_denied = (Ok None, after_call sample_table_denied) /\
  toggle_task "task-0001" sample_table_denied = (Ok None, after_call sample_table_denied).
Proof.
  split.
  - apply is_Some_computed. vm_compute. reflexivity.
  - destruct (proj2 (proj2 table_get_task_masks_faults) "task-0001" None None
                sample_table_denied ClientAuthenticationError) as (H1 & _ & H3);
      [vm_compute; reflexivity .. |].
    now split.
Defined.

(** X9. A backend used before [initialize].  Every method of the file
    store, as its constructor leaves it, raises [AttributeError] and writes
    nothing; [update_item] has read the clock by then.  On the table store,
    as its constructor leaves it, [add_item], [get_all_items] and
    [update_item] raise [AttributeError], whereas [get_item] returns the
    absent value and [delete_item] returns false; nothing is written. *)
Theorem methods_before_initialize :
  (forall (w : World) (path : string) (item : TodoItem) (i : string),
     let s := mkSys w (SQLiteTodoBackend_init path) in
     fst (add_item item s) = Raise AttributeError /\
     disk (world (snd (add_item item s))) = disk w /\
     get_item i s = (Raise AttributeError, s) /\
     get_all_items s = (Raise AttributeError, s) /\
     update_item item s = (Raise AttributeError, after_now s) /\
     delete_item i s = (Raise AttributeError, s)) /\
  (forall (w : World) (cs : option string) (tn : string) (an au : option string)
          (wi : bool) (be : AzureTable.AzureTableTodoBackend) (item : TodoItem) (i : string),
     AzureTable.init cs tn an au wi w = Ok be ->
     let s := mkSys w be in
     fst (add_item item s) = Raise AttributeError /\
     cloud (world (snd (add_item item s))) = cloud w /\
     get_item i s = (Ok None, s) /\
     get_all_items s = (Raise AttributeError, s) /\
     update_item item s = (Raise AttributeError, after_now s) /\
     delete_item i s = (Ok false, s)).
Proof.
  split.
  - intros w path item i s. cbn [add_item get_item get_all_items update_item delete_item
                                 SQLite.backend].
    rewrite SQLiteFacts.add_item_eq, SQLiteFacts.get_item_eq, SQLiteFacts.update_item_eq,
      SQLiteFacts.delete_item_eq.
    unfold FileStore.identified.
    split; [now destruct (String.eqb (id item) "") |].
    split; [now destruct (String.eqb (id item) "") |].
    repeat split.
  - intros w cs tn an au wi be item i Hinit s.
    apply init_unbound in Hinit.
    cbn [add_item get_item get_all_items update_item delete_item AzureTable.backend].
    rewrite table_add_item_eq, table_update_item_eq, table_delete_item_eq, delete_entity_eq.
    unfold TableStore.identified. subst s. cbn [self world]. rewrite Hinit.
    split; [now destruct (String.eqb (id item) "") |].
    split; [now destruct (String.eqb (id item) "") |].
    split; [now apply (table_get_item_masked i (mkSys w be)) |].
    split; [| now split].
    unfold AzureTable.get_all_items, AzureTable.query_entities_todos, bind.
    rewrite request_eq. cbn [self]. now rewrite Hinit.
Qed.

Lemma methods_before_initialize_witness :
  let be := AzureTable.mkBackend "todos" None None (Some "UseDevelopmentStorage=true")
                                 false false in
  AzureTable.init (Some "UseDevelopmentStorage=true") "todos" None None false sample_world
  = Ok be /\
  get_item "task-0000" (mkSys sample_world be) = (Ok None, mkSys sample_world be) /\
  delete_item "task-0000" (mkSys sample_world be) = (Ok false, mkSys sample_world be) /\
  get_all_items (mkSys sample_world be) = (Raise AttributeError, mkSys sample_world be).
Proof.
  intros be.
  assert (Hinit : AzureTable.init (Some "UseDevelopmentStorage=true") "todos" None None
                                  false sample_world = Ok be)
    by (vm_compute; reflexivity).
  split; [exact Hinit |].
  destruct (proj2 methods_before_initialize sample_world
              (Some "UseDevelopmentStorage=true") "todos" None None false be
              (mkTodoItem "x" "y" false epoch epoch) "task-0000" Hinit)
    as (_ & _ & H3 & H4 & _ & H6).
  now repeat split.
Defined.



(** X11. [update_item] for an id under which nothing is stored: the two
    backends differ.  On an initialized file store whose engine accepts the
    call, the UPDATE matches no row; the method returns the item, stamped
    with the reading of the clock, as if it had been saved, and the table is
    as it was.  On the table store, with the client bound and the request
    going through, the method raises the service's entity-not-found, and the
    table is as it was. *)
Theorem update_item_missing :
  (forall (item : TodoItem) (s : SQLite.St),
     FileStore.opened s -> next_fault (world s) = None ->
     FileStore.stored (id item) s = None ->
     exists s',
       update_item item s =
         (Ok (set_updated_at (clock (world s) (ticks (world s))) item), s') /\
       disk (world s') = disk (world s)) /\
  (forall (item : TodoItem) (s : AzureTable.St),
     AzureTable.table_client (self s) = true -> next_fault (world s) = None ->
     TableStore.stored (id item) s = None ->
     exists s',
       update_item item s = (Raise ResourceNotFoundError, s') /\
       cloud (world s') = cloud (world s)).
Proof.
  split.
  - intros item s (Hc & Hn) Hf Hs. cbn [update_item SQLite.backend].
    rewrite SQLiteFacts.update_item_eq, Hc, Hf, Hn. cbv zeta.
    eexists. split; [reflexivity |]. cbn.
    apply updated_table_absent. now apply stored_none_filter.
  - intros item s Hc Hf Hs. cbn [update_item AzureTable.backend].
    rewrite table_update_item_eq, Hc, Hf. cbv zeta.
    unfold TableStore.stored in Hs. rewrite Hs. eexists. split; [reflexivity |]. now cbn.
Qed.

Lemma update_item_missing_witness :
  (exists s',
     update_item (mkTodoItem "no-such-id" "Ghost" true epoch epoch) sample_file_two =
       (Ok (mkTodoItem "no-such-id" "Ghost" true epoch
              (clock (world sample_file_two) (ticks (world sample_file_two)))), s') /\
     disk (world s') = disk (world sample_file_two)) /\
  (exists s',
     update_item (mkTodoItem "no-such-id" "Ghost" true epoch epoch) sample_table_two =
       (Raise ResourceNotFoundError, s') /\
     cloud (world s') = cloud (world sample_table_two)).
Proof.
  split.
  - apply (proj1 update_item_missing (mkTodoItem "no-such-id" "Ghost" true epoch epoch)
             sample_file_two);
      [split |..]; vm_compute; reflexivity.
  - apply (proj2 update_item_missing (mkTodoItem "no-such-id" "Ghost" true epoch epoch)
             sample_table_two); vm_compute; reflexivity.
Defined.

(** X12. [add_item] and the id of the item.  An item whose id is empty is
    given the next uuid before it is stored, and it is stored and returned
    under that uuid; an item whose id is not empty is stored under its own
    id, and no uuid is drawn.  (File store: initialized, the engine accepts
    the call; table store: client bound, the request goes through; in both,
    the id used is free.) *)
Theorem add_item_assigns_id :
  (forall (item : TodoItem) (s : SQLite.St),
     let item' := fst (FileStore.identified item s) in
     FileStore.opened s -> next_fault (world s) = None ->
     FileStore.stored (id item') s = None ->
     (id item = "" -> item' = set_id (uuids (world s) (drawn (world s))) item) /\
     (id item <> "" -> item' = item) /\
     exists s',
       add_item item s = (Ok item', s') /\
       FileStore.stored (id item') s' = Some (SQLite.item_row item') /\
       drawn (world s') = (if String.eqb (id item) "" then S (drawn (world s))
                           else drawn (world s))) /\
  (forall (item : TodoItem) (s : AzureTable.St),
     let item' := fst (TableStore.identified item s) in
     AzureTable.table_client (self s) = true -> next_fault (world s) = None ->
     TableStore.stored (id item') s = None ->
     (id item = "" -> item' = set_id (uuids (world s) (drawn (world s))) item) /\
     (id item <> "" -> item' = item) /\
     exists s',
       add_item item s = (Ok item', s') /\
       TableStore.stored (id item') s' = Some (TableStore.create_entity_of item') /\
       drawn (world s') = (if String.eqb (id item) "" then S (drawn (world s))
                           else drawn (world s))).
Proof.
  split.
  - intros item s item' (Hc & Hn) Hf Hs.
    split; [intros Hi; subst item'; unfold FileStore.identified; now rewrite Hi |].
    split.
    { intros Hi; subst item'; unfold FileStore.identified.
      apply String.eqb_neq in Hi. now rewrite Hi. }
    cbn [add_item SQLite.backend]. rewrite SQLiteFacts.add_item_eq.
    subst item'. destruct (FileStore.identified item s) as [item1 s1] eqn:Eid.
    cbn [fst] in *. rewrite Hc, Hf, Hn.
    assert (Hex : existsb (SQLite.has_id (id item1)) (disk (world s)) = false).
    { apply stored_none_filter in Hs.
      destruct (existsb _ _) eqn:Hex; [| done].
      apply existsb_exists in Hex as (r & Hin & Hr). apply list_elem_of_In in Hin.
      assert (r ∈ filter (fun r => SQLite.has_id (id item1) r = true) (disk (world s)))
        by now apply list_elem_of_filter.
      rewrite Hs in H. now apply elem_of_nil in H. }
    rewrite Hex. eexists. split; [reflexivity |]. split.
    + eapply (stored_append (id item1) s _ (SQLite.item_row item1)); [reflexivity | exact Hex].
    + unfold FileStore.identified in Eid.
      destruct (String.eqb (id item) ""); injection Eid as <- <-; reflexivity.
  - intros item s item' Hc Hf Hs.
    split; [intros Hi; subst item'; unfold TableStore.identified; now rewrite Hi |].
    split.
    { intros Hi; subst item'; unfold TableStore.identified.
      apply String.eqb_neq in Hi. now rewrite Hi. }
    cbn [add_item AzureTable.backend]. rewrite table_add_item_eq.
    subst item'. destruct (TableStore.identified item s) as [item1 s1] eqn:Eid.
    cbn [fst] in *. rewrite Hc, Hf. unfold TableStore.stored in *. rewrite Hs.
    eexists. split; [reflexivity |]. split.
    + cbn. apply lookup_insert_eq.
    + unfold TableStore.identified in Eid.
      destruct (String.eqb (id item) ""); injection Eid as <- <-; reflexivity.
Qed.

Lemma add_item_assigns_id_witness :
  exists s',
    add_item (mkTodoItem "" "Call home" false epoch epoch) sample_file_two =
      (Ok (mkTodoItem "task-0002" "Call home" false epoch epoch), s') /\
    FileStore.stored "task-0002" s' =
      Some (SQLite.item_row (mkTodoItem "task-0002" "Call home" false epoch epoch)).
Proof.
  destruct (proj1 add_item_assigns_id (mkTodoItem "" "Call home" false epoch epoch)
              sample_file_two) as (_ & _ & s' & H1 & H2 & _);
    [split; vm_compute; reflexivity | vm_compute; reflexivity ..|].
  exists s'. split; [exact H1 | exact H2].
Defined.





Lemma parse_timestamp_dom {B} (key : string) (data data' : dict) (s s' : Sys B) :
  parse_timestamp key data s = (Ok data', s') -> dom data ⊆ dom data'.
Proof.
  unfold parse_timestamp.
  destruct (data !! key) as [[| | | str |] |]; try (now intros [= <- _]).
  destruct (fromisoformat str); [| discriminate].
  intros [= <- _]. rewrite dom_insert. set_solver.
Qed.

(** X14. What [from_dict] asks of a mapping, and what it fills in.  It
    returns an item only for a mapping whose keys are among the five
    parameters of the constructor and which has an id and a title (the
    returned ones).  A mapping with the id and the title alone gives an item
    that is not completed and carries two successive readings of the clock,
    the creation time first.  Timestamps given as [datetime] objects are
    taken as they are, and no clock is read. *)
Theorem from_dict_requirements (B : Type) (s : Sys B) :
  (forall (data : dict) (it : TodoItem) (s' : Sys B),
     from_dict data s = (Ok it, s') ->
     dom data ⊆ parameters /\
     data !! "id" = Some (VStr (id it)) /\
     data !! "title" = Some (VStr (title it))) /\
  (forall i t : string,
     from_dict (<[ "id" := VStr i ]> (<[ "title" := VStr t ]> ∅)) s =
     (Ok (mkTodoItem i t false (clock (world s) (ticks (world s)))
                     (clock (world s) (S (ticks (world s))))),
      after_now (after_now s))) /\
  (forall (i t : string) (c : bool) (dc du : datetime),
     from_dict (<[ "id" := VStr i ]> (<[ "title" := VStr t ]>
               (<[ "completed" := VBool c ]> (<[ "created_at" := VDatetime dc ]>
               (<[ "updated_at" := VDatetime du ]> ∅))))) s =
     (Ok (mkTodoItem i t c dc du), s)).
Proof.
  split; [| split].
  - intros data it s' E. destruct (from_dict_inv _ _ _ _ E) as (Hi & Ht & _).
    split; [| now split].
    unfold from_dict, bind in E.
    destruct (parse_timestamp "created_at" data s) as [[d1 | e] s1] eqn:E1; [| discriminate].
    destruct (parse_timestamp "updated_at" d1 s1) as [[d2 | e] s2] eqn:E2; [| discriminate].
    apply parse_timestamp_dom in E1, E2.
    unfold TodoItem_call in E.
    destruct (decide (dom d2 ⊆ parameters)) as [Hd |]; [| discriminate].
    etrans; [exact E1 |]. etrans; [exact E2 | exact Hd].
  - intros i t. unfold from_dict, bind, parse_timestamp.
    rewrite !lookup_insert_ne by done. rewrite lookup_empty.
    unfold ret at 1.
    rewrite !lookup_insert_ne by done. rewrite lookup_empty.
    unfold ret at 1. unfold TodoItem_call.
    rewrite decide_True.
    + reflexivity.
    + rewrite !dom_insert_L, dom_empty_L. unfold parameters.
      intros x Hx. set_unfold. tauto.
  - intros i t c dc du. unfold from_dict, bind, parse_timestamp.
    rewrite !lookup_insert_ne by done. rewrite lookup_insert_eq.
    unfold ret at 1.
    rewrite !lookup_insert_ne by done. rewrite lookup_insert_eq.
    unfold ret at 1. unfold TodoItem_call.
    rewrite decide_True.
    + reflexivity.
    + rewrite !dom_insert_L, dom_empty_L. unfold parameters. set_solver.
Qed.

Lemma from_dict_requirements_witness :
  exists it,
    fst (from_dict (five "a" "Buy milk" true "2024-01-01" "2024-01-02") sample_file) = Ok it /\
    five "a" "Buy milk" true "2024-01-01" "2024-01-02" !! "title" = Some (VStr (title it)) /\
    dom (five "a" "Buy milk" true "2024-01-01" "2024-01-02") ⊆ parameters.
Proof.
  assert (E : exists it,
             fst (from_dict (five "a" "Buy milk" true "2024-01-01" "2024-01-02") sample_file)
             = Ok it)
    by (eexists; vm_compute; reflexivity).
  destruct E as (it & E). exists it. split; [exact E |].
  destruct (proj1 (from_dict_requirements _ sample_file) _ _ _ (pair_fst _ _ E))
    as (Hdom & _ & Ht).
  now split.
Defined.

(** X15. The API's choice of the file store.  When [TODO_BACKEND] is not
    set, or is anything but [azure] (in any letter case), or when the Azure
    packages are missing whatever [TODO_BACKEND] says, [get_todo_service]
    returns an initialized service over the SQLite file named by
    [SQLITE_DB_PATH] ([todo.db] when unset).  No Azure setting is consulted,
    so no configuration error is possible: the call raises only when the
    engine fails.  Building the service never changes the stored rows. *)
Theorem api_service_file :
  (forall w : World,
     Api.azure_selected w = false ->
     Api.get_todo_service w =
     (match next_fault w with
      | Some e => Raise e
      | None => Ok (Api.FileService
                      (SQLite.mkBackend (default "todo.db" (environ w !! "SQLITE_DB_PATH"))
                                        true true))
      end,
      set_faults (tail (faults w)) w)) /\
  (forall w : World, AZURE_AVAILABLE w = false -> Api.azure_selected w = false) /\
  (forall w : World, environ w !! "TODO_BACKEND" = None -> Api.azure_selected w = false) /\
  (forall w : World,
     Api.azure_selected w = false ->
     disk (snd (Api.get_todo_service w)) = disk w /\
     environ (snd (Api.get_todo_service w)) = environ w).
Proof.
  split; [exact get_todo_service_file |]. split; [| split].
  - intros w Hav. unfold Api.azure_selected. rewrite Hav. apply andb_false_r.
  - intros w He. unfold Api.azure_selected. now rewrite He.
  - intros w Hsel. now rewrite (get_todo_service_file w Hsel).
Qed.

(** The table store is asked for, but its packages are missing: the API
    serves from the file [todo.db]. *)
Lemma api_service_file_witness :
  environ sample_world_azure_without_sdk !! "TODO_BACKEND" = Some "azure" /\
  fst (Api.get_todo_service sample_world_azure_without_sdk) =
  Ok (Api.FileService (SQLite.mkBackend "todo.db" true true)).
Proof.
  split; [reflexivity |].
  rewrite (proj1 api_service_file sample_world_azure_without_sdk).
  - reflexivity.
  - apply (proj1 (proj2 api_service_file)). reflexivity.
Defined.



(** X17. What the API answers with 404.  Over an initialized file store
    whose engine does not fail, [GET], [PATCH], [toggle] and [DELETE] for an
    id under which nothing is stored raise the [HTTPException] with status
    404 and detail [Todo not found], and change nothing.  Over the table
    store the same four answer 404 [Todo not found] whenever the request to
    the service fails, for whatever reason and also for an id that is
    stored; [GET] and [DELETE] never let an exception of the storage
    through. *)
Theorem api_not_found :
  (forall (i : string) (todo : Api.TodoItemUpdate) (s : SQLite.St),
     FileStore.ready s -> FileStore.stored i s = None ->
     Api.get_todo i s = (Ok Api.not_found, s) /\
     Api.update_todo i todo s = (Ok Api.not_found, s) /\
     Api.toggle_todo i s = (Ok Api.not_found, s) /\
     Api.delete_todo i s = (Ok Api.not_found, s)) /\
  (forall (i : string) (todo : Api.TodoItemUpdate) (s : AzureTable.St) (e : exn),
     AzureTable.table_client (self s) = true -> next_fault (world s) = Some e ->
     Api.get_todo i s = (Ok Api.not_found, after_call s) /\
     Api.update_todo i todo s = (Ok Api.not_found, after_call s) /\
     Api.toggle_todo i s = (Ok Api.not_found, after_call s) /\
     Api.delete_todo i s = (Ok Api.not_found, after_call s)) /\
  (forall (i : string) (s : AzureTable.St),
     (exists r, fst (Api.get_todo i s) = Ok r) /\
     (exists r, fst (Api.delete_todo i s) = Ok r)).
Proof.
  split; [| split].
  - intros i [t c] s Hr Hs.
    destruct (file_not_found i t c s Hr Hs) as (H1 & H2 & H3 & H4).
    unfold Api.get_todo, Api.update_todo, Api.toggle_todo, Api.delete_todo, bind.
    cbn [Api.update_title Api.update_completed].
    now rewrite H1, H2, H3, H4.
  - intros i [t c] s e Hc Hf.
    destruct (table_get_item_masked i s) as (_ & H). specialize (H e Hc Hf).
    unfold Api.get_todo, Api.update_todo, Api.toggle_todo, Api.delete_todo, bind.
    cbn [Api.update_title Api.update_completed].
    rewrite update_task_shape, toggle_task_shape, !fetch_change_write_table.
    cbn [get_task delete_task get_item delete_item AzureTable.backend].
    rewrite H, table_delete_item_eq, delete_entity_eq, Hc, Hf. now cbn.
  - intros i s. split.
    + unfold Api.get_todo, bind. cbn [get_task get_item AzureTable.backend].
      destruct (AzureTable.get_item i s) as [res s'] eqn:E.
      destruct (get_item_cases _ _ _ _ E) as (_ & _ & _ & _ & [-> | (it & e & -> & _)]);
        cbn; eauto.
    + unfold Api.delete_todo, bind. cbn [delete_task delete_item AzureTable.backend].
      rewrite table_delete_item_eq.
      destruct (is_ok _); cbn; eauto.
Qed.

Lemma api_not_found_witness :
  Api.get_todo "no-such-id" sample_file_two = (Ok Api.not_found, sample_file_two) /\
  (exists e, TableStore.stored "task-0001" sample_table_denied = Some e) /\
  Api.get_todo "task-0001" sample_table_denied
  = (Ok Api.not_found, after_call sample_table_denied) /\
  Api.delete_todo "task-0001" sample_table_denied
  = (Ok Api.not_found, after_call sample_table_denied).
Proof.
  destruct (proj1 api_not_found "no-such-id" (Api.mkUpdate None None) sample_file_two)
    as (H1 & _).
  { repeat split; vm_compute; reflexivity. }
  { vm_compute; reflexivity. }
  destruct (proj1 (proj2 api_not_found) "task-0001" (Api.mkUpdate None None)
              sample_table_denied ClientAuthenticationError)
    as (H2 & _ & _ & H3); [vm_compute; reflexivity .. |].
  split; [exact H1 |]. split; [| split; [exact H2 | exact H3]].
  apply is_Some_computed. vm_compute. reflexivity.
Defined.




(** X19. The command [complete] of the command line, over an initialized
    file store whose engine does not fail.  For an id under which nothing is
    stored it prints [Task not found: <id>] and changes nothing.  For a
    stored row that reads as an item it prints [Task completed: <id>] and
    the line of the task with the check mark; afterwards the row is stored
    as completed, whatever it was before, with its title and its creation
    time as they were. *)
Theorem cli_complete_task :
  (forall (i : string) (s : SQLite.St),
     FileStore.ready s -> FileStore.stored i s = None ->
     Cli.complete_task i s = (Ok ["Task not found: " ++ i], s)) /\
  (forall (i : string) (s : SQLite.St) (r : DbRow) (it : TodoItem),
     FileStore.ready s -> FileStore.stored i s = Some r ->
     FileStore.parse_row r = Some it ->
     exists s' r',
       Cli.complete_task i s =
         (Ok ["Task completed: " ++ i; i ++ ": [✓] " ++ row_title r], s') /\
       FileStore.stored i s' = Some r' /\
       FileStore.flag r' = true /\
       row_title r' = row_title r /\
       row_created_at r' = row_created_at r).
Proof.
  split.
  - intros i s Hr Hs. unfold Cli.complete_task, bind.
    destruct (file_not_found i None (Some true) s Hr Hs) as (_ & -> & _). reflexivity.
  - intros i s r it Hr Hs Hp.
    destruct (fetch_change_write_succeeds (patched None (Some true)) i s r it Hr Hs Hp)
      as (s' & E).
    pose proof E as Hok.
    apply fetch_change_write_file_ok in Hok
      as (r0 & it0 & Hs0 & Hp0 & _ & _ & _ & _ & _ & _ & Hd).
    rewrite Hs in Hs0. injection Hs0 as <-. rewrite Hp in Hp0. injection Hp0 as <-.
    destruct (stored_has_id _ _ _ Hs) as (Hri & _).
    destruct (parse_row_id _ _ Hp) as (Hid & Hti & _).
    assert (Hci : id (patched None (Some true) it) = i) by (cbn; congruence).
    rewrite <- Hci in Hs. pose proof (stored_updated _ _ _ _ _ Hd Hs) as Hs'.
    rewrite Hci in Hs'.
    exists s'. eexists. split; [| split; [exact Hs' | now cbn]].
    unfold Cli.complete_task, bind. rewrite update_task_shape, E.
    unfold ret, Cli.print_task. cbn. now rewrite Hid, Hri, Hti.
Qed.

Lemma cli_complete_task_witness :
  Cli.complete_task "no-such-id" sample_file_two
  = (Ok ["Task not found: no-such-id"], sample_file_two) /\
  exists s' r',
    fst (Cli.complete_task "task-0000" sample_file_two)
    = Ok ["Task completed: task-0000"; "task-0000: [✓] Buy milk"] /\
    FileStore.stored "task-0000" s' = Some r' /\ FileStore.flag r' = true.
Proof.
  assert (Hr : FileStore.ready sample_file_two) by (repeat split; vm_compute; reflexivity).
  split.
  - apply (proj1 cli_complete_task "no-such-id" sample_file_two Hr).
    vm_compute. reflexivity.
  - assert (E : exists it, FileStore.parse_row
                  (mkRow "task-0000" "Buy milk" 0 "2024-01-01T00:00:00"
                         "2024-01-01T00:00:00.000001") = Some it)
      by (eexists; vm_compute; reflexivity).
    destruct E as (it & E).
    destruct (proj2 cli_complete_task "task-0000" sample_file_two
                (mkRow "task-0000" "Buy milk" 0 "2024-01-01T00:00:00"
                       "2024-01-01T00:00:00.000001") it Hr)
      as (s' & r' & H1 & H2 & H3 & _); [vm_compute; reflexivity | exact E |].
    exists s', r'. rewrite H1. split; [reflexivity |]. split; [exact H2 | exact H3].
Defined.

(** X20. The command [list] of the command line, over an initialized file
    store whose engine does not fail and whose rows are as the backend
    writes them.  It prints [No tasks found.] exactly when the table is
    empty; otherwise it prints the two heading texts and then one line for
    each stored row, the most recently created first.  It changes
    nothing. *)
Theorem cli_list_tasks (s : SQLite.St) :
  FileStore.ready s -> Forall FileStore.canonical (disk (world s)) ->
  exists items,
    get_all_tasks s = (Ok items, s) /\
    Sorted FileStore.newest_first items /\
    length items = length (disk (world s)) /\
    Cli.list_tasks s =
      (Ok (match disk (world s) with
           | [] => ["No tasks found."]
           | _ => (Cli.LF ++ "Tasks:") :: "------" :: flat_map Cli.print_task items
           end), s) /\
    length (flat_map Cli.print_task items) = length (disk (world s)).
Proof.
  intros Hr Hcan.
  destruct (get_all_items_sorted s Hr Hcan) as (items & E & Hperm & Hsort).
  assert (Hlen : length items = length (disk (world s))).
  { apply Permutation_length in Hperm. now rewrite !length_fmap in Hperm. }
  exists items. split; [exact E |]. split; [exact Hsort |]. split; [exact Hlen |].
  split.
  - unfold Cli.list_tasks, bind. cbn [get_all_tasks get_all_items SQLite.backend].
    rewrite E. destruct (disk (world s)), items; try discriminate; reflexivity.
  - rewrite <- Hlen. clear. induction items as [| it items IH]; [reflexivity |].
    cbn. now rewrite IH.
Qed.

Lemma cli_list_tasks_witness :
  exists items,
    get_all_tasks sample_file_two = (Ok items, sample_file_two) /\
    Cli.list_tasks sample_file_two
    = (Ok ((Cli.LF ++ "Tasks:") :: "------" :: flat_map Cli.print_task items),
       sample_file_two) /\
    length (flat_map Cli.print_task items) = 2%nat.
Proof.
  assert (Hr : FileStore.ready sample_file_two) by (repeat split; vm_compute; reflexivity).
  assert (Hreach : FileStore.reachable sample_file_two).
  { unfold sample_file_two, sample_file.
    do 2 apply FileStore.reach_call. now apply FileStore.reach_new. }
  destruct (cli_list_tasks sample_file_two Hr (reachable_canonical _ Hreach))
    as (items & H1 & _ & _ & H2 & H3).
  assert (Hd : exists r l, disk (world sample_file_two) = r :: l)
    by (do 2 eexists; vm_compute; reflexivity).
  destruct Hd as (r & l & Hd). rewrite Hd in H2, H3.
  exists items. split; [exact H1 |]. split; [exact H2 |].
  rewrite H3. f_equal.
  assert (Hl : length (disk (world sample_file_two)) = 2%nat) by (vm_compute; reflexivity).
  rewrite Hd in Hl. now injection Hl.
Defined.

Lemma body_of_row (r : DbRow) (it : TodoItem) :
  FileStore.canonical r -> FileStore.parse_row r = Some it ->
  to_dict it = SQLite.row_dict r.
Proof.
  intros (Hca & Hua) Hp.
  destruct (parse_row_id _ _ Hp) as (Hi & Ht & Hc & Pca & Pua).
  apply canonical_text_inv in Hca as (dc & Hdc & Hic).
  apply canonical_text_inv in Hua as (du & Hdu & Hiu).
  rewrite to_dict_five, row_dict_five, Hi, Ht, Hc.
  replace (isoformat (created_at it)) with (row_created_at r) by congruence.
  replace (isoformat (updated_at it)) with (row_updated_at r) by congruence.
  reflexivity.
Qed.

Lemma bodies_of_rows (l : list DbRow) (items : list TodoItem) :
  Forall FileStore.canonical l ->
  Forall2 (fun r it => FileStore.parse_row r = Some it) l items ->
  to_dict <$> items = SQLite.row_dict <$> l.
Proof.
  intros Hcan Hall. induction Hall as [| r it l items Hp Hall IH]; [reflexivity |].
  apply Forall_cons in Hcan as [Hr Hcan].
  rewrite !fmap_cons, (body_of_row r it Hr Hp), (IH Hcan). reflexivity.
Qed.

(** X21. [GET /todos] over an initialized file store whose engine does not
    fail and whose rows are as the backend writes them: the bodies returned
    are those of the stored rows, in the order of [ORDER BY created_at DESC],
    each with the id, the title, the flag read as a boolean, and the two
    timestamps in the very text that is stored; nothing is changed. *)
Theorem api_list_todos (s : SQLite.St) :
  FileStore.ready s -> Forall FileStore.canonical (disk (world s)) ->
  Api.get_todos s =
  (Ok (Api.Return (SQLite.row_dict <$> SQLite.order_by_created_at_desc (disk (world s)))),
   s).
Proof.
  intros (Hc & Hn & Hf) Hcan.
  assert (Hcan' : Forall FileStore.canonical
                         (SQLite.order_by_created_at_desc (disk (world s)))).
  { now rewrite (order_by_perm (disk (world s))). }
  destruct (for_each_parse _ s Hcan') as (items & Hrun & Hall).
  unfold Api.get_todos. unfold bind at 1.
  cbn [get_all_tasks get_all_items SQLite.backend].
  unfold SQLite.get_all_items, bind.
  rewrite SQLiteFacts.execute_eq, Hc, (next_fault_quiet _ Hf).
  cbn [SQLite.run_stmt SQLite.rows].
  rewrite SQLiteFacts.select_state, after_call_quiet by done.
  rewrite Hrun. unfold ret. now rewrite (bodies_of_rows _ _ Hcan' Hall).
Qed.

Lemma api_list_todos_witness :
  Api.get_todos sample_file_two =
  (Ok (Api.Return
         (SQLite.row_dict <$> SQLite.order_by_created_at_desc (disk (world sample_file_two)))),
   sample_file_two) /\
  row_title <$> SQLite.order_by_created_at_desc (disk (world sample_file_two))
  = ["Walk the dog"; "Buy milk"].
Proof.
  split; [| vm_compute; reflexivity].
  apply api_list_todos.
  - repeat split; vm_compute; reflexivity.
  - apply reachable_canonical. unfold sample_file_two, sample_file.
    do 2 apply FileStore.reach_call. now apply FileStore.reach_new.
Defined.

Lemma main_environ (args : Main.Args) (w : World) :
  exists w',
    Main.export_arguments args w = (Ok tt, w') /\
    environ w' !! "TODO_BACKEND" = Some (Main.backend_name (Main.backend args)) /\
    AZURE_AVAILABLE w' = AZURE_AVAILABLE w /\ faults w' = faults w /\
    disk w' = disk w /\ cloud w' = cloud w /\
    forall key,
      key <> "TODO_BACKEND" -> key <> "LOG_LEVEL" -> key <> "LOG_TO_FILE" ->
      key <> "LOG_FILE_PATH" ->
      environ w' !! key =
      match Main.backend args with
      | Main.sqlite =>
          if String.eqb key "SQLITE_DB_PATH" && AzureTable.truthy (Main.db_path args)
          then Main.db_path args else environ w !! key
      | Main.azure =>
          if String.eqb key "AZURE_TABLE_NAME" && AzureTable.truthy (Main.azure_table args)
          then Main.azure_table args else environ w !! key
      end.
Proof.
  destruct args as [b dp at_ ll ltf lf].
  unfold Main.export_arguments, Main.putenv_if, bind, Main.putenv, ret.
  cbn [Main.backend Main.db_path Main.azure_table Main.log_level Main.log_to_file
       Main.log_file].
  destruct b; cbn [andb];
    destruct (AzureTable.truthy dp) eqn:Hdp; destruct (AzureTable.truthy at_) eqn:Hat;
    destruct (AzureTable.truthy ll); destruct ltf; destruct (AzureTable.truthy lf);
    (eexists; split; [reflexivity |]);
    cbn [environ AZURE_AVAILABLE faults disk cloud Main.set_environ];
    (split; [now rewrite ?lookup_insert_ne by done; rewrite lookup_insert_eq |]);
    do 4 (split; [reflexivity |]);
    intros key K1 K2 K3 K4;
    rewrite ?(lookup_insert_ne _ "LOG_FILE_PATH") by congruence;
    rewrite ?(lookup_insert_ne _ "LOG_TO_FILE") by congruence;
    rewrite ?(lookup_insert_ne _ "LOG_LEVEL") by congruence;
    rewrite ?andb_true_r, ?andb_false_r;
    try (destruct (String.eqb_spec key "SQLITE_DB_PATH") as [-> | Hk];
         [ rewrite ?lookup_insert_eq, ?(lookup_insert_ne _ "TODO_BACKEND") by done;
           try reflexivity; destruct dp; [reflexivity | discriminate]
         | rewrite ?(lookup_insert_ne _ "SQLITE_DB_PATH") by congruence;
           now rewrite (lookup_insert_ne _ "TODO_BACKEND") by congruence ]);
    try (destruct (String.eqb_spec key "AZURE_TABLE_NAME") as [-> | Hk];
         [ rewrite ?lookup_insert_eq, ?(lookup_insert_ne _ "TODO_BACKEND") by done;
           try reflexivity; destruct at_; [reflexivity | discriminate]
         | rewrite ?(lookup_insert_ne _ "AZURE_TABLE_NAME") by congruence;
           now rewrite (lookup_insert_ne _ "TODO_BACKEND") by congruence ]);
    now rewrite (lookup_insert_ne _ "TODO_BACKEND") by congruence.
Qed.

(** X22. The server's entry point exports its arguments to the environment
    before the service is built, and never fails doing so.  With
    [--backend sqlite] (the default) every request is served from the file
    store, whatever [TODO_BACKEND] said before, at [--db-path] when one is
    given and not empty and else at [SQLITE_DB_PATH] or [todo.db].  With
    [--backend azure] and the Azure packages missing, requests are still
    served from the file store, and [--db-path] is not looked at.  With
    [--backend azure] and the packages present the table store is selected,
    under the table name of [--azure-table] when given and not empty. *)
Theorem main_selects_backend (args : Main.Args) (w : World) :
  exists w',
    Main.export_arguments args w = (Ok tt, w') /\
    disk w' = disk w /\ cloud w' = cloud w /\
    (Main.backend args = Main.sqlite ->
     Api.get_todo_service w' =
     (match next_fault w with
      | Some e => Raise e
      | None =>
          Ok (Api.FileService
                (SQLite.mkBackend
                   (if AzureTable.truthy (Main.db_path args)
                    then default "" (Main.db_path args)
                    else default "todo.db" (environ w !! "SQLITE_DB_PATH"))
                   true true))
      end, set_faults (tail (faults w')) w')) /\
    (Main.backend args = Main.azure -> AZURE_AVAILABLE w = false ->
     Api.get_todo_service w' =
     (match next_fault w with
      | Some e => Raise e
      | None =>
          Ok (Api.FileService
                (SQLite.mkBackend (default "todo.db" (environ w !! "SQLITE_DB_PATH"))
                                  true true))
      end, set_faults (tail (faults w')) w')) /\
    (Main.backend args = Main.azure -> AZURE_AVAILABLE w = true ->
     Api.azure_selected w' = true /\
     environ w' !! "AZURE_TABLE_NAME" =
     if AzureTable.truthy (Main.azure_table args) then Main.azure_table args
     else environ w !! "AZURE_TABLE_NAME").
Proof.
  destruct (main_environ args w) as (w' & E & Hb & Hav & Hf & Hd & Hc & Hkey).
  exists w'. split; [exact E |]. split; [exact Hd |]. split; [exact Hc |].
  assert (Hnf : next_fault w' = next_fault w) by (unfold next_fault; now rewrite Hf).
  split; [| split].
  - intros Hs. rewrite Hs in Hb, Hkey.
    rewrite get_todo_service_file, Hnf.
    2:{ unfold Api.azure_selected. now rewrite Hb. }
    rewrite (Hkey "SQLITE_DB_PATH") by done. rewrite String.eqb_refl. cbn [andb].
    destruct (AzureTable.truthy (Main.db_path args)) eqn:Ht; [| reflexivity].
    destruct (Main.db_path args); [reflexivity | discriminate].
  - intros Ha Hno. rewrite Ha in Hb, Hkey.
    rewrite get_todo_service_file, Hnf.
    2:{ unfold Api.azure_selected. rewrite Hav, Hno. apply andb_false_r. }
    rewrite (Hkey "SQLITE_DB_PATH") by done. reflexivity.
  - intros Ha Hyes. rewrite Ha in Hb, Hkey. split.
    + unfold Api.azure_selected. now rewrite Hb, Hav, Hyes.
    + rewrite (Hkey "AZURE_TABLE_NAME") by done. now rewrite String.eqb_refl.
Qed.

(** In a process whose environment says [TODO_BACKEND=Azure] and holds a
    connection string, starting the server with [--backend sqlite --db-path
    /tmp/t.db] serves the file store at that path. *)
Lemma main_selects_backend_witness :
  exists w',
    Main.export_arguments
      (Main.mkArgs Main.sqlite (Some "/tmp/t.db") None None false None)
      sample_world_azure = (Ok tt, w') /\
    fst (Api.get_todo_service w')
    = Ok (Api.FileService (SQLite.mkBackend "/tmp/t.db" true true)).
Proof.
  destruct (main_selects_backend
              (Main.mkArgs Main.sqlite (Some "/tmp/t.db") None None false None)
              sample_world_azure) as (w' & E & _ & _ & Hs & _).
  exists w'. split; [exact E |].
  rewrite (Hs eq_refl).
  assert (Hf : next_fault sample_world_azure = None) by (vm_compute; reflexivity).
  rewrite Hf. reflexivity.
Defined.

(** X23. On the file store, a task that [add_task] returned is in the list
    that [get_all_tasks] returns next, which has one item for each record
    stored before and one for the new task, most recent first (the engine
    not failing, the rows before being as the backend writes them). *)
Theorem add_then_listed (t : string) (c : bool) (s s' : SQLite.St) (it : TodoItem) :
  add_task t c s = (Ok it, s') -> faults (world s') = [] ->
  Forall FileStore.canonical (disk (world s)) ->
  exists items,
    get_all_tasks s' = (Ok items, s') /\
    it ∈ items /\
    length items = S (length (disk (world s))) /\
    (forall r, r ∈ disk (world s) -> FileStore.parse_row r ∈ (Some <$> items)) /\
    Sorted FileStore.newest_first items.
Proof.
  intros E Hq Hcan.
  apply add_task_file_ok in E as (Hc & Hn & Hself & _ & _ & _ & Hd & _).
  assert (Hready : FileStore.ready s').
  { repeat split; [now rewrite Hself | now rewrite Hself | exact Hq]. }
  assert (Hcan' : Forall FileStore.canonical (disk (world s'))).
  { rewrite Hd. apply Forall_app. split; [exact Hcan |].
    apply Forall_singleton. split; apply canonical_text_isoformat. }
  destruct (get_all_items_sorted s' Hready Hcan') as (items & Hrun & Hperm & Hsorted).
  exists items. split; [exact Hrun |].
  assert (Hin : forall r, r ∈ disk (world s') -> FileStore.parse_row r ∈ (Some <$> items)).
  { intros r Hr. rewrite Hperm. now apply list_elem_of_fmap_2. }
  split; [| split; [| split; [| exact Hsorted]]].
  - assert (H : Some it ∈ (Some <$> items)).
    { rewrite <- (parse_item_row it). apply Hin. rewrite Hd.
      apply elem_of_app. right. apply list_elem_of_singleton. reflexivity. }
    apply list_elem_of_fmap in H as (x & [= ->] & Hx). exact Hx.
  - apply Permutation_length in Hperm. rewrite !length_fmap in Hperm.
    rewrite Hperm, Hd, length_app. cbn. lia.
  - intros r Hr. apply Hin. rewrite Hd. apply elem_of_app. now left.
Qed.

Lemma add_then_listed_witness :
  exists it items,
    fst (add_task "Call home" false sample_file_two) = Ok it /\
    fst (get_all_tasks (snd (add_task "Call home" false sample_file_two))) = Ok items /\
    it ∈ items /\ length items = 3%nat.
Proof.
  assert (E : exists it, fst (add_task "Call home" false sample_file_two) = Ok it)
    by (eexists; vm_compute; reflexivity).
  destruct E as [it E].
  assert (Hq : faults (world (snd (add_task "Call home" false sample_file_two))) = [])
    by (vm_compute; reflexivity).
  assert (Hcan : Forall FileStore.canonical (disk (world sample_file_two))).
  { apply reachable_canonical. unfold sample_file_two, sample_file.
    do 2 apply FileStore.reach_call. now apply FileStore.reach_new. }
  destruct (add_then_listed _ _ _ _ _ (pair_fst _ _ E) Hq Hcan)
    as (items & Hrun & Hin & Hlen & _).
  exists it, items. split; [exact E |]. split; [now rewrite Hrun |].
  split; [exact Hin |]. rewrite Hlen. vm_compute. reflexivity.
Defined.

End Properties.
